(** * VK content ingestion and scheduled publishing of the EuroBot backend

    A shallow embedding of [backend/app/routers/vk_integration.py],
    [backend/app/models/vk_integration.py] and of the scheduled publisher
    of [backend/app/main.py], and the properties of the import ledger,
    the text transformer, the category resolver and the two schedulers. *)

From Stdlib Require Import ZArith NArith List Lia Bool Ascii String.
From stdpp Require Import base tactics option list strings pretty.

Open Scope Z_scope.

(** ** Python strings

    A Python [str] is a sequence of Unicode code points: [len], slicing and
    the [re] module all count code points, so a string is a list of code
    points here. *)

Definition char := N.
Definition str := list char.

(** A source literal, read as its code points (ASCII literals only). *)
Definition lit (s : string) : str :=
  map N_of_ascii (list_ascii_of_string s).

(** The Unicode character database of the interpreter: [str.isspace] (used
    by [str.strip]), the [re] classes [\d] and [\w] of a [str] pattern, and
    [str.lower].  The tables belong to CPython, not to the repository. *)
Class UnicodeDB := {
  isspace : char -> bool;
  isdigit : char -> bool;
  isword : char -> bool;
  lower : str -> str
}.

(** The tables restricted to ASCII, where they agree with CPython's; code
    points from 128 on are in no class and are their own lower case. *)
Definition ascii_isspace (c : char) : bool :=
  ((9 <=? c) && (c <=? 13) || (28 <=? c) && (c <=? 32))%N.
Definition ascii_isdigit (c : char) : bool :=
  ((48 <=? c) && (c <=? 57))%N.
Definition ascii_isupper (c : char) : bool :=
  ((65 <=? c) && (c <=? 90))%N.
Definition ascii_islower (c : char) : bool :=
  ((97 <=? c) && (c <=? 122))%N.
Definition ascii_isword (c : char) : bool :=
  ascii_isdigit c || ascii_isupper c || ascii_islower c || (c =? 95)%N.
Definition ascii_lower_char (c : char) : char :=
  if ascii_isupper c then (c + 32)%N else c.

Definition ascii_db : UnicodeDB := {|
  isspace := ascii_isspace;
  isdigit := ascii_isdigit;
  isword := ascii_isword;
  lower := map ascii_lower_char
|}.

Definition str_eqb (a b : str) : bool := bool_decide (a = b).

(** Python truthiness of the values the code tests with [if x] / [not x]. *)
Definition truthy_str (s : str) : bool :=
  match s with [] => false | _ => true end.
Definition truthy_int (n : Z) : bool := negb (n =? 0).
Definition truthy_opt {A} (t : A -> bool) (o : option A) : bool :=
  match o with Some a => t a | None => false end.

Section Text.
Context {U : UnicodeDB}.

(** [s.strip()], [s.lstrip('#')], [s.split('\n')[0]], [s.replace(a, b)]
    for a one-character [a], and [s.rsplit(' ', 1)[0]]. *)
Fixpoint drop_while (p : char -> bool) (s : str) : str :=
  match s with
  | [] => []
  | c :: s' => if p c then drop_while p s' else s
  end.

Fixpoint take_while (p : char -> bool) (s : str) : str :=
  match s with
  | [] => []
  | c :: s' => if p c then c :: take_while p s' else []
  end.

Definition strip (s : str) : str :=
  rev (drop_while isspace (rev (drop_while isspace s))).

Definition ch_hash : char := 35%N.
Definition ch_space : char := 32%N.
Definition ch_newline : char := 10%N.

Definition lstrip_hash (s : str) : str :=
  drop_while (N.eqb ch_hash) s.

Definition first_line (s : str) : str :=
  take_while (fun c => negb (c =? ch_newline)%N) s.

Definition replace_char (a : char) (b : str) (s : str) : str :=
  flat_map (fun c => if (c =? a)%N then b else [c]) s.

(** [s.rsplit(' ', 1)[0]]: what stands before the last space of [s], and
    all of [s] when it has no space. *)
Definition rsplit_space_head (s : str) : str :=
  match drop_while (fun c => negb (c =? ch_space)%N) (rev s) with
  | [] => s
  | _ :: before => rev before
  end.

(** ** Regular expressions

    [re.sub] and [re.findall] scan left to right; at each position the
    pattern is tried, a match is consumed whole and the scan goes on behind
    it.  A pattern is given by its matcher at the head of the remaining
    text: the first group and the number of characters consumed (at least
    one for the patterns of this module, which all start with a literal). *)
Definition matcher := str -> option (str * nat).

Fixpoint re_sub_from (m : matcher) (repl : str -> str) (skip : nat) (s : str) : str :=
  match s with
  | [] => []
  | c :: s' =>
      match skip with
      | S k => re_sub_from m repl k s'
      | O =>
          match m s with
          | Some (g, n) => repl g ++ re_sub_from m repl (Nat.pred n) s'
          | None => c :: re_sub_from m repl O s'
          end
      end
  end.

Definition re_sub (m : matcher) (repl : str -> str) (s : str) : str :=
  re_sub_from m repl O s.

Fixpoint re_findall_from (m : matcher) (skip : nat) (s : str) : list str :=
  match s with
  | [] => []
  | _ :: s' =>
      match skip with
      | S k => re_findall_from m k s'
      | O =>
          match m s with
          | Some (g, n) => g :: re_findall_from m (Nat.pred n) s'
          | None => re_findall_from m O s'
          end
      end
  end.

Definition re_findall (m : matcher) (s : str) : list str :=
  re_findall_from m O s.

Fixpoint strip_prefix (p s : str) : option str :=
  match p, s with
  | [], _ => Some s
  | a :: p', b :: s' => if (a =? b)%N then strip_prefix p' s' else None
  | _ :: _, [] => None
  end.

(** [#(\w+)]: a hash sign and the longest run of word characters behind it,
    which is the group. *)
Definition match_hashtag : matcher := fun s =>
  match s with
  | c :: s' =>
      if (c =? ch_hash)%N then
        match take_while isword s' with
        | [] => None
        | w => Some (w, S (length w))
        end
      else None
  | [] => None
  end.

(** [\[kw\d+\|([^\]]+)\]] for [kw] one of [club] and [id].  The greedy runs
    never give a character back: the one that must follow [\d+] is a bar,
    which is no digit, and the one that must follow the label is the
    closing bracket, which the label excludes. *)
Definition ch_lbracket : char := 91%N.
Definition ch_rbracket : char := 93%N.
Definition ch_bar : char := 124%N.

Definition match_mention (kw : str) : matcher := fun s =>
  match strip_prefix (ch_lbracket :: kw) s with
  | Some s1 =>
      match take_while isdigit s1 with
      | [] => None
      | ds =>
          match drop_while isdigit s1 with
          | c :: s2 =>
              if (c =? ch_bar)%N then
                let label := take_while (fun c => negb (c =? ch_rbracket)%N) s2 in
                match label, drop_while (fun c => negb (c =? ch_rbracket)%N) s2 with
                | _ :: _, _ :: _ =>
                    Some (label, (S (length kw) + length ds + 1 + length label + 1)%nat)
                | _, _ => None
                end
              else None
          | [] => None
          end
      end
  | None => None
  end.

(** [extract_hashtags]: [re.findall(r'#(\w+)', text)]. *)
Definition extract_hashtags (text : str) : list str :=
  re_findall match_hashtag text.

(** [clean_vk_text]: community and user mentions become their label, then
    the text is stripped. *)
Definition clean_vk_text (text : str) : str :=
  let text := re_sub (match_mention (lit "club")) (fun g => g) text in
  let text := re_sub (match_mention (lit "id")) (fun g => g) text in
  strip text.

(** The fallback title, the Russian for "VKontakte post". *)
Definition fallback_title : str :=
  [1055; 1086; 1089; 1090; 32; 1042; 1050; 1086; 1085; 1090; 1072; 1082; 1090; 1077]%N.

Definition ellipsis : str := lit "...".

(** The first line the title is made of: the cleaned text without its
    hashtags, stripped, up to the first newline, stripped again. *)
Definition title_line (text : str) : str :=
  let clean := clean_vk_text text in
  let clean := strip (re_sub match_hashtag (fun _ => []) clean) in
  strip (first_line clean).

(** [make_title_from_text(text, max_len=150)]. *)
Definition make_title_from_text_len (text : str) (max_len : nat) : str :=
  let first_line := title_line text in
  let first_line :=
    if (max_len <? length first_line)%nat
    then rsplit_space_head (firstn max_len first_line) ++ ellipsis
    else first_line in
  if truthy_str first_line then first_line else fallback_title.

Definition make_title_from_text (text : str) : str :=
  make_title_from_text_len text 150.

End Text.

(** ** Rows and tables

    A naive [datetime] is counted in microseconds, the resolution of the
    type; the tables are the rows in primary-key order, and each table has
    the next value of its auto-increment key. *)

Definition datetime := Z.

Definition MOSCOW_OFFSET : Z := 3 * 3600.

(** [datetime.fromtimestamp(ts, tz=MOSCOW_TZ).replace(tzinfo=None)]. *)
Definition moscow_naive (ts : Z) : datetime := (ts + MOSCOW_OFFSET) * 1000000.

(** [VKIntegration] of [models/vk_integration.py].  The hashtag map is the
    dictionary the JSON text of the column stands for. *)
Record VKIntegration := {
  vi_id : Z;
  group_id : str;
  access_token : str;
  is_enabled : bool;
  mode : str;
  default_category_id : option Z;
  auto_publish : bool;
  check_interval_minutes : Z;
  fetch_count : Z;
  hashtag_category_map : option (list (str * Z));
  last_checked_at : option datetime
}.

(** [VKImportedPost], the import ledger. *)
Record VKImportedPost := {
  ip_id : Z;
  vk_post_id : Z;
  vk_integration_id : Z;
  news_id : option Z;
  vk_post_date : option datetime
}.

(** The columns of [News] (declared in [app.models.news]) that this code
    reads or writes. *)
Record News := {
  n_id : Z;
  title : str;
  slug : str;
  excerpt : str;
  content : str;
  featured_image : option str;
  video_url : option str;
  gallery : option (list str);
  category_id : option Z;
  is_published : bool;
  is_featured : bool;
  publish_date : option datetime;
  created_at : option datetime;
  scheduled_publish_at : option datetime
}.

Record Database := {
  vk_integrations : list VKIntegration;
  vk_imported_posts : list VKImportedPost;
  news : list News;
  news_categories : list Z;
  vk_integrations_seq : Z;
  vk_imported_posts_seq : Z;
  news_seq : Z
}.

(** A raw post of [wall.get], with the defaults of [dict.get] applied:
    a missing [text] is empty, missing [attachments] are none. *)
Record ImageSize := {
  img_width : Z;
  img_height : Z;
  img_url : str
}.

Record Video := {
  player : option str;
  video_owner_id : option Z;
  video_id : option Z;
  access_key : str;
  video_image : list ImageSize;
  video_photo : list ImageSize
}.

Inductive Attachment :=
  | AttPhoto (sizes : list ImageSize)
  | AttVideo (video : Video)
  | AttOther.

Record Post := {
  post_id : Z;
  text : str;
  date : Z;
  attachments : list Attachment;
  marked_as_ads : option Z
}.

(** ** Exceptions and the session monad

    A computation runs on a state and either returns or raises; what it did
    to the state before raising stays, until the caller rolls back. *)
Inductive exn :=
  | MultipleResultsFound
  | TransportError
  | HTTPException (status_code : Z) (detail : str)
  | Diverges
  | IntegrityError
  | DataError
  | MissingGreenlet.

Inductive outcome (A : Type) :=
  | Return (a : A)
  | Raise (e : exn).
Arguments Return {A} a.
Arguments Raise {A} e.

Definition M (S A : Type) : Type := S -> outcome A * S.

Definition ret {S A} (a : A) : M S A := fun s => (Return a, s).
Definition raise {S A} (e : exn) : M S A := fun s => (Raise e, s).
Definition bind {S A B} (m : M S A) (k : A -> M S B) : M S B :=
  fun s => match m s with
           | (Return a, s') => k a s'
           | (Raise e, s') => (Raise e, s')
           end.
Definition get {S} : M S S := fun s => (Return s, s).
Definition modify {S} (f : S -> S) : M S unit := fun s => (Return tt, f s).

Notation "'let*' x ':=' m 'in' k" := (bind m (fun x => k))
  (at level 10, x name, m at level 100, k at level 200).

(** [for x in l: body]. *)
Fixpoint for_each {S A} (l : list A) (body : A -> M S unit) : M S unit :=
  match l with
  | [] => ret tt
  | x :: l' => let* _ := body x in for_each l' body
  end.

Definition DB := M Database.

(** [Result.scalar_one_or_none()]. *)
Definition scalar_one_or_none {S A} (rows : list A) : M S (option A) :=
  match rows with
  | [] => ret None
  | [r] => ret (Some r)
  | _ => raise MultipleResultsFound
  end.

(** [db.get(News, id)] and [db.get(NewsCategory, id)]. *)
Definition find_news (id : Z) (d : Database) : option News :=
  find (fun a => n_id a =? id) (news d).

Definition get_news (id : Z) : DB (option News) :=
  let* d := get in ret (find_news id d).

Definition get_category (id : Z) : DB (option Z) :=
  let* d := get in ret (find (Z.eqb id) (news_categories d)).

(** The ledger rows of a post under an integration. *)
Definition ledger_rows (pid iid : Z) (d : Database) : list VKImportedPost :=
  List.filter (fun r => (vk_post_id r =? pid) && (vk_integration_id r =? iid))
    (vk_imported_posts d).

Definition set_vk_imported_posts (rows : list VKImportedPost) (d : Database) : Database :=
  {| vk_integrations := vk_integrations d;
     vk_imported_posts := rows;
     news := news d;
     news_categories := news_categories d;
     vk_integrations_seq := vk_integrations_seq d;
     vk_imported_posts_seq := vk_imported_posts_seq d;
     news_seq := news_seq d |}.

(** The DELETE of a ledger row, by its key. *)
Definition delete_imported (r : VKImportedPost) : DB unit :=
  modify (fun d =>
    set_vk_imported_posts
      (List.filter (fun x => negb (ip_id x =? ip_id r)) (vk_imported_posts d)) d).

(** The INSERT of an article: the row gets the next key. *)
Definition add_news (mk : Z -> News) : DB News :=
  fun d =>
    let a := mk (news_seq d) in
    (Return a,
     {| vk_integrations := vk_integrations d;
        vk_imported_posts := vk_imported_posts d;
        news := news d ++ [a];
        news_categories := news_categories d;
        vk_integrations_seq := vk_integrations_seq d;
        vk_imported_posts_seq := vk_imported_posts_seq d;
        news_seq := news_seq d + 1 |}).

(** The INSERT of a ledger row: the row gets the next key. *)
Definition insert_imported (mk : Z -> VKImportedPost) : DB unit :=
  fun d =>
    (Return tt,
     {| vk_integrations := vk_integrations d;
        vk_imported_posts := vk_imported_posts d ++ [mk (vk_imported_posts_seq d)];
        news := news d;
        news_categories := news_categories d;
        vk_integrations_seq := vk_integrations_seq d;
        vk_imported_posts_seq := vk_imported_posts_seq d + 1;
        news_seq := news_seq d |}).

(** ** The session of an import

    [db.add(imported)] puts a ledger row into the session.  The row is
    written, and gets its key, when the session flushes: at [db.flush()],
    at [session.commit()], and before a statement is sent when the session
    autoflushes; [autoflush] is the setting of the session maker of
    [app.database].  The state of the session is the database as its
    transaction has it and the ledger rows added since the last flush, in
    the order they were added. *)
Record ImportSession := {
  is_db : Database;
  is_new : list (Z -> VKImportedPost)
}.

(** A session with nothing to flush: at its start, after a flush, a commit
    or a rollback. *)
Definition session_at (d : Database) : ImportSession :=
  {| is_db := d; is_new := [] |}.

Fixpoint insert_all (new : list (Z -> VKImportedPost)) (d : Database) : Database :=
  match new with
  | [] => d
  | mk :: rest => insert_all rest (snd (insert_imported mk d))
  end.

(** The database once the session has flushed. *)
Definition written (s : ImportSession) : Database :=
  insert_all (is_new s) (is_db s).

(** [db.flush()]. *)
Definition flush_new : M ImportSession unit :=
  modify (fun s => session_at (written s)).

(** A statement on the database of the session. *)
Definition in_db {A} (m : DB A) : M ImportSession A :=
  fun s =>
    let (r, d) := m (is_db s) in
    (r, {| is_db := d; is_new := is_new s |}).

(** [db.execute(select ...)] and a [db.get] that has to ask the database:
    the session flushes first when it autoflushes.  The reads of a block
    that come after its first one find nothing more to flush. *)
Definition query {A} (autoflush : bool) (m : DB A) : M ImportSession A :=
  let* _ := (if autoflush then flush_new else ret tt) in
  in_db m.

(** [db.add(imported)]. *)
Definition add_imported (mk : Z -> VKImportedPost) : M ImportSession unit :=
  modify (fun s => {| is_db := is_db s; is_new := is_new s ++ [mk] |}).

(** A block in a session of its own that is flushed at the end of the
    block, as a request and a turn of the ingestion loop have it; when the
    block raises, the database is what the transaction has of it. *)
Definition alone {A} (m : M ImportSession A) : DB A :=
  fun d =>
    let (r, s) := (let* a := m in let* _ := flush_new in ret a) (session_at d) in
    (r, is_db s).

(** The environment of the code: the Unicode tables of the interpreter,
    [generate_slug] of [app.utils.slug], whose sources are no part of this
    development, and the database server, for what it takes in a column of
    [vk_integrations]: an [Integer], a [String(n)], and the JSON text of a
    hashtag map in the column [Text]. *)
Class Host := {
  host_unicode :: UnicodeDB;
  generate_slug : str -> str;
  fits_integer : Z -> bool;
  fits_string : nat -> str -> bool;
  fits_hashtag_map : list (str * Z) -> bool
}.

Section ImportPost.
Context {H : Host}.
Variable autoflush : bool.

(** ** Category resolver *)

(** The inner loop of [determine_category]: the items of the map in
    dictionary order, for one lower-cased hashtag. *)
Fixpoint category_for_tag (tag_lower : str) (items : list (str * Z)) : DB (option Z) :=
  match items with
  | [] => ret None
  | (map_tag, cat_id) :: rest =>
      if str_eqb (lower (lstrip_hash map_tag)) tag_lower then
        let* cat := get_category cat_id in
        match cat with
        | Some _ => ret (Some cat_id)
        | None => category_for_tag tag_lower rest
        end
      else category_for_tag tag_lower rest
  end.

Fixpoint category_for_tags (hashtags : list str) (items : list (str * Z)) : DB (option Z) :=
  match hashtags with
  | [] => ret None
  | tag :: rest =>
      let* found := category_for_tag (lower tag) items in
      match found with
      | Some cat_id => ret (Some cat_id)
      | None => category_for_tags rest items
      end
  end.

Definition determine_category (text : str) (hashtag_map : option (list (str * Z)))
    (default_category_id : option Z) : DB (option Z) :=
  match hashtag_map with
  | Some (item :: items) =>
      let* found := category_for_tags (extract_hashtags text) (item :: items) in
      match found with
      | Some cat_id => ret (Some cat_id)
      | None => ret default_category_id
      end
  | _ => ret default_category_id
  end.

(** ** Slug resolver *)

(** [str(counter)] in code points. *)
Definition decimal (n : N) : str := lit (pretty n).
Definition decimalZ (n : Z) : str := lit (pretty n).

Definition news_with_slug (s : str) (d : Database) : list News :=
  List.filter (fun a => str_eqb (slug a) s) (news d).

(** The [while True] of [ensure_unique_slug]; the fuel bounds the number of
    probes and [Diverges] stands for a loop that would not end. *)
Fixpoint ensure_unique_slug_loop (fuel : nat) (base_slug slug : str) (counter : N)
    : DB str :=
  match fuel with
  | O => raise Diverges
  | S fuel' =>
      let* d := get in
      let* row := scalar_one_or_none (news_with_slug slug d) in
      match row with
      | None => ret slug
      | Some _ =>
          ensure_unique_slug_loop fuel' base_slug
            (base_slug ++ lit "-" ++ decimal counter) (counter + 1)%N
      end
  end.

(** A table of [n] rows occupies at most [n] of the candidates, so [n + 1]
    probes are enough (lemma [ensure_unique_slug_ends]). *)
Definition ensure_unique_slug (slug : str) : DB str :=
  let* d := get in
  ensure_unique_slug_loop (S (length (news d))) slug slug 1%N.

(** ** Media of a post *)

(** [max(l, key=...)] of a non-empty list: the first greatest element. *)
Fixpoint max_by {A} (key : A -> Z) (best : A) (l : list A) : A :=
  match l with
  | [] => best
  | x :: l' => max_by key (if key best <? key x then x else best) l'
  end.

Definition area (s : ImageSize) : Z := img_width s * img_height s.

Record Media := {
  m_featured_image : option str;
  m_gallery_images : list str;
  m_video_url : option str
}.

Definition video_ext_url (v : Video) : option str :=
  if truthy_opt truthy_str (player v) then player v
  else
    match video_owner_id v, video_id v with
    | Some owner, Some vid =>
        if truthy_int owner && truthy_int vid then
          Some (lit "https://vk.com/video_ext.php?oid=" ++ decimalZ owner
                ++ lit "&id=" ++ decimalZ vid
                ++ (if truthy_str (access_key v)
                    then lit "&hash=" ++ access_key v else [])
                ++ lit "&hd=2")
        else None
    | _, _ => None
    end.

Definition media_step (m : Media) (att : Attachment) : Media :=
  match att with
  | AttPhoto [] => m
  | AttPhoto (s :: sizes) =>
      let img_url := img_url (max_by area s sizes) in
      if truthy_str img_url then
        if truthy_opt truthy_str (m_featured_image m)
        then {| m_featured_image := m_featured_image m;
                m_gallery_images := m_gallery_images m ++ [img_url];
                m_video_url := m_video_url m |}
        else {| m_featured_image := Some img_url;
                m_gallery_images := m_gallery_images m;
                m_video_url := m_video_url m |}
      else m
  | AttVideo v =>
      if truthy_opt truthy_str (m_video_url m) then m
      else
        let thumb_images :=
          match video_image v with [] => video_photo v | l => l end in
        {| m_featured_image :=
             match thumb_images with
             | t :: ts =>
                 if truthy_opt truthy_str (m_featured_image m)
                 then m_featured_image m
                 else Some (img_url (max_by area t ts))
             | [] => m_featured_image m
             end;
           m_gallery_images := m_gallery_images m;
           m_video_url := video_ext_url v |}
  | AttOther => m
  end.

Definition collect_media (atts : list Attachment) : Media :=
  fold_left media_step atts
    {| m_featured_image := None; m_gallery_images := []; m_video_url := None |}.

(** ** Import of one post *)

Definition news_of_post (post : Post) (integration : VKIntegration)
    (category_id : option Z) (title slug : str) (id : Z) : News :=
  let content := clean_vk_text (text post) in
  let media := collect_media (attachments post) in
  let post_date := moscow_naive (date post) in
  {| n_id := id;
     title := title;
     slug := slug;
     excerpt := if (300 <? length content)%nat then firstn 300 content else content;
     content := replace_char ch_newline (lit "<br/>") content;
     featured_image := m_featured_image media;
     video_url := m_video_url media;
     gallery := match m_gallery_images media with [] => None | l => Some l end;
     category_id := category_id;
     is_published := auto_publish integration;
     is_featured := auto_publish integration;
     publish_date := if auto_publish integration then Some post_date else None;
     created_at := Some post_date;
     scheduled_publish_at := None |}.

(** The ledger check at the head of [import_vk_post]: [true] when the post
    is imported already; a stale row is deleted on the way.  The select
    sees the rows that are written: a row that was added and not flushed
    is no row of its result. *)
Definition check_ledger (post : Post) (integration : VKIntegration)
    : M ImportSession bool :=
  let* existing_record :=
    query autoflush (
      let* d := get in
      scalar_one_or_none (ledger_rows (post_id post) (vi_id integration) d)) in
  match existing_record with
  | Some r =>
      let* news_check :=
        match news_id r with
        | Some n => if truthy_int n then query autoflush (get_news n) else ret None
        | None => ret None
        end in
      match news_check with
      | Some _ => ret true
      | None =>
          let* _ := in_db (delete_imported r) in
          let* _ := flush_new in
          ret false
      end
  | None => ret false
  end.

Definition import_vk_post (post : Post) (integration : VKIntegration)
    : M ImportSession (option News) :=
  if negb (truthy_str (text post)) then ret None
  else
    let* imported_already := check_ledger post integration in
    if imported_already then ret None
    else
      let* category_id :=
        query autoflush (
          determine_category (text post) (hashtag_category_map integration)
            (default_category_id integration)) in
      let title := make_title_from_text (text post) in
      let slug := generate_slug title in
      let slug :=
        if truthy_str slug then slug
        else lit "vk-post-" ++ decimalZ (post_id post) in
      let* slug := query autoflush (ensure_unique_slug slug) in
      let* _ := flush_new in
      let* news :=
        in_db (add_news (news_of_post post integration category_id title slug)) in
      let* _ :=
        add_imported (fun id =>
          {| ip_id := id;
             vk_post_id := post_id post;
             vk_integration_id := vi_id integration;
             news_id := Some (n_id news);
             vk_post_date := Some (moscow_naive (date post)) |}) in
      ret (Some news).

End ImportPost.

(** ** The remote feed and the world of a pass

    [wall_get] is the answer of the VK server to a request, [None] for a
    transport failure (a timeout, a network error, a body that is no
    JSON).  The world of a pass is the session's database and the requests
    sent so far. *)

Record VKRequest := {
  rq_group_id : str;
  rq_access_token : str;
  rq_count : Z
}.

Inductive VKData :=
  | VKError (error_msg : option str)
  | VKResponse (items : list Post).

Record World := {
  db : Database;
  vk_calls : list VKRequest
}.

Definition on_db {A} (m : DB A) : M World A :=
  fun w =>
    let (r, d) := m (db w) in
    (r, {| db := d; vk_calls := vk_calls w |}).

(** A block on the session of the request or of the pass, which has
    nothing to flush when the block begins; what the block leaves
    unflushed is no part of the database. *)
Definition on_session {A} (m : M ImportSession A) : M World A :=
  fun w =>
    let (r, s) := m (session_at (db w)) in
    (r, {| db := is_db s; vk_calls := vk_calls w |}).

Definition exn_message (e : exn) : str :=
  match e with
  | MultipleResultsFound =>
      lit "Multiple rows were found when one or none was required"
  | HTTPException _ detail => detail
  | TransportError => []
  | Diverges => []
  | IntegrityError => []
  | DataError => []
  | MissingGreenlet => []
  end.

(** [except HTTPException: raise / except Exception as e: raise
    HTTPException(status_code=500, detail=str(e))]. *)
Definition except_http {A} (m : M World A) : M World A :=
  fun w =>
    match m w with
    | (Raise (HTTPException c d), w') => (Raise (HTTPException c d), w')
    | (Raise e, w') => (Raise (HTTPException 500 (exn_message e)), w')
    | (Return a, w') => (Return a, w')
    end.

Definition set_vk_integrations (rows : list VKIntegration) (d : Database) : Database :=
  {| vk_integrations := rows;
     vk_imported_posts := vk_imported_posts d;
     news := news d;
     news_categories := news_categories d;
     vk_integrations_seq := vk_integrations_seq d;
     vk_imported_posts_seq := vk_imported_posts_seq d;
     news_seq := news_seq d |}.

Definition set_news (rows : list News) (d : Database) : Database :=
  {| vk_integrations := vk_integrations d;
     vk_imported_posts := vk_imported_posts d;
     news := rows;
     news_categories := news_categories d;
     vk_integrations_seq := vk_integrations_seq d;
     vk_imported_posts_seq := vk_imported_posts_seq d;
     news_seq := news_seq d |}.

Definition with_last_checked_at (t : option datetime) (i : VKIntegration) : VKIntegration :=
  {| vi_id := vi_id i; group_id := group_id i; access_token := access_token i;
     is_enabled := is_enabled i; mode := mode i;
     default_category_id := default_category_id i;
     auto_publish := auto_publish i;
     check_interval_minutes := check_interval_minutes i;
     fetch_count := fetch_count i;
     hashtag_category_map := hashtag_category_map i;
     last_checked_at := t |}.

(** [integration.last_checked_at = now], written to the row of that key. *)
Definition set_last_checked_at (id : Z) (now : datetime) : DB unit :=
  modify (fun d =>
    set_vk_integrations
      (map (fun i => if vi_id i =? id then with_last_checked_at (Some now) i else i)
         (vk_integrations d)) d).

(** [fetch_now]'s answer. *)
Record FetchNowResult := {
  imported : Z;
  total_checked : Z
}.

Definition MODE_OFF : str := lit "off".
Definition MODE_AUTO : str := lit "auto".
Definition MODE_MANUAL : str := lit "manual".

Definition detail_not_configured : str := lit "VK integration not configured".
(** The Russian for "The integration is switched off. Choose the mode Auto
    or Manual." *)
Definition detail_switched_off : str :=
  [1048; 1085; 1090; 1077; 1075; 1088; 1072; 1094; 1080; 1103; 32; 1074; 1099; 1082; 1083; 1102; 1095; 1077; 1085; 1072; 46; 32; 1042; 1099; 1073; 1077; 1088; 1080; 1090; 1077; 32; 1088; 1077; 1078; 1080; 1084; 32; 1040; 1074; 1090; 1086; 32; 1080; 1083; 1080; 32; 1042; 1088; 1091; 1095; 1085; 1091; 1102; 46]%N.

(** ** Minutes since the checkpoint

    [timedelta.total_seconds()] is the correctly rounded quotient of the
    microseconds by [10**6], and [/ 60] the correctly rounded quotient of
    that float by 60.  A float is a pair [(m, e)] that stands for
    [m * 2^e]; its mantissa has 53 bits, and the exponent is not bounded,
    which the exponent of a binary64 is as far as the microseconds of a
    [timedelta] reach. *)

(** The integer nearest to [n / d], the even one of two that are equally
    near. *)
Definition rne (n d : Z) : Z :=
  let q := n / d in
  let r := n mod d in
  if 2 * r <? d then q
  else if d <? 2 * r then q + 1
  else if Z.even q then q else q + 1.

Definition scale_up (e : Z) : Z := 2 ^ Z.max 0 e.
Definition scale_down (e : Z) : Z := 2 ^ Z.max 0 (- e).

(** The exponent of the float nearest to [n / d], for positive [n] and
    [d]: the one with [2^52 <= n / (d * 2^e) < 2^53]. *)
Definition fexp (n d : Z) : Z :=
  let e := Z.log2 n - Z.log2 d - 53 in
  if 2 ^ 53 * (d * scale_up e) <=? n * scale_down e then e + 1 else e.

Definition round53 (n d : Z) : Z * Z :=
  let e := fexp n d in
  (rne (n * scale_down e) (d * scale_up e), e).

(** The float nearest to [n / d], for a positive [d]. *)
Definition fdiv (n d : Z) : Z * Z :=
  if n =? 0 then (0, 0)
  else if n <? 0 then let (m, e) := round53 (- n) d in (- m, e)
  else round53 n d.

(** A float as a fraction. *)
Definition fnum (f : Z * Z) : Z := fst f * scale_up (snd f).
Definition fden (f : Z * Z) : Z := scale_down (snd f).

(** [timedelta(microseconds=us).total_seconds() / 60]. *)
Definition elapsed_minutes (us : Z) : Z * Z :=
  let s := fdiv us 1000000 in
  fdiv (fnum s) (60 * fden s).

(** [f < k] for a float and an [int], which Python compares as they are. *)
Definition flt (f : Z * Z) (k : Z) : bool := fnum f <? k * fden f.

(** ** The session of a pass

    What a pass of [vk_fetch_task] has to know of its session between two
    integrations: a transaction is open, as the query of the pass leaves
    it; or none is, after a commit; or the rows the session had loaded are
    expired, after a rollback, and after a commit when the session maker
    expires on commit ([expire_on_commit] of [app.database]).  In the
    session of asyncio, reading an attribute of an expired row raises. *)
Inductive SessionStatus := InTransaction | Idle | Expired.

(** [session.rollback()] does nothing without a transaction; with one it
    expires the rows. *)
Definition rolled_back (st : SessionStatus) : SessionStatus :=
  match st with
  | InTransaction => Expired
  | Idle => Idle
  | Expired => Expired
  end.

Section Fetch.
Context {H : Host}.
Variable wall_get : VKRequest -> option VKData.
Variables autoflush expire_on_commit : bool.

(** [fetch_vk_posts(group_id, access_token, count)]. *)
Definition fetch_vk_posts (group_id access_token : str) (count : Z) : M World VKData :=
  fun w =>
    let rq := {| rq_group_id := group_id; rq_access_token := access_token;
                 rq_count := count |} in
    let w' := {| db := db w; vk_calls := vk_calls w ++ [rq] |} in
    match wall_get rq with
    | Some data => (Return data, w')
    | None => (Raise TransportError, w')
    end.

(** [integration.fetch_count or 20]. *)
Definition count_of (integration : VKIntegration) : Z :=
  if truthy_int (fetch_count integration) then fetch_count integration else 20.

(** The loop over the posts of a batch, the same in [vk_fetch_task] and in
    [fetch_now]. *)
Fixpoint import_posts (posts : list Post) (integration : VKIntegration)
    (imported_count : Z) : M ImportSession Z :=
  match posts with
  | [] => ret imported_count
  | post :: rest =>
      if truthy_opt truthy_int (marked_as_ads post)
      then import_posts rest integration imported_count
      else
        let* news := import_vk_post autoflush post integration in
        import_posts rest integration
          (match news with Some _ => imported_count + 1 | None => imported_count end)
  end.

(** The import of a batch and the checkpoint, flushed together: the block
    that [vk_fetch_task] commits and that [fetch_now] flushes. *)
Definition import_batch (posts : list Post) (integration : VKIntegration)
    (now : datetime) : M ImportSession Z :=
  let* imported_count := import_posts posts integration 0 in
  let* _ := in_db (set_last_checked_at (vi_id integration) now) in
  let* _ := flush_new in
  ret imported_count.

(** ** Ingestion loop *)

(** [elapsed < integration.check_interval_minutes], with [elapsed] the
    float [(now - last_checked_at).total_seconds() / 60]. *)
Definition throttled (now : datetime) (integration : VKIntegration) : bool :=
  match last_checked_at integration with
  | Some last => flt (elapsed_minutes (now - last)) (check_interval_minutes integration)
  | None => false
  end.

(** [except Exception: ... await session.rollback()] around a part of the
    [try] block where the session has the status [st]: the database goes
    back to what it was at the last commit, the requests were sent, and
    the rows of the session are expired when there was a transaction to
    roll back. *)
Definition except_rollback (st : SessionStatus) (m : M World SessionStatus)
    : M World SessionStatus :=
  fun w =>
    match m w with
    | (Raise _, w') =>
        (Return (rolled_back st), {| db := db w; vk_calls := vk_calls w' |})
    | (Return a, w') => (Return a, w')
    end.

(** The body of [for integration in integrations] of [vk_fetch_task];
    [now] is the reading of the clock, naive Moscow time, and [st] the
    status of the session when the turn of the integration comes.  The
    turn begins by reading [integration.last_checked_at], which raises
    when the row is expired, outside the [try] of the body.  The request
    comes before any statement of the turn; the import of a batch begins
    with a statement, so that when it raises a transaction is open; the
    commit ends the transaction. *)
Definition vk_fetch_integration (now : datetime) (integration : VKIntegration)
    (st : SessionStatus) : M World SessionStatus :=
  match st with
  | Expired => raise MissingGreenlet
  | _ =>
      if throttled now integration then ret st
      else
        except_rollback st (
          let count := count_of integration in
          let* data :=
            fetch_vk_posts (group_id integration) (access_token integration) count in
          match data with
          | VKError _ => ret st
          | VKResponse posts =>
              except_rollback InTransaction (
                let* imported_count := on_session (import_batch posts integration now) in
                ret (if expire_on_commit then Expired else Idle))
          end)
  end.

Fixpoint fetch_integrations (clock : VKIntegration -> datetime)
    (integrations : list VKIntegration) (st : SessionStatus) : M World unit :=
  match integrations with
  | [] => ret tt
  | integration :: rest =>
      let* st' := vk_fetch_integration (clock integration) integration st in
      fetch_integrations clock rest st'
  end.

(** The outer [except Exception as e: logger.error(...)] of the pass. *)
Definition except_log (m : M World unit) : M World unit :=
  fun w =>
    match m w with
    | (Raise _, w') => (Return tt, w')
    | (Return a, w') => (Return a, w')
    end.

(** One pass of [vk_fetch_task], after its sleep: the integrations in mode
    [auto], which the query of the pass loads in a transaction; [clock] is
    the reading of the clock at each of them. *)
Definition vk_fetch_tick (clock : VKIntegration -> datetime) : M World unit :=
  except_log (
    let* w := get in
    let integrations :=
      List.filter (fun i => str_eqb (mode i) MODE_AUTO) (vk_integrations (db w)) in
    fetch_integrations clock integrations InTransaction).

(** ** Manual trigger *)

(** [select(VKIntegration).limit(1)] then [scalar_one_or_none()]. *)
Definition first_integration : DB (option VKIntegration) :=
  let* d := get in scalar_one_or_none (firstn 1 (vk_integrations d)).

Definition fetch_now (now : datetime) : M World FetchNowResult :=
  let* integration := on_db first_integration in
  match integration with
  | None => raise (HTTPException 404 detail_not_configured)
  | Some integration =>
      if str_eqb (mode integration) MODE_OFF
      then raise (HTTPException 400 detail_switched_off)
      else
        except_http (
          let count := count_of integration in
          let* data :=
            fetch_vk_posts (group_id integration) (access_token integration) count in
          match data with
          | VKError error_msg =>
              raise (HTTPException 400
                       (lit "VK API: " ++ default (lit "Unknown error") error_msg))
          | VKResponse posts =>
              let* imported_count := on_session (import_batch posts integration now) in
              ret {| imported := imported_count;
                     total_checked := Z.of_nat (length posts) |}
          end)
  end.

End Fetch.

(** ** Administration of the configuration *)

Record VKIntegrationCreate := {
  c_group_id : str;
  c_access_token : str;
  c_mode : str;
  c_default_category_id : option Z;
  c_auto_publish : bool;
  c_check_interval_minutes : Z;
  c_fetch_count : Z;
  c_hashtag_category_map : option (list (str * Z))
}.

Record VKIntegrationUpdate := {
  u_group_id : option str;
  u_access_token : option str;
  u_mode : option str;
  u_default_category_id : option Z;
  u_auto_publish : option bool;
  u_check_interval_minutes : option Z;
  u_fetch_count : option Z;
  u_hashtag_category_map : option (list (str * Z))
}.

(** [db.delete(old); db.flush()]: the relationship [imported_posts] has
    [cascade="all, delete-orphan"], so the ledger rows of the integration
    go with it; the articles they name are rows of another table and
    stay. *)
Definition delete_integration (old : VKIntegration) : DB unit :=
  modify (fun d =>
    {| vk_integrations :=
         List.filter (fun i => negb (vi_id i =? vi_id old)) (vk_integrations d);
       vk_imported_posts :=
         List.filter (fun r => negb (vk_integration_id r =? vi_id old))
           (vk_imported_posts d);
       news := news d;
       news_categories := news_categories d;
       vk_integrations_seq := vk_integrations_seq d;
       vk_imported_posts_seq := vk_imported_posts_seq d;
       news_seq := news_seq d |}).

(** The foreign key of [default_category_id]: a reference that is set
    names a row of [news_categories]. *)
Definition category_known (d : Database) (c : option Z) : bool :=
  match c with
  | Some c =>
      match find (Z.eqb c) (news_categories d) with
      | Some _ => true
      | None => false
      end
  | None => true
  end.

Definition fits_opt {A} (fits : A -> bool) (o : option A) : bool :=
  match o with
  | Some a => fits a
  | None => true
  end.

(** A flush that the server refuses rolls the transaction of the request
    back, and the exception leaves the handler: the tables are what they
    were when the request came. *)
Definition atomically {A} (m : DB A) : DB A :=
  fun d =>
    match m d with
    | (Raise e, _) => (Raise e, d)
    | (Return a, d') => (Return a, d')
    end.

Section Administration.
Context {H : Host}.

(** What the server refuses of a new row of [vk_integrations]: a value
    that does not fit its column, and a default category that is no row of
    [news_categories]. *)
Definition insert_refused (d : Database) (i : VKIntegration) : option exn :=
  if negb (fits_string 100 (group_id i)
           && fits_string 500 (access_token i)
           && fits_string 20 (mode i)
           && fits_opt fits_integer (default_category_id i)
           && fits_integer (check_interval_minutes i)
           && fits_integer (fetch_count i)
           && fits_opt fits_hashtag_map (hashtag_category_map i))
  then Some DataError
  else if category_known d (default_category_id i) then None
  else Some IntegrityError.

(** [db.add(integration); db.flush()]: the row gets the next key, when the
    server takes it. *)
Definition add_integration (mk : Z -> VKIntegration) : DB VKIntegration :=
  fun d =>
    let i := mk (vk_integrations_seq d) in
    match insert_refused d i with
    | Some e => (Raise e, d)
    | None =>
        (Return i,
         {| vk_integrations := vk_integrations d ++ [i];
            vk_imported_posts := vk_imported_posts d;
            news := news d;
            news_categories := news_categories d;
            vk_integrations_seq := vk_integrations_seq d + 1;
            vk_imported_posts_seq := vk_imported_posts_seq d;
            news_seq := news_seq d |})
    end.

(** [create_vk_integration]; the answer is built from the new row. *)
Definition create_vk_integration (data : VKIntegrationCreate) : DB VKIntegration :=
  atomically (
    let* old := first_integration in
    let* _ :=
      match old with
      | Some old => delete_integration old
      | None => ret tt
      end in
    let hashtag_json :=
      match c_hashtag_category_map data with
      | Some (item :: items) => Some (item :: items)
      | _ => None
      end in
    add_integration (fun id =>
      {| vi_id := id;
         group_id := c_group_id data;
         access_token := c_access_token data;
         is_enabled := false;
         mode := c_mode data;
         default_category_id := c_default_category_id data;
         auto_publish := c_auto_publish data;
         check_interval_minutes := c_check_interval_minutes data;
         fetch_count := c_fetch_count data;
         hashtag_category_map := hashtag_json;
         last_checked_at := None |})).

End Administration.

Definition is_mode (m : str) : bool :=
  str_eqb m MODE_OFF || str_eqb m MODE_AUTO || str_eqb m MODE_MANUAL.

Definition apply_update (data : VKIntegrationUpdate) (i : VKIntegration) : VKIntegration :=
  {| vi_id := vi_id i;
     group_id := default (group_id i) (u_group_id data);
     access_token := default (access_token i) (u_access_token data);
     is_enabled := is_enabled i;
     mode :=
       match u_mode data with
       | Some m => if is_mode m then m else mode i
       | None => mode i
       end;
     default_category_id :=
       match u_default_category_id data with
       | Some c => Some c
       | None => default_category_id i
       end;
     auto_publish := default (auto_publish i) (u_auto_publish data);
     check_interval_minutes :=
       default (check_interval_minutes i) (u_check_interval_minutes data);
     fetch_count :=
       match u_fetch_count data with
       | Some n => Z.max 1 (Z.min 100 n)
       | None => fetch_count i
       end;
     hashtag_category_map :=
       match u_hashtag_category_map data with
       | Some m => Some m
       | None => hashtag_category_map i
       end;
     last_checked_at := last_checked_at i |}.

(** The value an assignment changes, which is what the UPDATE of the
    flush carries. *)
Definition changed {A} `{EqDecision A} (old new : option A) : option A :=
  match new with
  | Some a => if bool_decide (old = Some a) then None else Some a
  | None => None
  end.

Section Update.
Context {H : Host}.

(** What the server refuses of the UPDATE of a row: a changed value that
    does not fit its column, and a changed default category that is no row
    of [news_categories].  A mode that is assigned is one of the three and
    a batch size that is assigned lies between 1 and 100; these fit. *)
Definition update_refused (d : Database) (data : VKIntegrationUpdate)
    (i : VKIntegration) : option exn :=
  if negb (fits_opt (fits_string 100)
             (changed (Some (group_id i)) (u_group_id data))
           && fits_opt (fits_string 500)
                (changed (Some (access_token i)) (u_access_token data))
           && fits_opt fits_integer
                (changed (default_category_id i) (u_default_category_id data))
           && fits_opt fits_integer
                (changed (Some (check_interval_minutes i))
                   (u_check_interval_minutes data))
           && fits_opt fits_hashtag_map
                (changed (hashtag_category_map i) (u_hashtag_category_map data)))
  then Some DataError
  else if category_known d
            (changed (default_category_id i) (u_default_category_id data))
  then None
  else Some IntegrityError.

(** [update_vk_integration]: the assignments, then [db.flush()]. *)
Definition update_vk_integration (data : VKIntegrationUpdate) : DB VKIntegration :=
  let* integration := first_integration in
  match integration with
  | None => raise (HTTPException 404 detail_not_configured)
  | Some integration =>
      let updated := apply_update data integration in
      let* d := get in
      match update_refused d data integration with
      | Some e => raise e
      | None =>
          let* _ :=
            modify (fun d =>
              set_vk_integrations
                (map (fun i => if vi_id i =? vi_id integration then updated else i)
                   (vk_integrations d)) d) in
          ret updated
      end
  end.

End Update.

(** ** Scheduled publisher ([main.py]) *)

(** The [where] clause of the query: not published, a scheduled time, and
    that time not after [now]. *)
Definition due (now : datetime) (a : News) : bool :=
  negb (is_published a) &&
  match scheduled_publish_at a with
  | Some t => t <=? now
  | None => false
  end.

(** [news.is_published = True; news.publish_date = now]. *)
Definition publish (now : datetime) (a : News) : News :=
  {| n_id := n_id a; title := title a; slug := slug a; excerpt := excerpt a;
     content := content a; featured_image := featured_image a;
     video_url := video_url a; gallery := gallery a;
     category_id := category_id a;
     is_published := true;
     is_featured := is_featured a;
     publish_date := Some now;
     created_at := created_at a;
     scheduled_publish_at := scheduled_publish_at a |}.

(** One pass of [scheduled_news_publisher] at the reading [now] of the
    clock: the selected rows are updated and the batch is committed. *)
Definition scheduled_news_publisher_tick (now : datetime) : DB unit :=
  let* d := get in
  let scheduled_news := List.filter (due now) (news d) in
  match scheduled_news with
  | [] => ret tt
  | _ =>
      modify (set_news (map (fun a => if due now a then publish now a else a) (news d)))
  end.

(** ** The other operations of the router *)

Definition detail_bad_mode : str := lit "Mode must be: off, auto, manual".

Definition with_mode (m : str) (i : VKIntegration) : VKIntegration :=
  {| vi_id := vi_id i; group_id := group_id i; access_token := access_token i;
     is_enabled := negb (str_eqb m MODE_OFF);
     mode := m;
     default_category_id := default_category_id i;
     auto_publish := auto_publish i;
     check_interval_minutes := check_interval_minutes i;
     fetch_count := fetch_count i;
     hashtag_category_map := hashtag_category_map i;
     last_checked_at := last_checked_at i |}.

(** [set_vk_mode]: the mode is checked before the table is read. *)
Definition set_vk_mode (new_mode : str) : DB VKIntegration :=
  if negb (is_mode new_mode) then raise (HTTPException 400 detail_bad_mode)
  else
    let* integration := first_integration in
    match integration with
    | None => raise (HTTPException 404 detail_not_configured)
    | Some integration =>
        let updated := with_mode new_mode integration in
        let* _ :=
          modify (fun d =>
            set_vk_integrations
              (map (fun i => if vi_id i =? vi_id integration then updated else i)
                 (vk_integrations d)) d) in
        ret updated
    end.

(** [delete_vk_integration]; the deletion cascades as in
    [create_vk_integration]. *)
Definition delete_vk_integration : DB unit :=
  let* integration := first_integration in
  match integration with
  | None => raise (HTTPException 404 detail_not_configured)
  | Some integration => delete_integration integration
  end.

(** [VKIntegrationResponse], without the two timestamps of the row that
    the model leaves out; it has no field for the token. *)
Record VKIntegrationResponse := {
  r_id : Z;
  r_group_id : str;
  r_mode : str;
  r_default_category_id : option Z;
  r_auto_publish : bool;
  r_check_interval_minutes : Z;
  r_fetch_count : Z;
  r_hashtag_category_map : option (list (str * Z));
  r_last_checked_at : option datetime;
  r_imported_count : Z;
  r_has_token : bool
}.

(** [_get_imported_count]: [select count(id) where vk_integration_id = id]. *)
Definition get_imported_count (integration_id : Z) : DB Z :=
  let* d := get in
  ret (Z.of_nat (length (List.filter (fun r => vk_integration_id r =? integration_id)
                           (vk_imported_posts d)))).

(** [_build_response]. *)
Definition build_response (integration : VKIntegration) (imported_count : Z)
    : VKIntegrationResponse :=
  {| r_id := vi_id integration;
     r_group_id := group_id integration;
     r_mode := if truthy_str (mode integration) then mode integration else MODE_OFF;
     r_default_category_id := default_category_id integration;
     r_auto_publish := auto_publish integration;
     r_check_interval_minutes := check_interval_minutes integration;
     r_fetch_count := count_of integration;
     r_hashtag_category_map := hashtag_category_map integration;
     r_last_checked_at := last_checked_at integration;
     r_imported_count := imported_count;
     r_has_token := truthy_str (access_token integration) |}.

(** [get_vk_integration]. *)
Definition get_vk_integration : DB (option VKIntegrationResponse) :=
  let* integration := first_integration in
  match integration with
  | None => ret None
  | Some integration =>
      let* imported_count := get_imported_count (vi_id integration) in
      ret (Some (build_response integration imported_count))
  end.

(** ** Bulk clear

    [delete_all_imported] marks rows for deletion and flushes once, at its
    end.  Until a flush, an article marked for deletion is still in the
    identity map of the session, where [db.get] finds it without a query;
    a [db.get] that has to query flushes first when the session
    autoflushes.  [autoflush] is the setting of the session maker of
    [app.database]. *)
Record Session := {
  s_db : Database;
  s_deleted_news : list News;
  s_deleted_posts : list VKImportedPost
}.

(** [ondelete="SET NULL"] of [VKImportedPost.news_id]: when an article
    leaves its table, the database nulls the reference of the ledger rows
    that named it. *)
Definition with_news_id (n : option Z) (r : VKImportedPost) : VKImportedPost :=
  {| ip_id := ip_id r; vk_post_id := vk_post_id r;
     vk_integration_id := vk_integration_id r;
     news_id := n; vk_post_date := vk_post_date r |}.

Definition null_if_deleted (gone : list News) (r : VKImportedPost) : VKImportedPost :=
  match news_id r with
  | Some n =>
      if existsb (fun x => n_id x =? n) gone then with_news_id None r else r
  | None => r
  end.

(** [session.flush()]: the marked rows leave their tables, by key, and the
    ledger rows that stay lose their reference to an article that left.
    The objects the session has loaded are not refreshed by a flush. *)
Definition flushed (s : Session) : Database :=
  {| vk_integrations := vk_integrations (s_db s);
     vk_imported_posts :=
       map (null_if_deleted (s_deleted_news s))
         (List.filter
            (fun r => negb (existsb (fun x => ip_id x =? ip_id r) (s_deleted_posts s)))
            (vk_imported_posts (s_db s)));
     news :=
       List.filter
         (fun a => negb (existsb (fun x => n_id x =? n_id a) (s_deleted_news s)))
         (news (s_db s));
     news_categories := news_categories (s_db s);
     vk_integrations_seq := vk_integrations_seq (s_db s);
     vk_imported_posts_seq := vk_imported_posts_seq (s_db s);
     news_seq := news_seq (s_db s) |}.

Definition flush : M Session unit :=
  modify (fun s =>
    {| s_db := flushed s; s_deleted_news := []; s_deleted_posts := [] |}).

(** [db.get(News, id)] in the session. *)
Definition session_get_news (autoflush : bool) (id : Z) : M Session (option News) :=
  let* s := get in
  match find (fun a => n_id a =? id) (s_deleted_news s) with
  | Some a => ret (Some a)
  | None =>
      let* _ := if autoflush then flush else ret tt in
      let* s := get in
      ret (find_news id (s_db s))
  end.

(** [db.delete(news)] and [db.delete(post)]. *)
Definition session_delete_news (a : News) : M Session unit :=
  modify (fun s =>
    {| s_db := s_db s;
       s_deleted_news :=
         if existsb (fun x => n_id x =? n_id a) (s_deleted_news s)
         then s_deleted_news s else s_deleted_news s ++ [a];
       s_deleted_posts := s_deleted_posts s |}).

Definition session_delete_post (r : VKImportedPost) : M Session unit :=
  modify (fun s =>
    {| s_db := s_db s;
       s_deleted_news := s_deleted_news s;
       s_deleted_posts := s_deleted_posts s ++ [r] |}).

Record BulkDeleteResult := {
  deleted_news : Z;
  deleted_records : Z
}.

(** The part of the loop of [delete_all_imported] that deletes the article
    of a row and counts it. *)
Definition delete_news_of (autoflush : bool) (post : VKImportedPost)
    (deleted_news : Z) : M Session Z :=
  match news_id post with
  | Some n =>
      if truthy_int n then
        let* news := session_get_news autoflush n in
        match news with
        | Some a =>
            let* _ := session_delete_news a in ret (deleted_news + 1)
        | None => ret deleted_news
        end
      else ret deleted_news
  | None => ret deleted_news
  end.

(** The loop of [delete_all_imported] over the rows of the ledger. *)
Fixpoint delete_imported_rows (autoflush : bool) (rows : list VKImportedPost)
    (deleted_news : Z) : M Session Z :=
  match rows with
  | [] => ret deleted_news
  | post :: rest =>
      let* deleted_news := delete_news_of autoflush post deleted_news in
      let* _ := session_delete_post post in
      delete_imported_rows autoflush rest deleted_news
  end.

Definition delete_all_imported (autoflush : bool) : M Session BulkDeleteResult :=
  let* s := get in
  let imported_posts := vk_imported_posts (s_db s) in
  let* deleted_news := delete_imported_rows autoflush imported_posts 0 in
  let* _ := flush in
  ret {| deleted_news := deleted_news;
         deleted_records := Z.of_nat (length imported_posts) |}.

(** A request's session at its start: nothing marked. *)
Definition session_of (d : Database) : Session :=
  {| s_db := d; s_deleted_news := []; s_deleted_posts := [] |}.

(** An article deleted by the content subsystem: the ledger rows that named
    it are left with a null reference. *)
Definition news_deleted (id : Z) (d : Database) : Database :=
  {| vk_integrations := vk_integrations d;
     vk_imported_posts :=
       map (fun r => match news_id r with
                     | Some n => if n =? id then with_news_id None r else r
                     | None => r
                     end) (vk_imported_posts d);
     news := List.filter (fun a => negb (n_id a =? id)) (news d);
     news_categories := news_categories d;
     vk_integrations_seq := vk_integrations_seq d;
     vk_imported_posts_seq := vk_imported_posts_seq d;
     news_seq := news_seq d |}.

(** ** The administrator gate ([dependencies.py]) *)

Inductive UserRole := GUEST | USER | ADMIN | SUPER_ADMIN.

(** The columns of [User] that the gate reads and that the initial data
    set. *)
Record User := {
  user_id : Z;
  email : str;
  hashed_password : str;
  full_name : option str;
  role : UserRole;
  is_active : option bool;
  is_verified : option bool
}.

(** What a dependency comes to: the value, an [HTTPException], or an
    exception of the interpreter or the ORM that the global handler turns
    into a 500. *)
Inductive gate (A : Type) :=
  | Granted (a : A)
  | Rejected (status_code : Z) (detail : str)
  | Crashed.
Arguments Granted {A} a.
Arguments Rejected {A} status_code detail.
Arguments Crashed {A}.

(** The Russian for "Not authorized", "Access denied. Administrator rights
    are required." and "Access denied. Chief administrator rights are
    required." *)
Definition detail_unauthorized : str :=
  [1053; 1077; 32; 1072; 1074; 1090; 1086; 1088; 1080; 1079; 1086; 1074; 1072; 1085]%N.
Definition detail_admin_required : str :=
  [1044; 1086; 1089; 1090; 1091; 1087; 32; 1079; 1072; 1087; 1088; 1077; 1097; 1077; 1085; 46; 32; 1058; 1088; 1077; 1073; 1091; 1102; 1090; 1089; 1103; 32; 1087; 1088; 1072; 1074; 1072; 32; 1072; 1076; 1084; 1080; 1085; 1080; 1089; 1090; 1088; 1072; 1090; 1086; 1088; 1072; 46]%N.
Definition detail_super_admin_required : str :=
  [1044; 1086; 1089; 1090; 1091; 1087; 32; 1079; 1072; 1087; 1088; 1077; 1097; 1077; 1085; 46; 32; 1058; 1088; 1077; 1073; 1091; 1102; 1090; 1089; 1103; 32; 1087; 1088; 1072; 1074; 1072; 32; 1075; 1083; 1072; 1074; 1085; 1086; 1075; 1086; 32; 1072; 1076; 1084; 1080; 1085; 1080; 1089; 1090; 1088; 1072; 1090; 1086; 1088; 1072; 46]%N.

Section Gate.
(** [verify_token] of [app.utils.security] and [int] on its answer
    ([None] for a [ValueError]). *)
Variable verify_token : str -> str -> option str.
Variable int_of_str : str -> option Z.

(** [get_current_user]; [credentials] is the bearer token of the request,
    if any. *)
Definition get_current_user (credentials : option str) (users : list User)
    : gate (option User) :=
  match credentials with
  | None => Granted None
  | Some token =>
      match verify_token token (lit "access") with
      | None => Granted None
      | Some user_id_text =>
          if negb (truthy_str user_id_text) then Granted None
          else
            match int_of_str user_id_text with
            | None => Crashed
            | Some id =>
                match List.filter (fun u => user_id u =? id) users with
                | [] => Granted None
                | [user] =>
                    if truthy_opt (fun b => b) (is_active user)
                    then Granted (Some user) else Granted None
                | _ => Crashed
                end
            end
      end
  end.

Definition get_current_user_required (credentials : option str) (users : list User)
    : gate User :=
  match get_current_user credentials users with
  | Granted (Some user) => Granted user
  | Granted None => Rejected 401 detail_unauthorized
  | Rejected c d => Rejected c d
  | Crashed => Crashed
  end.

Definition get_current_admin (credentials : option str) (users : list User)
    : gate User :=
  match get_current_user_required credentials users with
  | Granted user =>
      match role user with
      | ADMIN | SUPER_ADMIN => Granted user
      | _ => Rejected 403 detail_admin_required
      end
  | other => other
  end.

Definition get_current_super_admin (credentials : option str) (users : list User)
    : gate User :=
  match get_current_user_required credentials users with
  | Granted user =>
      match role user with
      | SUPER_ADMIN => Granted user
      | _ => Rejected 403 detail_super_admin_required
      end
  | other => other
  end.

End Gate.

(** ** Initial data ([main.py])

    [create_initial_data] looks up, by key, the administrator, the current
    season, four news categories and six settings, and adds what it does
    not find.  The rows carry the columns that the function reads or sets;
    [==] on a string column compares the strings as they are. *)

Inductive NewsCategoryType := ANNOUNCEMENTS | RESULTS | INSTRUCTIONS | EVENTS.

Record NewsCategory := {
  cat_name : str;
  cat_slug : str;
  cat_type : NewsCategoryType
}.

Record SiteSettings := {
  setting_key : str;
  setting_value : option str;
  setting_value_json : option (list (str * str));
  setting_is_public : bool
}.

(** A calendar date, [date(year, month, day)]. *)
Definition calendar_date : Type := Z * Z * Z.

Record Season := {
  season_id : Z;
  season_year : Z;
  season_name : str;
  season_theme : option str;
  registration_open : bool;
  registration_start : option datetime;
  registration_end : option datetime;
  competition_date_start : option calendar_date;
  competition_date_end : option calendar_date;
  season_location : option str;
  is_current : bool;
  is_archived : bool;
  show_dates : bool;
  show_location : bool;
  show_format : bool;
  show_registration_deadline : bool
}.

Record Tables := {
  users : list User;
  users_seq : Z;
  seasons : list Season;
  seasons_seq : Z;
  categories : list NewsCategory;
  site_settings : list SiteSettings
}.

Definition set_users (rows : list User) (seq : Z) (t : Tables) : Tables :=
  {| users := rows; users_seq := seq;
     seasons := seasons t; seasons_seq := seasons_seq t;
     categories := categories t; site_settings := site_settings t |}.

Definition set_seasons (rows : list Season) (seq : Z) (t : Tables) : Tables :=
  {| users := users t; users_seq := users_seq t;
     seasons := rows; seasons_seq := seq;
     categories := categories t; site_settings := site_settings t |}.

Definition set_categories (rows : list NewsCategory) (t : Tables) : Tables :=
  {| users := users t; users_seq := users_seq t;
     seasons := seasons t; seasons_seq := seasons_seq t;
     categories := rows; site_settings := site_settings t |}.

Definition set_site_settings (rows : list SiteSettings) (t : Tables) : Tables :=
  {| users := users t; users_seq := users_seq t;
     seasons := seasons t; seasons_seq := seasons_seq t;
     categories := categories t; site_settings := rows |}.

(** The Russian for "Chief administrator", "Eurobot " and "Moscow". *)
Definition full_name_admin : str :=
  [1043; 1083; 1072; 1074; 1085; 1099; 1081; 32; 1072; 1076; 1084; 1080; 1085; 1080; 1089; 1090; 1088; 1072; 1090; 1086; 1088]%N.
Definition name_eurobot : str := [1045; 1074; 1088; 1086; 1073; 1086; 1090; 32]%N.
Definition location_moscow : str := [1052; 1086; 1089; 1082; 1074; 1072]%N.

(** The Russian for "Announcements", "Results", "Instructions" and
    "Events". *)
Definition default_categories : list NewsCategory :=
  [ {| cat_name := [1054; 1073; 1098; 1103; 1074; 1083; 1077; 1085; 1080; 1103]%N;
       cat_slug := lit "announcements"; cat_type := ANNOUNCEMENTS |};
    {| cat_name := [1056; 1077; 1079; 1091; 1083; 1100; 1090; 1072; 1090; 1099]%N;
       cat_slug := lit "results"; cat_type := RESULTS |};
    {| cat_name := [1048; 1085; 1089; 1090; 1088; 1091; 1082; 1094; 1080; 1080]%N;
       cat_slug := lit "instructions"; cat_type := INSTRUCTIONS |};
    {| cat_name := [1057; 1086; 1073; 1099; 1090; 1080; 1103]%N;
       cat_slug := lit "events"; cat_type := EVENTS |} ].

(** The values are the Russian for "Eurobot Russia", "International
    robotics competitions", "EUROBOT is an international robotics
    competition for young people." and "Development of engineering thinking
    and popularisation of robotics." *)
Definition default_settings : list SiteSettings :=
  [ {| setting_key := lit "site_title";
       setting_value := Some [1045; 1074; 1088; 1086; 1073; 1086; 1090; 32; 1056; 1086; 1089; 1089; 1080; 1103]%N;
       setting_value_json := None; setting_is_public := true |};
    {| setting_key := lit "site_description";
       setting_value := Some [1052; 1077; 1078; 1076; 1091; 1085; 1072; 1088; 1086; 1076; 1085; 1099; 1077; 32; 1089; 1086; 1088; 1077; 1074; 1085; 1086; 1074; 1072; 1085; 1080; 1103; 32; 1087; 1086; 32; 1088; 1086; 1073; 1086; 1090; 1086; 1090; 1077; 1093; 1085; 1080; 1082; 1077]%N;
       setting_value_json := None; setting_is_public := true |};
    {| setting_key := lit "about_history";
       setting_value := Some [69; 85; 82; 79; 66; 79; 84; 32; 8212; 32; 1101; 1090; 1086; 32; 1084; 1077; 1078; 1076; 1091; 1085; 1072; 1088; 1086; 1076; 1085; 1099; 1077; 32; 1089; 1086; 1088; 1077; 1074; 1085; 1086; 1074; 1072; 1085; 1080; 1103; 32; 1087; 1086; 32; 1088; 1086; 1073; 1086; 1090; 1086; 1090; 1077; 1093; 1085; 1080; 1082; 1077; 32; 1076; 1083; 1103; 32; 1084; 1086; 1083; 1086; 1076; 1105; 1078; 1080; 46]%N;
       setting_value_json := None; setting_is_public := true |};
    {| setting_key := lit "about_goals";
       setting_value := Some [1056; 1072; 1079; 1074; 1080; 1090; 1080; 1077; 32; 1080; 1085; 1078; 1077; 1085; 1077; 1088; 1085; 1086; 1075; 1086; 32; 1084; 1099; 1096; 1083; 1077; 1085; 1080; 1103; 32; 1080; 32; 1087; 1086; 1087; 1091; 1083; 1103; 1088; 1080; 1079; 1072; 1094; 1080; 1103; 32; 1088; 1086; 1073; 1086; 1090; 1086; 1090; 1077; 1093; 1085; 1080; 1082; 1080; 46]%N;
       setting_value_json := None; setting_is_public := true |};
    {| setting_key := lit "show_advantages";
       setting_value := Some (lit "true");
       setting_value_json := None; setting_is_public := true |};
    {| setting_key := lit "contact_emails";
       setting_value := None;
       setting_value_json :=
         Some [ (lit "technical", lit "tech@eurobot.ru");
                (lit "registration", lit "reg@eurobot.ru");
                (lit "sponsorship", lit "partners@eurobot.ru");
                (lit "press", lit "press@eurobot.ru") ];
       setting_is_public := true |} ].

(** The body of the two loops: [select(...).where(key == ...)],
    [scalar_one_or_none()], and [session.add] of the row when there is
    none. *)
Definition add_if_absent {S A} (rows : S -> list A) (put : list A -> S -> S)
    (key : A -> str) (x : A) : M S unit :=
  let* s := get in
  let* found :=
    scalar_one_or_none (List.filter (fun y => str_eqb (key y) (key x)) (rows s)) in
  match found with
  | Some _ => ret tt
  | None => modify (fun s => put (rows s ++ [x]) s)
  end.

Definition with_is_current (b : bool) (s : Season) : Season :=
  {| season_id := season_id s; season_year := season_year s;
     season_name := season_name s; season_theme := season_theme s;
     registration_open := registration_open s;
     registration_start := registration_start s;
     registration_end := registration_end s;
     competition_date_start := competition_date_start s;
     competition_date_end := competition_date_end s;
     season_location := season_location s;
     is_current := b;
     is_archived := is_archived s;
     show_dates := show_dates s; show_location := show_location s;
     show_format := show_format s;
     show_registration_deadline := show_registration_deadline s |}.

(** [timedelta(days=90)], in microseconds. *)
Definition NINETY_DAYS : Z := 90 * 86400 * 1000000.

Section InitialData.
(** [settings.ADMIN_EMAIL]. *)
Variable ADMIN_EMAIL : str.

(** The administrator; [hashed_password] is what
    [get_password_hash(settings.ADMIN_PASSWORD)] gives in this run. *)
Definition seed_admin (hashed : str) : M Tables unit :=
  let* t := get in
  let* admin :=
    scalar_one_or_none
      (List.filter (fun u => str_eqb (email u) ADMIN_EMAIL) (users t)) in
  match admin with
  | Some _ => ret tt
  | None =>
      modify (fun t =>
        set_users
          (users t ++ [ {| user_id := users_seq t;
                           email := ADMIN_EMAIL;
                           hashed_password := hashed;
                           full_name := Some full_name_admin;
                           role := SUPER_ADMIN;
                           is_active := Some true;
                           is_verified := Some true |} ])
          (users_seq t + 1) t)
  end.

(** The current season; [current_year] is [datetime.now().year] and
    [now_start], [now_end] are the two later readings of the clock. *)
Definition seed_season (current_year : Z) (now_start now_end : datetime)
    : M Tables unit :=
  let* t := get in
  let* current_season := scalar_one_or_none (List.filter is_current (seasons t)) in
  match current_season with
  | Some _ => ret tt
  | None =>
      let* existing_season :=
        scalar_one_or_none
          (List.filter (fun s => season_year s =? current_year) (seasons t)) in
      match existing_season with
      | Some existing_season =>
          modify (fun t =>
            set_seasons
              (map (fun s => if season_id s =? season_id existing_season
                             then with_is_current true s else s) (seasons t))
              (seasons_seq t) t)
      | None =>
          modify (fun t =>
            set_seasons
              (seasons t ++ [ {| season_id := seasons_seq t;
                                 season_year := current_year;
                                 season_name := name_eurobot ++ decimalZ current_year;
                                 season_theme := Some (lit "Farming Mars");
                                 registration_open := true;
                                 registration_start := Some now_start;
                                 registration_end := Some (now_end + NINETY_DAYS);
                                 competition_date_start := Some (current_year, 5, 1);
                                 competition_date_end := Some (current_year, 5, 3);
                                 season_location := Some location_moscow;
                                 is_current := true;
                                 is_archived := false;
                                 show_dates := true;
                                 show_location := true;
                                 show_format := true;
                                 show_registration_deadline := true |} ])
              (seasons_seq t + 1) t)
      end
  end.

(** [async with async_session_maker() as session: ...; await
    session.commit()]: what the block did is written by the commit at its
    end, and an exception leaves the block before it. *)
Definition in_session {A} (block : M Tables A) : M Tables A :=
  fun t =>
    match block t with
    | (Return a, t') => (Return a, t')
    | (Raise e, _) => (Raise e, t)
    end.

Definition create_initial_data (hashed : str) (current_year : Z)
    (now_start now_end : datetime) : M Tables unit :=
  in_session (
    let* _ := seed_admin hashed in
    let* _ := seed_season current_year now_start now_end in
    let* _ :=
      for_each default_categories
        (add_if_absent categories set_categories cat_slug) in
    for_each default_settings
      (add_if_absent site_settings set_site_settings setting_key)).

End InitialData.

(** ** A concrete host and sample data

    The ASCII tables and a slug function for ASCII titles (word characters
    in lower case, any other character a dash) stand for the interpreter
    and for [app.utils.slug] where the code is run, with a server whose
    integers have 32 bits and that takes no string longer than its
    column. *)
Definition ascii_slug (s : str) : str :=
  map (fun c => if ascii_isword c then ascii_lower_char c else 45%N) s.

Definition ascii_host : Host := {|
  host_unicode := ascii_db;
  generate_slug := ascii_slug;
  fits_integer := fun n => (- 2 ^ 31 <=? n) && (n <? 2 ^ 31);
  fits_string := fun n s => (length s <=? n)%nat;
  fits_hashtag_map := fun _ => true
|}.

Definition empty_db : Database := {|
  vk_integrations := [];
  vk_imported_posts := [];
  news := [];
  news_categories := [7];
  vk_integrations_seq := 1;
  vk_imported_posts_seq := 1;
  news_seq := 1
|}.

Definition sample_create : VKIntegrationCreate := {|
  c_group_id := lit "examplegroup";
  c_access_token := lit "secret";
  c_mode := MODE_AUTO;
  c_default_category_id := None;
  c_auto_publish := true;
  c_check_interval_minutes := 10;
  c_fetch_count := 5;
  c_hashtag_category_map := Some [(lit "#Results", 7)]
|}.

Definition sample_post (id : Z) (t : string) : Post := {|
  post_id := id;
  text := lit t;
  date := 1700000000;
  attachments := [];
  marked_as_ads := None
|}.

Definition sample_db : Database :=
  snd (create_vk_integration (H:=ascii_host) sample_create empty_db).

(** The row that [create_vk_integration] makes of [sample_create] on the
    empty tables (example [sample_db_integrations]). *)
Definition sample_integration : VKIntegration := {|
  vi_id := 1;
  group_id := lit "examplegroup";
  access_token := lit "secret";
  is_enabled := false;
  mode := MODE_AUTO;
  default_category_id := None;
  auto_publish := true;
  check_interval_minutes := 10;
  fetch_count := 5;
  hashtag_category_map := Some [(lit "#Results", 7)];
  last_checked_at := None
|}.

(** ** Vocabulary of the properties and sample data *)

(** The [k]-th slug that [ensure_unique_slug] probes after the base. *)
Definition candidate (base_slug : str) (k : N) : str :=
  base_slug ++ lit "-" ++ decimal k.

Definition slugs_unique (d : Database) : Prop := NoDup (map slug (news d)).

Definition ledger_key (r : VKImportedPost) : Z * Z :=
  (vk_post_id r, vk_integration_id r).

(** The key of the ledger: a post has at most one row under an
    integration. *)
Definition ledger_unique (d : Database) : Prop :=
  NoDup (map ledger_key (vk_imported_posts d)).

Definition category_exists (d : Database) (id : Z) : bool :=
  match find (Z.eqb id) (news_categories d) with
  | Some _ => true
  | None => false
  end.

Section Answers.
Context {H : Host}.

(** An item of the map answers a lower-cased hashtag: its key, without its
    leading hash signs and in lower case, is the hashtag, and its category
    is in the table. *)
Definition answers (d : Database) (tag_lower : str) (item : str * Z) : bool :=
  str_eqb (lower (lstrip_hash (fst item))) tag_lower && category_exists d (snd item).

(** The category the two loops of [determine_category] come to. *)
Definition resolved (d : Database) (hashtags : list str) (items : list (str * Z))
    : option Z :=
  match find (fun tag => existsb (answers d (lower tag)) items) hashtags with
  | Some tag => option_map snd (find (answers d (lower tag)) items)
  | None => None
  end.

End Answers.

(** The article a ledger row names, when its reference is set and the
    article is still in the table. *)
Definition linked_article (r : VKImportedPost) (d : Database) : option News :=
  match news_id r with
  | Some n => find_news n d
  | None => None
  end.

(** Keys of [news] come from the auto-increment sequence, which starts
    at one. *)
Definition news_keys_ok (d : Database) : Prop :=
  0 < news_seq d /\ Forall (fun a => 0 < n_id a < news_seq d) (news d).

(** What the schema and the sequences keep true of the tables. *)
Definition db_ok (d : Database) : Prop :=
  slugs_unique d /\ ledger_unique d /\ news_keys_ok d.

(** The database without the ledger row [r]. *)
Definition purge (r : VKImportedPost) (d : Database) : Database :=
  set_vk_imported_posts
    (List.filter (fun x => negb (ip_id x =? ip_id r)) (vk_imported_posts d)) d.

(** The ledger row written for the article [a] of a post. *)
Definition ledger_row (post : Post) (integration : VKIntegration) (a : News) (id : Z)
    : VKImportedPost :=
  {| ip_id := id;
     vk_post_id := post_id post;
     vk_integration_id := vi_id integration;
     news_id := Some (n_id a);
     vk_post_date := Some (moscow_naive (date post)) |}.

(** The database with one more article and one more ledger row. *)
Definition stored (a : News) (r : VKImportedPost) (d : Database) : Database :=
  {| vk_integrations := vk_integrations d;
     vk_imported_posts := vk_imported_posts d ++ [r];
     news := news d ++ [a];
     news_categories := news_categories d;
     vk_integrations_seq := vk_integrations_seq d;
     vk_imported_posts_seq := vk_imported_posts_seq d + 1;
     news_seq := news_seq d + 1 |}.

#[global] Instance db_ok_dec (d : Database) : Decision (db_ok d).
Proof. unfold db_ok, slugs_unique, ledger_unique, news_keys_ok. apply _. Defined.

(** The import with every ledger row written where it is added: what
    [import_vk_post] comes to in a session of its own, and [import_posts]
    in a session that autoflushes or on a batch without a repeated post
    (lemmas [alone_import_vk_post] and [alone_import_posts]). *)
Section AtOnce.
Context {H : Host}.

Definition check_ledger_at_once (post : Post) (integration : VKIntegration) : DB bool :=
  let* d := get in
  let* existing_record :=
    scalar_one_or_none (ledger_rows (post_id post) (vi_id integration) d) in
  match existing_record with
  | Some r =>
      let* news_check :=
        match news_id r with
        | Some n => if truthy_int n then get_news n else ret None
        | None => ret None
        end in
      match news_check with
      | Some _ => ret true
      | None => let* _ := delete_imported r in ret false
      end
  | None => ret false
  end.

Definition import_vk_post_at_once (post : Post) (integration : VKIntegration)
    : DB (option News) :=
  if negb (truthy_str (text post)) then ret None
  else
    let* imported_already := check_ledger_at_once post integration in
    if imported_already then ret None
    else
      let* category_id :=
        determine_category (text post) (hashtag_category_map integration)
          (default_category_id integration) in
      let title := make_title_from_text (text post) in
      let slug := generate_slug title in
      let slug :=
        if truthy_str slug then slug
        else lit "vk-post-" ++ decimalZ (post_id post) in
      let* slug := ensure_unique_slug slug in
      let* news := add_news (news_of_post post integration category_id title slug) in
      let* _ :=
        insert_imported (fun id =>
          {| ip_id := id;
             vk_post_id := post_id post;
             vk_integration_id := vi_id integration;
             news_id := Some (n_id news);
             vk_post_date := Some (moscow_naive (date post)) |}) in
      ret (Some news).

Fixpoint import_posts_at_once (posts : list Post) (integration : VKIntegration)
    (imported_count : Z) : DB Z :=
  match posts with
  | [] => ret imported_count
  | post :: rest =>
      if truthy_opt truthy_int (marked_as_ads post)
      then import_posts_at_once rest integration imported_count
      else
        let* news := import_vk_post_at_once post integration in
        import_posts_at_once rest integration
          (match news with Some _ => imported_count + 1 | None => imported_count end)
  end.

End AtOnce.

(** The rows that a flush writes: each gets the next key, in the order the
    rows were added. *)
Fixpoint keyed (k : Z) (new : list (Z -> VKImportedPost)) : list VKImportedPost :=
  match new with
  | [] => []
  | mk :: rest => mk k :: keyed (k + 1) rest
  end.

(** The keys of the ledger are below the next value of its sequence. *)
Definition keys_below (d : Database) : Prop :=
  Forall (fun r => ip_id r < vk_imported_posts_seq d) (vk_imported_posts d).

(** What keeps a post of a batch from being imported twice in the session
    of the batch: the session autoflushes, or no post comes twice in the
    batch (and the keys of the ledger come from its sequence). *)
Definition batch_ok (autoflush : bool) (posts : list Post) (d : Database) : Prop :=
  autoflush = true \/ (NoDup (map post_id posts) /\ keys_below d).

(** The same of a feed, for every batch it may answer with. *)
Definition fetch_ok (autoflush : bool) (wall_get : VKRequest -> option VKData) : Prop :=
  autoflush = true
  \/ forall rq posts, wall_get rq = Some (VKResponse posts) -> NoDup (map post_id posts).

(** A block of the session leaves the configurations as they are. *)
Definition keeps_integrations {A} (m : M ImportSession A) : Prop :=
  forall s r s', m s = (r, s') -> vk_integrations (is_db s') = vk_integrations (is_db s).

(** [f <= g] for two floats, as values. *)
Definition fle (f g : Z * Z) : Prop := fnum f * fden g <= fnum g * fden f.

(** Two rows of [vk_integrations] that differ at most in the checkpoint. *)
Definition same_settings (x x' : VKIntegration) : Prop :=
  vi_id x' = vi_id x /\ group_id x' = group_id x
  /\ access_token x' = access_token x /\ is_enabled x' = is_enabled x
  /\ mode x' = mode x /\ default_category_id x' = default_category_id x
  /\ auto_publish x' = auto_publish x
  /\ check_interval_minutes x' = check_interval_minutes x
  /\ fetch_count x' = fetch_count x
  /\ hashtag_category_map x' = hashtag_category_map x.

Definition post11 : Post := sample_post 11 "Final #results are in".

(** Sample data: the sample configuration with one post imported. *)
Definition imported_db : Database :=
  snd (alone (import_vk_post (H:=ascii_host) true post11 sample_integration)
         sample_db).

(** The sample database after the article of post 11 was deleted behind
    the ledger's back. *)
Definition stale_db : Database := set_news [] imported_db.

Definition stale_row : VKImportedPost := {|
  ip_id := 1;
  vk_post_id := 11;
  vk_integration_id := 1;
  news_id := Some 1;
  vk_post_date := Some 1700010800000000
|}.

Definition ad_post : Post := {|
  post_id := 12;
  text := lit "Buy now";
  date := 1700000100;
  attachments := [];
  marked_as_ads := Some 1
|}.

(** An article is due at [now]: not published, with a scheduled time that
    is not after [now]. *)
Definition eligible (now : datetime) (a : News) : Prop :=
  is_published a = false /\
  exists t, scheduled_publish_at a = Some t /\ t <= now.

(** The request a pass sends for an integration. *)
Definition request_of (i : VKIntegration) : VKRequest :=
  {| rq_group_id := group_id i;
     rq_access_token := access_token i;
     rq_count := count_of i |}.

(** The row that [create_vk_integration] makes of its data, with the key
    [id]. *)
Definition row_of (data : VKIntegrationCreate) (id : Z) : VKIntegration :=
  {| vi_id := id;
     group_id := c_group_id data;
     access_token := c_access_token data;
     is_enabled := false;
     mode := c_mode data;
     default_category_id := c_default_category_id data;
     auto_publish := c_auto_publish data;
     check_interval_minutes := c_check_interval_minutes data;
     fetch_count := c_fetch_count data;
     hashtag_category_map :=
       match c_hashtag_category_map data with
       | Some (item :: items) => Some (item :: items)
       | _ => None
       end;
     last_checked_at := None |}.

(** The database with the checkpoint of the integration of key [id]. *)
Definition checkpointed (id : Z) (now : datetime) (d : Database) : Database :=
  set_vk_integrations
    (map (fun i => if vi_id i =? id then with_last_checked_at (Some now) i else i)
       (vk_integrations d)) d.

(** A feed that answers every request with the same posts. *)
Definition feed_of (posts : list Post) (rq : VKRequest) : option VKData :=
  Some (VKResponse posts).

Definition sample_world : World := {| db := sample_db; vk_calls := [] |}.

(** The sample configuration with an interval of 286331154 minutes and a
    checkpoint, and a reading of the clock one microsecond short of that
    interval after the checkpoint. *)
Definition patient_integration : VKIntegration := {|
  vi_id := 1;
  group_id := lit "examplegroup";
  access_token := lit "secret";
  is_enabled := false;
  mode := MODE_AUTO;
  default_category_id := None;
  auto_publish := true;
  check_interval_minutes := 286331154;
  fetch_count := 5;
  hashtag_category_map := Some [(lit "#Results", 7)];
  last_checked_at := Some 1700000000000000
|}.

Definition patient_clock : datetime :=
  1700000000000000 + 286331154 * 60000000 - 1.

Definition patient_world : World :=
  {| db := set_vk_integrations [patient_integration] sample_db; vk_calls := [] |}.

(** The sample database after a pass, in a session that does not
    autoflush, over a batch in which post 11 comes twice with an
    advertisement between. *)
Definition repeated_db : Database :=
  db (snd (vk_fetch_tick (H:=ascii_host) (feed_of [post11; ad_post; post11])
             false false (fun _ => 1700020000000000) sample_world)).

(** Two configurations in mode [auto], as no sequence of requests leaves
    them: the sample one and a second one with another key. *)
Definition second_integration : VKIntegration := {|
  vi_id := 2;
  group_id := lit "othergroup";
  access_token := lit "secret";
  is_enabled := false;
  mode := MODE_AUTO;
  default_category_id := None;
  auto_publish := true;
  check_interval_minutes := 10;
  fetch_count := 5;
  hashtag_category_map := None;
  last_checked_at := None
|}.

Definition two_auto_world : World :=
  {| db := set_vk_integrations [sample_integration; second_integration] sample_db;
     vk_calls := [] |}.

(** A feed that fails in transport for the sample group and answers any
    other request with no posts. *)
Definition half_dead_feed (rq : VKRequest) : option VKData :=
  if str_eqb (rq_group_id rq) (lit "examplegroup") then None
  else Some (VKResponse []).

(** A request to create a configuration whose default category, 99, is no
    row of the categories of the sample tables. *)
Definition orphan_create : VKIntegrationCreate := {|
  c_group_id := lit "examplegroup";
  c_access_token := lit "secret";
  c_mode := MODE_AUTO;
  c_default_category_id := Some 99;
  c_auto_publish := true;
  c_check_interval_minutes := 10;
  c_fetch_count := 5;
  c_hashtag_category_map := None
|}.

Definition oversized_create : VKIntegrationCreate := {|
  c_group_id := lit "examplegroup";
  c_access_token := lit "secret";
  c_mode := MODE_MANUAL;
  c_default_category_id := None;
  c_auto_publish := true;
  c_check_interval_minutes := 10;
  c_fetch_count := 500;
  c_hashtag_category_map := None
|}.

Definition oversized_update : VKIntegrationUpdate := {|
  u_group_id := None;
  u_access_token := None;
  u_mode := None;
  u_default_category_id := None;
  u_auto_publish := None;
  u_check_interval_minutes := None;
  u_fetch_count := Some 500;
  u_hashtag_category_map := None
|}.

(** The specification's reading of the keys: one optional leading hash sign is
    taken off a key before it is compared. *)
Definition strip_one_hash (s : str) : str :=
  match s with
  | c :: s' => if (c =? ch_hash)%N then s' else s
  | [] => []
  end.

Definition answers_as_specified {H : Host} (d : Database) (tag_lower : str)
    (item : str * Z) : bool :=
  str_eqb (lower (strip_one_hash (fst item))) tag_lower && category_exists d (snd item).

Definition resolved_as_specified {H : Host} (d : Database) (hashtags : list str)
    (items : list (str * Z)) (dflt : option Z) : option Z :=
  match find (fun tag => existsb (answers_as_specified d (lower tag)) items) hashtags with
  | Some tag => option_map snd (find (answers_as_specified d (lower tag)) items)
  | None => dflt
  end.

(** The foreign key of the ledger: every row belongs to an integration of
    the table. *)
Definition ledger_fk_ok (d : Database) : Prop :=
  Forall (fun r => In (vk_integration_id r) (map vi_id (vk_integrations d)))
    (vk_imported_posts d).

#[global] Instance ledger_fk_ok_dec (d : Database) : Decision (ledger_fk_ok d).
Proof.
  unfold ledger_fk_ok. apply Forall_dec. intros r.
  apply (In_dec Z.eq_dec).
Defined.

(** ** Vocabulary of the further properties *)

(** A string without white space at either end. *)
Definition trimmed {U : UnicodeDB} (s : str) : Prop :=
  match s with
  | [] => True
  | c :: _ => isspace c = false /\ isspace (List.last s c) = false
  end.

(** The slugs [ensure_unique_slug] probes, in order: the slug itself, then
    the slug with [-1], [-2], ... *)
Definition probe (base_slug : str) (k : N) : str :=
  if (k =? 0)%N then base_slug else candidate base_slug k.

(** The URL of the best size of a photo, empty without sizes. *)
Definition best_url (sizes : list ImageSize) : str :=
  match sizes with
  | s :: l => img_url (max_by area s l)
  | [] => []
  end.

(** The usable photo URLs of the attachments, in order. *)
Definition photo_urls (atts : list Attachment) : list str :=
  flat_map (fun att =>
              match att with
              | AttPhoto sizes =>
                  if truthy_str (best_url sizes) then [best_url sizes] else []
              | _ => []
              end) atts.

(** The URLs of the videos of the attachments that have one, in order. *)
Definition video_urls {H : Host} (atts : list Attachment) : list str :=
  flat_map (fun att =>
              match att with
              | AttVideo v =>
                  match video_ext_url v with Some u => [u] | None => [] end
              | _ => []
              end) atts.

Definition is_video (att : Attachment) : bool :=
  match att with AttVideo _ => true | _ => false end.

(** Keys of the ledger come from its auto-increment sequence. *)
Definition ledger_ids_ok (d : Database) : Prop :=
  NoDup (map ip_id (vk_imported_posts d))
  /\ Forall (fun r => ip_id r < vk_imported_posts_seq d) (vk_imported_posts d).

#[global] Instance ledger_ids_ok_dec (d : Database) : Decision (ledger_ids_ok d).
Proof. unfold ledger_ids_ok. apply _. Defined.

(** A post that the loop over a batch passes over: no text, or marked as an
    advertisement. *)
Definition passed_over (p : Post) : bool :=
  negb (truthy_str (text p)) || truthy_opt truthy_int (marked_as_ads p).

(** A post that needs no import under an integration: passed over, or in
    the ledger with its article. *)
Definition settled (p : Post) (i : VKIntegration) (d : Database) : Prop :=
  passed_over p = true
  \/ exists r a,
       ledger_rows (post_id p) (vi_id i) d = [r] /\ linked_article r d = Some a.

(** A feed that fails in transport. *)
Definition dead_feed (rq : VKRequest) : option VKData := None.


(** Sample users and a sample token service: the token is the user's key
    in decimal. *)
Definition sample_users : list User :=
  [ {| user_id := 1; email := lit "admin@eurobot.ru"; hashed_password := lit "h1";
       full_name := Some full_name_admin; role := SUPER_ADMIN;
       is_active := Some true; is_verified := Some true |};
    {| user_id := 2; email := lit "user@eurobot.ru"; hashed_password := lit "h2";
       full_name := None; role := USER;
       is_active := Some true; is_verified := Some false |};
    {| user_id := 3; email := lit "former@eurobot.ru"; hashed_password := lit "h3";
       full_name := None; role := ADMIN;
       is_active := Some false; is_verified := Some true |} ].

Definition sample_verify_token (token purpose : str) : option str :=
  if str_eqb purpose (lit "access") then Some token else None.

Definition sample_int_of_str (s : str) : option Z :=
  match s with
  | [c] => if ascii_isdigit c then Some (Z.of_N c - 48) else None
  | _ => None
  end.

(** A ledger row names an article: its reference is set, not zero, and is
    the article's key. *)
Definition names (a : News) (r : VKImportedPost) : bool :=
  match news_id r with
  | Some n => truthy_int n && (n =? n_id a)
  | None => false
  end.

(** The article keys the ledger rows name. *)
Definition linked_ids (rows : list VKImportedPost) : list Z :=
  flat_map (fun r => match news_id r with
                     | Some n => if truthy_int n then [n] else []
                     | None => []
                     end) rows.

(** The sample database with a second ledger row, of another post, that
    names no article. *)
Definition two_rows_db : Database :=
  set_vk_imported_posts
    (vk_imported_posts imported_db
     ++ [{| ip_id := 2; vk_post_id := 12; vk_integration_id := 1;
            news_id := None; vk_post_date := None |}])
    imported_db.

(** What the loop of [delete_all_imported] does for one row before it
    deletes the row, seen on the database as it is once flushed. *)
Definition news_of_row_deleted (r : VKImportedPost) (k : Z) (s : Session)
    (k' : Z) (s1 : Session) : Prop :=
  vk_integrations (flushed s1) = vk_integrations (flushed s)
  /\ map ip_id (vk_imported_posts (flushed s1))
     = map ip_id (vk_imported_posts (flushed s))
  /\ news (flushed s1) = List.filter (fun a => negb (names a r)) (news (flushed s))
  /\ news_categories (flushed s1) = news_categories (flushed s)
  /\ vk_integrations_seq (flushed s1) = vk_integrations_seq (flushed s)
  /\ vk_imported_posts_seq (flushed s1) = vk_imported_posts_seq (flushed s)
  /\ news_seq (flushed s1) = news_seq (flushed s)
  /\ (k' = k \/ k' = k + 1)
  /\ (Forall (fun a => names a r = false) (s_deleted_news s) ->
      (k' = k /\ List.filter (fun a => names a r) (news (flushed s)) = [])
      \/ (k' = k + 1 /\ List.filter (fun a => names a r) (news (flushed s)) <> []))
  /\ (forall a, In a (s_deleted_news s1) ->
                In a (s_deleted_news s) \/ names a r = true).

(** Attachments of a post with two photos and a link. *)
Definition sample_photos : list Attachment :=
  [ AttPhoto [ {| img_width := 130; img_height := 87; img_url := lit "s.jpg" |};
               {| img_width := 1280; img_height := 853; img_url := lit "a.jpg" |} ];
    AttOther;
    AttPhoto [ {| img_width := 604; img_height := 403; img_url := lit "b.jpg" |} ] ].

(** The foreign key of the ledger to the content table: a reference that
    is set is the key of an article of the table. *)
Definition ledger_news_fk_ok (d : Database) : Prop :=
  Forall (fun r => match news_id r with
                   | Some n => In n (map n_id (news d))
                   | None => True
                   end) (vk_imported_posts d).

#[global] Instance ledger_news_fk_ok_dec (d : Database) :
  Decision (ledger_news_fk_ok d).
Proof.
  unfold ledger_news_fk_ok. apply Forall_dec. intros r.
  destruct (news_id r) as [n|]; [apply (In_dec Z.eq_dec)|left; exact I].
Defined.

(** What holds of the tables between two operations: unique slugs and
    keys, one ledger row for a post under an integration, both foreign
    keys of the ledger, and at most one configuration. *)
Definition system_ok (d : Database) : Prop :=
  db_ok d /\ ledger_ids_ok d /\ ledger_fk_ok d /\ ledger_news_fk_ok d
  /\ (length (vk_integrations d) <= 1)%nat.

#[global] Instance system_ok_dec (d : Database) : Decision (system_ok d).
Proof. unfold system_ok. apply _. Defined.

(** The operations that write to the tables: the requests of the router,
    a pass of each background task, and the deletion of an article by the
    content subsystem. *)
Inductive Operation :=
  | OpCreate (data : VKIntegrationCreate)
  | OpUpdate (data : VKIntegrationUpdate)
  | OpSetMode (new_mode : str)
  | OpDelete
  | OpDeleteAllImported (autoflush : bool)
  | OpFetchNow (autoflush : bool) (wall_get : VKRequest -> option VKData)
      (now : datetime)
  | OpFetchTick (autoflush expire_on_commit : bool)
      (wall_get : VKRequest -> option VKData) (clock : VKIntegration -> datetime)
  | OpPublisherTick (now : datetime)
  | OpNewsDeleted (id : Z).

(** A fetch among the operations imports no post twice in the session of
    its batch. *)
Definition operation_ok (op : Operation) : Prop :=
  match op with
  | OpFetchNow autoflush wall_get _ => fetch_ok autoflush wall_get
  | OpFetchTick autoflush _ wall_get _ => fetch_ok autoflush wall_get
  | _ => True
  end.

Section Operations.
Context {H : Host}.

(** The tables after an operation, as its session leaves them, whether the
    operation answers or raises. *)
Definition apply_operation (d : Database) (op : Operation) : Database :=
  match op with
  | OpCreate data => snd (create_vk_integration data d)
  | OpUpdate data => snd (update_vk_integration data d)
  | OpSetMode new_mode => snd (set_vk_mode new_mode d)
  | OpDelete => snd (delete_vk_integration d)
  | OpDeleteAllImported autoflush =>
      s_db (snd (delete_all_imported autoflush (session_of d)))
  | OpFetchNow autoflush wall_get now =>
      db (snd (fetch_now wall_get autoflush now {| db := d; vk_calls := [] |}))
  | OpFetchTick autoflush expire_on_commit wall_get clock =>
      db (snd (vk_fetch_tick wall_get autoflush expire_on_commit clock
                 {| db := d; vk_calls := [] |}))
  | OpPublisherTick now => snd (scheduled_news_publisher_tick now d)
  | OpNewsDeleted id => news_deleted id d
  end.

Definition apply_operations (ops : list Operation) (d : Database) : Database :=
  fold_left apply_operation ops d.

End Operations.

(** A day of the sample system: it is configured, a post comes in by the
    manual trigger and again by a pass of the ingestion loop, the
    publisher passes, the article is deleted, the post is imported again,
    the configuration is replaced and the ledger is cleared. *)
Definition sample_operations : list Operation :=
  [ OpCreate sample_create;
    OpFetchNow true (feed_of [post11]) 1700020000000000;
    OpFetchTick false true (feed_of [post11; sample_post 12 "Second post"])
      (fun _ => 1700030000000000);
    OpPublisherTick 1700030000000000;
    OpNewsDeleted 1;
    OpFetchNow false (feed_of [post11]) 1700040000000000;
    OpSetMode MODE_MANUAL;
    OpCreate oversized_create;
    OpFetchNow true (feed_of [post11]) 1700050000000000;
    OpDeleteAllImported true;
    OpDelete ].

(** The number of rows with the key [k]. *)
Definition count_key {A} (key : A -> str) (k : str) (rows : list A) : nat :=
  length (List.filter (fun y => str_eqb (key y) k) rows).

(** No key that [create_initial_data] looks up is held by two rows: the
    administrator's address, the current flag, the year when no season is
    current, the slugs of the default categories and the keys of the
    default settings. *)
Definition lookups_ok (ADMIN_EMAIL : str) (current_year : Z) (t : Tables) : Prop :=
  (count_key email ADMIN_EMAIL (users t) <= 1)%nat
  /\ (length (List.filter is_current (seasons t)) <= 1)%nat
  /\ (length (List.filter is_current (seasons t)) = 0%nat ->
      (length (List.filter (fun s => (season_year s =? current_year)%Z) (seasons t))
       <= 1)%nat)
  /\ Forall (fun c => (count_key cat_slug (cat_slug c) (categories t) <= 1)%nat)
       default_categories
  /\ Forall (fun s => (count_key setting_key (setting_key s) (site_settings t)
                       <= 1)%nat)
       default_settings.

#[global] Instance lookups_ok_dec (e : str) (y : Z) (t : Tables) :
  Decision (lookups_ok e y t).
Proof. unfold lookups_ok. apply _. Defined.

(** Every key that [create_initial_data] looks up is held by one row. *)
Definition seeded (ADMIN_EMAIL : str) (t : Tables) : Prop :=
  count_key email ADMIN_EMAIL (users t) = 1%nat
  /\ length (List.filter is_current (seasons t)) = 1%nat
  /\ Forall (fun c => count_key cat_slug (cat_slug c) (categories t) = 1%nat)
       default_categories
  /\ Forall (fun s => count_key setting_key (setting_key s) (site_settings t) = 1%nat)
       default_settings.

(** The row of the administrator that [create_initial_data] adds. *)
Definition admin_row (ADMIN_EMAIL hashed : str) (id : Z) : User :=
  {| user_id := id; email := ADMIN_EMAIL; hashed_password := hashed;
     full_name := Some full_name_admin; role := SUPER_ADMIN;
     is_active := Some true; is_verified := Some true |}.

(** Sample tables: the sample users, a season of 2025 that is not
    current, and the category of results. *)
Definition sample_season (id year : Z) (current : bool) : Season :=
  {| season_id := id; season_year := year;
     season_name := name_eurobot ++ decimalZ year;
     season_theme := None; registration_open := false;
     registration_start := None; registration_end := None;
     competition_date_start := None; competition_date_end := None;
     season_location := None;
     is_current := current; is_archived := false;
     show_dates := true; show_location := true; show_format := true;
     show_registration_deadline := true |}.

Definition sample_tables : Tables :=
  {| users := sample_users; users_seq := 4;
     seasons := [sample_season 1 2024 false; sample_season 2 2025 false];
     seasons_seq := 3;
     categories := [ {| cat_name := lit "Results"; cat_slug := lit "results";
                        cat_type := RESULTS |} ];
     site_settings := [] |}.

Definition sample_admin_email : str := lit "chief@eurobot.ru".

(** The sample tables with two seasons marked current. *)
Definition two_current_tables : Tables :=
  set_seasons [sample_season 1 2024 true; sample_season 2 2025 true] 3
    sample_tables.

(** The sample tables after the initial data. *)
Definition sample_seeded : Tables :=
  snd (create_initial_data sample_admin_email (lit "h") 2025 10 20 sample_tables).

(** * Properties *)

(** ** Literals and decimal numerals *)

Lemma lit_inj (a b : string) : lit a = lit b -> a = b.
Proof.
  unfold lit. intros E.
  assert (Hl : list_ascii_of_string a = list_ascii_of_string b).
  { revert E. generalize (list_ascii_of_string a) (list_ascii_of_string b).
    induction l as [|x l IH]; intros [|y l'] E; simpl in E; try discriminate; auto.
    injection E as E1 E2. f_equal; [|auto].
    rewrite <- (ascii_N_embedding x), <- (ascii_N_embedding y). congruence. }
  rewrite <- (string_of_list_ascii_of_string a), <- (string_of_list_ascii_of_string b).
  congruence.
Qed.

Lemma decimal_inj (m n : N) : decimal m = decimal n -> m = n.
Proof. intros E. apply lit_inj in E. by apply (inj pretty) in E. Qed.

Lemma candidate_inj base j k : candidate base j = candidate base k -> j = k.
Proof.
  unfold candidate. intros E. apply app_inv_head in E. apply app_inv_head in E.
  by apply decimal_inj.
Qed.

Lemma candidate_not_base base k : candidate base k <> base.
Proof.
  unfold candidate. intros E. apply (f_equal length) in E.
  rewrite !length_app in E. simpl in E. lia.
Qed.

(** ** Unique keys *)

(** Unfolding of the monad's combinators. *)
Ltac run := unfold bind, get, ret, raise, modify, on_db in *; simpl in *.

Lemma filter_unique_key {A K : Type} (f : A -> K) (p : A -> bool) (k : K) (l : list A) :
  NoDup (map f l) ->
  (forall x, p x = true -> f x = k) ->
  List.filter p l = [] \/ exists x, List.filter p l = [x].
Proof.
  intros Hnd Hp. induction l as [|a l IH]; simpl; [by left|].
  simpl in Hnd. apply NoDup_cons in Hnd as [Hni Hnd].
  destruct (p a) eqn:Ea.
  - right. exists a. f_equal.
    destruct (List.filter p l) as [|b l'] eqn:Ef; [done|]. exfalso.
    assert (Hb : In b (List.filter p l)) by (rewrite Ef; by left).
    apply filter_In in Hb as [Hb1 Hb2].
    apply Hni. rewrite (Hp a Ea), <- (Hp b Hb2).
    apply list_elem_of_In, in_map, Hb1.
  - by apply IH.
Qed.

Lemma filter_none {A} (p : A -> bool) (l : list A) :
  Forall (fun x => p x = false) l -> List.filter p l = [].
Proof.
  induction 1 as [|x l Hx _ IH]; simpl; [done|]. by rewrite Hx.
Qed.

Lemma str_eqb_eq (a b : str) : str_eqb a b = true <-> a = b.
Proof. unfold str_eqb. apply bool_decide_eq_true. Qed.

Lemma news_with_slug_cases (s : str) (d : Database) :
  slugs_unique d ->
  (news_with_slug s d = [] /\ s ∉ map slug (news d)) \/
  (exists a, news_with_slug s d = [a] /\ s ∈ map slug (news d)).
Proof.
  intros Hu. unfold news_with_slug.
  destruct (filter_unique_key slug (fun a => str_eqb (slug a) s) s (news d) Hu) as [E|[a E]].
  - intros x Hx. by apply str_eqb_eq.
  - left. split; [done|]. intros Hin.
    apply list_elem_of_In, in_map_iff in Hin as (a & Ha & Hin).
    assert (Hf : In a (List.filter (fun a => str_eqb (slug a) s) (news d))).
    { apply filter_In. split; [done|]. by apply str_eqb_eq. }
    by rewrite E in Hf.
  - right. exists a. split; [done|].
    assert (Hf : In a (List.filter (fun a => str_eqb (slug a) s) (news d)))
      by (rewrite E; by left).
    apply filter_In in Hf as [Hf1 Hf2]. apply str_eqb_eq in Hf2. subst s.
    apply list_elem_of_In, in_map, Hf1.
Qed.

Lemma ledger_rows_cases (pid iid : Z) (d : Database) :
  ledger_unique d ->
  ledger_rows pid iid d = [] \/ exists r, ledger_rows pid iid d = [r].
Proof.
  intros Hu. unfold ledger_rows.
  apply (filter_unique_key ledger_key _ (pid, iid)); [done|].
  intros x Hx. apply andb_true_iff in Hx as [H1 H2].
  apply Z.eqb_eq in H1, H2. unfold ledger_key. congruence.
Qed.

(** ** The slug resolver returns *)

Section SlugResolver.
Context {H : Host}.

Lemma news_with_slug_taken (s : str) (d : Database) (a : News) (l : list News) :
  news_with_slug s d = a :: l -> s ∈ map slug (news d).
Proof.
  intros E.
  assert (Hf : In a (news_with_slug s d)) by (rewrite E; by left).
  apply filter_In in Hf as [Hf1 Hf2]. apply str_eqb_eq in Hf2. subst s.
  apply list_elem_of_In, in_map, Hf1.
Qed.

Lemma news_with_slug_free (s : str) (d : Database) :
  news_with_slug s d = [] -> s ∉ map slug (news d).
Proof.
  intros E Hin. apply list_elem_of_In, in_map_iff in Hin as (a & Ha & Hin).
  assert (Hf : In a (news_with_slug s d)).
  { apply filter_In. split; [done|]. by apply str_eqb_eq. }
  by rewrite E in Hf.
Qed.

(** The loop ends within its fuel, whatever the table holds: the slugs it
    has found taken are distinct slugs of the table, and none of them is a
    candidate still to come.  It reads only, and it either returns a free
    slug or fails on a slug that two articles share. *)
Lemma ensure_unique_slug_loop_ends (fuel : nat) (base : str) :
  forall (slug0 : str) (counter : N) (d : Database) (tried : list str),
  NoDup tried ->
  (forall s, s ∈ tried -> s ∈ map slug (news d)) ->
  (forall k, (counter <= k)%N ->
     (candidate base k ∉ tried) /\ candidate base k <> slug0) ->
  slug0 ∉ tried ->
  (length (news d) < length tried + fuel)%nat ->
  exists r, ensure_unique_slug_loop fuel base slug0 counter d = (r, d)
            /\ ((exists s, r = Return s /\ s ∉ map slug (news d))
                \/ (r = Raise MultipleResultsFound
                    /\ exists s a b l, news_with_slug s d = a :: b :: l)).
Proof.
  induction fuel as [|fuel IH]; intros slug0 counter d tried Hnd Hsub Hfresh Hni Hlen.
  - exfalso.
    assert (Hle : (length tried <= length (map slug (news d)))%nat).
    { apply submseteq_length, NoDup_submseteq; auto. }
    rewrite length_map in Hle. lia.
  - simpl. run.
    destruct (news_with_slug slug0 d) as [|a [|b l]] eqn:E; simpl.
    + eexists. split; [reflexivity|]. left. eexists. split; [reflexivity|].
      by apply news_with_slug_free.
    + apply (IH _ _ d (slug0 :: tried)).
      * apply NoDup_cons. auto.
      * intros s Hs. apply elem_of_cons in Hs as [->|Hs]; auto.
        by apply (news_with_slug_taken _ d a []).
      * intros k Hk. destruct (Hfresh k ltac:(lia)) as [F1 F2]. split.
        -- intros Hc. apply elem_of_cons in Hc as [Hc|Hc]; auto.
        -- intros Hc. apply candidate_inj in Hc. lia.
      * destruct (Hfresh counter ltac:(lia)) as [F1 F2].
        intros Hc. apply elem_of_cons in Hc as [Hc|Hc]; auto.
      * simpl. lia.
    + eexists. split; [reflexivity|]. right. split; [done|].
      by exists slug0, a, b, l.
Qed.

Lemma ensure_unique_slug_ends (s : str) (d : Database) :
  exists r, ensure_unique_slug s d = (r, d)
            /\ ((exists s', r = Return s' /\ s' ∉ map slug (news d))
                \/ (r = Raise MultipleResultsFound
                    /\ exists s' a b l, news_with_slug s' d = a :: b :: l)).
Proof.
  change (ensure_unique_slug s d)
    with (ensure_unique_slug_loop (S (length (news d))) s s 1%N d).
  apply (ensure_unique_slug_loop_ends _ s s 1%N d []).
  - constructor.
  - intros x Hx. by apply elem_of_nil in Hx.
  - intros k _. split; [apply not_elem_of_nil | apply candidate_not_base].
  - apply not_elem_of_nil.
  - simpl. lia.
Qed.

(** With unique slugs, [ensure_unique_slug] returns a free slug. *)
Lemma ensure_unique_slug_returns (s : str) (d : Database) :
  slugs_unique d ->
  exists s', ensure_unique_slug s d = (Return s', d) /\ s' ∉ map slug (news d).
Proof.
  intros Hu.
  destruct (ensure_unique_slug_ends s d) as (r & E & [(s' & -> & Hs)|[_ Hdup]]).
  - by exists s'.
  - destruct Hdup as (s' & a & b & l & Hdup).
    destruct (news_with_slug_cases s' d Hu) as [[E' _]|[x [E' _]]];
      rewrite E' in Hdup; discriminate.
Qed.

End SlugResolver.

(** ** The category resolver reads only *)

Section Resolver.
Context {H : Host}.

Lemma category_for_tag_eq (d : Database) (tag_lower : str) (items : list (str * Z)) :
  category_for_tag tag_lower items d
  = (Return (option_map snd (find (answers d tag_lower) items)), d).
Proof.
  induction items as [|[k c] items IH]; [done|].
  simpl. unfold answers at 1, category_exists. simpl.
  destruct (str_eqb _ _); simpl; [|exact IH].
  unfold bind, get_category, get, ret. simpl. unfold bind. simpl.
  destruct (find (Z.eqb c) (news_categories d)); simpl; [done|].
  exact IH.
Qed.

Lemma find_existsb {A} (p : A -> bool) (l : list A) :
  existsb p l = match find p l with Some _ => true | None => false end.
Proof. induction l as [|x l IH]; simpl; [done|]. by destruct (p x). Qed.

Lemma category_for_tags_eq (d : Database) (hashtags : list str) (items : list (str * Z)) :
  category_for_tags hashtags items d = (Return (resolved d hashtags items), d).
Proof.
  induction hashtags as [|tag rest IH]; [done|].
  cbn [category_for_tags]. unfold bind. rewrite category_for_tag_eq.
  unfold resolved. cbn [find]. rewrite find_existsb.
  destruct (find (answers d (lower tag)) items) as [[k c]|] eqn:E;
    cbn [option_map snd].
  - by rewrite E.
  - rewrite IH. done.
Qed.

Lemma determine_category_reads (t : str) (m : option (list (str * Z)))
    (dflt : option Z) (d : Database) :
  exists c, determine_category t m dflt d = (Return c, d).
Proof.
  destruct m as [[|item items]|]; simpl; eauto.
  unfold bind. rewrite category_for_tags_eq.
  destruct (resolved _ _ _); eauto.
Qed.

End Resolver.

(** ** The ledger check and the import of one post *)

Lemma find_news_key (n : Z) (d : Database) (a : News) :
  find_news n d = Some a -> In a (news d) /\ n_id a = n.
Proof.
  unfold find_news. intros E. apply find_some in E as [E1 E2].
  split; [done|]. by apply Z.eqb_eq.
Qed.

Lemma ledger_rows_of_member (r : VKImportedPost) (d : Database) :
  ledger_unique d ->
  In r (vk_imported_posts d) ->
  ledger_rows (vk_post_id r) (vk_integration_id r) d = [r].
Proof.
  intros Hu Hin.
  assert (Hf : In r (ledger_rows (vk_post_id r) (vk_integration_id r) d)).
  { apply filter_In. split; [done|]. by rewrite !Z.eqb_refl. }
  destruct (ledger_rows_cases (vk_post_id r) (vk_integration_id r) d Hu) as [E|[x E]];
    rewrite E in Hf; simpl in Hf; [done|].
  destruct Hf as [->|[]]. done.
Qed.

Section ImportProperties.
Context {H : Host}.

Lemma check_ledger_fresh (p : Post) (i : VKIntegration) (d : Database) :
  ledger_rows (post_id p) (vi_id i) d = [] ->
  check_ledger_at_once p i d = (Return false, d).
Proof. intros E. unfold check_ledger_at_once. run. by rewrite E. Qed.

Lemma check_ledger_linked (p : Post) (i : VKIntegration) (d : Database)
    (r : VKImportedPost) (a : News) :
  news_keys_ok d ->
  ledger_rows (post_id p) (vi_id i) d = [r] ->
  linked_article r d = Some a ->
  check_ledger_at_once p i d = (Return true, d).
Proof.
  intros Hk E Hl. unfold check_ledger_at_once. run. rewrite E. simpl.
  unfold linked_article in Hl. destruct (news_id r) as [n|]; [|done].
  destruct (find_news_key n d a Hl) as [Hin Hn].
  destruct Hk as [_ Hk]. rewrite Forall_forall in Hk.
  apply list_elem_of_In, Hk in Hin.
  unfold truthy_int. destruct (Z.eqb_spec n 0) as [->|_]; [lia|]. simpl.
  unfold get_news. run. by rewrite Hl.
Qed.

Lemma check_ledger_stale (p : Post) (i : VKIntegration) (d : Database)
    (r : VKImportedPost) :
  ledger_rows (post_id p) (vi_id i) d = [r] ->
  linked_article r d = None ->
  check_ledger_at_once p i d = (Return false, purge r d).
Proof.
  intros E Hl. unfold check_ledger_at_once. run. rewrite E. simpl.
  unfold linked_article in Hl. destruct (news_id r) as [n|]; [|done].
  destruct (truthy_int n); [|done].
  unfold get_news. run. by rewrite Hl.
Qed.

(** Past the ledger check, the post becomes an article of a free slug and
    a ledger row that names it. *)
Lemma import_vk_post_stores (p : Post) (i : VKIntegration) (d d1 : Database) :
  truthy_str (text p) = true ->
  check_ledger_at_once p i d = (Return false, d1) ->
  slugs_unique d1 ->
  exists a,
    import_vk_post_at_once p i d
    = (Return (Some a), stored a (ledger_row p i a (vk_imported_posts_seq d1)) d1)
    /\ n_id a = news_seq d1
    /\ (slug a ∉ map slug (news d1))
    /\ title a = make_title_from_text (text p).
Proof.
  intros Ht Hc Hu. unfold import_vk_post_at_once. rewrite Ht. simpl.
  unfold bind at 1. rewrite Hc.
  destruct (determine_category_reads (text p) (hashtag_category_map i)
              (default_category_id i) d1) as [c Ec].
  unfold bind at 1. rewrite Ec.
  match goal with
  | |- context [ensure_unique_slug ?s] =>
      destruct (ensure_unique_slug_returns s d1 Hu) as [s' [Es Hs]]
  end.
  unfold bind at 1. rewrite Es.
  eexists. split; [reflexivity|]. simpl. auto.
Qed.

Lemma purge_ok (r : VKImportedPost) (d : Database) : db_ok d -> db_ok (purge r d).
Proof.
  intros (Hs & Hl & Hk). split; [done|]. split; [|done].
  unfold ledger_unique, purge in *. simpl.
  eapply sublist_NoDup; [exact Hl|].
  generalize (vk_imported_posts d). intros l.
  induction l as [|x l IH]; simpl; [constructor|].
  destruct (negb _); simpl; by constructor.
Qed.

Lemma purge_rows (pid iid : Z) (r : VKImportedPost) (d : Database) :
  ledger_rows pid iid d = [r] -> ledger_rows pid iid (purge r d) = [].
Proof.
  intros E. unfold ledger_rows, purge in *. simpl.
  destruct (List.filter _ (List.filter _ _)) as [|x l] eqn:Ef; [done|]. exfalso.
  assert (Hx : In x (x :: l)) by (by left). rewrite <- Ef in Hx.
  apply filter_In in Hx as [Hx1 Hx2]. apply filter_In in Hx1 as [Hx1 Hx3].
  assert (Hr : In x [r]). { rewrite <- E. by apply filter_In. }
  destruct Hr as [->|[]]. by rewrite Z.eqb_refl in Hx3.
Qed.

Lemma stored_ok (a : News) (r : VKImportedPost) (d : Database) :
  db_ok d ->
  slug a ∉ map slug (news d) ->
  n_id a = news_seq d ->
  ledger_rows (vk_post_id r) (vk_integration_id r) d = [] ->
  db_ok (stored a r d).
Proof.
  intros (Hs & Hl & Hp & Hk) Ha Hn Hr. repeat split.
  - unfold slugs_unique, stored in *. simpl. rewrite map_app. simpl.
    apply NoDup_app. split; [done|]. split; [|apply NoDup_singleton].
    intros x Hx Hy. apply list_elem_of_singleton in Hy. by subst.
  - unfold ledger_unique, stored in *. simpl. rewrite map_app. simpl.
    apply NoDup_app. split; [done|]. split; [|apply NoDup_singleton].
    intros x Hx Hy. apply list_elem_of_singleton in Hy. subst x.
    apply list_elem_of_In, in_map_iff in Hx as (y & Hy1 & Hy2).
    assert (Hf : In y (ledger_rows (vk_post_id r) (vk_integration_id r) d)).
    { apply filter_In. split; [done|]. unfold ledger_key in Hy1.
      injection Hy1 as -> ->. by rewrite !Z.eqb_refl. }
    by rewrite Hr in Hf.
  - simpl. lia.
  - simpl. apply Forall_app. split.
    + eapply Forall_impl; [exact Hk|]. simpl. intros; lia.
    + apply Forall_singleton. lia.
Qed.

Lemma stored_rows (p : Post) (i : VKIntegration) (a : News) (k : Z) (d : Database) :
  ledger_rows (post_id p) (vi_id i) d = [] ->
  ledger_rows (post_id p) (vi_id i) (stored a (ledger_row p i a k) d)
  = [ledger_row p i a k].
Proof.
  intros E. unfold ledger_rows in *. simpl. rewrite List.filter_app, E. simpl.
  by rewrite !Z.eqb_refl.
Qed.

Lemma stored_linked (r : VKImportedPost) (a : News) (d : Database) :
  news_keys_ok d ->
  n_id a = news_seq d ->
  news_id r = Some (n_id a) ->
  linked_article r (stored a r d) = Some a.
Proof.
  intros [_ Hk] Hn Hr. unfold linked_article, find_news. rewrite Hr. simpl.
  induction (news d) as [|x l IH]; simpl.
  - by rewrite Z.eqb_refl.
  - apply Forall_cons in Hk as [Hx Hk].
    destruct (Z.eqb_spec (n_id x) (n_id a)) as [E|_]; [lia|]. by apply IH.
Qed.

(** Under the keys of the schema the import of a post returns, and keeps
    them; it does not touch the configuration. *)
Lemma import_vk_post_returns (p : Post) (i : VKIntegration) (d : Database) :
  db_ok d ->
  exists r d', import_vk_post_at_once p i d = (Return r, d')
               /\ db_ok d' /\ vk_integrations d' = vk_integrations d.
Proof.
  intros Hok.
  destruct (truthy_str (text p)) eqn:Ht.
  2:{ exists None, d. unfold import_vk_post_at_once. rewrite Ht. done. }
  pose proof Hok as (Hs & Hl & Hk).
  destruct (ledger_rows_cases (post_id p) (vi_id i) d Hl) as [E|[r E]].
  - destruct (import_vk_post_stores p i d d Ht (check_ledger_fresh p i d E) Hs)
      as (a & Ei & Hn & Hfree & _).
    eexists _, _. split; [exact Ei|]. split; [|done].
    apply stored_ok; auto.
  - destruct (linked_article r d) as [a|] eqn:El.
    + exists None, d. split; [|done].
      unfold import_vk_post_at_once. rewrite Ht. simpl. unfold bind.
      by rewrite (check_ledger_linked p i d r a Hk E El).
    + pose proof (purge_ok r d Hok) as (Hs' & Hl' & Hk').
      destruct (import_vk_post_stores p i d (purge r d) Ht
                  (check_ledger_stale p i d r E El) Hs')
        as (a & Ei & Hn & Hfree & _).
      eexists _, _. split; [exact Ei|]. split; [|done].
      apply stored_ok; auto.
      * by apply purge_ok.
      * simpl. by apply purge_rows.
Qed.

End ImportProperties.

Section Ledger.
Context {H : Host}.

Lemma import_vk_post_skips_linked (p : Post) (i : VKIntegration) (d : Database)
    (r : VKImportedPost) (a : News) :
  truthy_str (text p) = true ->
  news_keys_ok d ->
  ledger_rows (post_id p) (vi_id i) d = [r] ->
  linked_article r d = Some a ->
  import_vk_post_at_once p i d = (Return None, d).
Proof.
  intros Ht Hk E El. unfold import_vk_post_at_once. rewrite Ht. simpl. unfold bind.
  by rewrite (check_ledger_linked p i d r a Hk E El).
Qed.

(** The import is idempotent, for a post with text under the keys of the
    schema. *)
Lemma import_vk_post_idempotent_at_once (p : Post) (i : VKIntegration) (d : Database) :
  truthy_str (text p) = true ->
  db_ok d ->
  (forall r a,
      In r (vk_imported_posts d) ->
      vk_post_id r = post_id p ->
      vk_integration_id r = vi_id i ->
      linked_article r d = Some a ->
      import_vk_post_at_once p i d = (Return None, d))
  /\ (exists res d1,
        import_vk_post_at_once p i d = (Return res, d1)
        /\ (news d1 = news d \/ exists a, news d1 = news d ++ [a])
        /\ (exists row a,
              ledger_rows (post_id p) (vi_id i) d1 = [row]
              /\ linked_article row d1 = Some a)
        /\ import_vk_post_at_once p i d1 = (Return None, d1)).
Proof.
  intros Ht Hok. pose proof Hok as (Hs & Hl & Hk). split.
  - intros r a Hin Hp Hi El.
    apply (import_vk_post_skips_linked p i d r a); auto.
    rewrite <- Hp, <- Hi. by apply ledger_rows_of_member.
  - destruct (ledger_rows_cases (post_id p) (vi_id i) d Hl) as [E|[r E]].
    + destruct (import_vk_post_stores p i d d Ht (check_ledger_fresh p i d E) Hs)
        as (a & Ei & Hn & Hfree & _).
      set (row := ledger_row p i a (vk_imported_posts_seq d)) in *.
      assert (Hok1 : db_ok (stored a row d)) by (apply stored_ok; auto).
      assert (Er : ledger_rows (post_id p) (vi_id i) (stored a row d) = [row])
        by (by apply stored_rows).
      assert (Ea : linked_article row (stored a row d) = Some a)
        by (by apply stored_linked).
      eexists _, _. split; [exact Ei|]. split; [right; by exists a|].
      split; [by exists row, a|].
      apply (import_vk_post_skips_linked p i _ row a); auto. apply Hok1.
    + destruct (linked_article r d) as [a|] eqn:El.
      * exists None, d.
        assert (Ei : import_vk_post_at_once p i d = (Return None, d))
          by (by apply (import_vk_post_skips_linked p i d r a)).
        split; [done|]. split; [by left|]. split; [by exists r, a|done].
      * pose proof (purge_ok r d Hok) as (Hs' & Hl' & Hk').
        destruct (import_vk_post_stores p i d (purge r d) Ht
                    (check_ledger_stale p i d r E El) Hs')
          as (a & Ei & Hn & Hfree & _).
        set (row := ledger_row p i a (vk_imported_posts_seq (purge r d))) in *.
        assert (E0 : ledger_rows (post_id p) (vi_id i) (purge r d) = [])
          by (by apply purge_rows).
        assert (Hok1 : db_ok (stored a row (purge r d))).
        { apply stored_ok; auto. by apply purge_ok. }
        assert (Er : ledger_rows (post_id p) (vi_id i) (stored a row (purge r d))
                     = [row]) by (by apply stored_rows).
        assert (Ea : linked_article row (stored a row (purge r d)) = Some a)
          by (by apply stored_linked).
        eexists _, _. split; [exact Ei|]. split; [right; by exists a|].
        split; [by exists row, a|].
        apply (import_vk_post_skips_linked p i _ row a); auto. apply Hok1.
Qed.

(** A stale row is replaced, for a post with text under the keys of the
    schema. *)
Lemma import_vk_post_stale_reimport_at_once (p : Post) (i : VKIntegration)
    (d : Database) (r : VKImportedPost) :
  truthy_str (text p) = true ->
  db_ok d ->
  In r (vk_imported_posts d) ->
  vk_post_id r = post_id p ->
  vk_integration_id r = vi_id i ->
  linked_article r d = None ->
  exists a row d',
    import_vk_post_at_once p i d = (Return (Some a), d')
    /\ news d' = news d ++ [a]
    /\ vk_imported_posts d'
       = List.filter (fun x => negb (ip_id x =? ip_id r)) (vk_imported_posts d) ++ [row]
    /\ ledger_rows (post_id p) (vi_id i) d' = [row]
    /\ news_id row = Some (n_id a)
    /\ linked_article row d' = Some a.
Proof.
  intros Ht Hok Hin Hp Hi El.
  assert (E : ledger_rows (post_id p) (vi_id i) d = [r]).
  { rewrite <- Hp, <- Hi. apply ledger_rows_of_member; [apply Hok|done]. }
  pose proof (purge_ok r d Hok) as (Hs' & Hl' & Hk').
  destruct (import_vk_post_stores p i d (purge r d) Ht
              (check_ledger_stale p i d r E El) Hs')
    as (a & Ei & Hn & Hfree & _).
  set (row := ledger_row p i a (vk_imported_posts_seq (purge r d))) in *.
  exists a, row, (stored a row (purge r d)).
  split; [exact Ei|]. split; [done|]. split; [done|].
  split; [apply stored_rows; by apply purge_rows|].
  split; [done|]. by apply stored_linked.
Qed.

End Ledger.

(** ** The import in its session *)

Lemma insert_all_rows (new : list (Z -> VKImportedPost)) :
  forall d,
  insert_all new d
  = {| vk_integrations := vk_integrations d;
       vk_imported_posts :=
         vk_imported_posts d ++ keyed (vk_imported_posts_seq d) new;
       news := news d;
       news_categories := news_categories d;
       vk_integrations_seq := vk_integrations_seq d;
       vk_imported_posts_seq := vk_imported_posts_seq d + Z.of_nat (length new);
       news_seq := news_seq d |}.
Proof.
  induction new as [|mk new IH]; intros d.
  - simpl. rewrite app_nil_r, Z.add_0_r. by destruct d.
  - cbn [insert_all]. rewrite IH. simpl. rewrite <- app_assoc. simpl.
    f_equal. lia.
Qed.

Lemma written_session_at (d : Database) : written (session_at d) = d.
Proof. reflexivity. Qed.

Lemma written_settled (s : ImportSession) : is_new s = [] -> written s = is_db s.
Proof. unfold written. by intros ->. Qed.

Lemma keyed_ids (new : list (Z -> VKImportedPost)) :
  forall k,
  Forall (fun mk => forall key, ip_id (mk key) = key) new ->
  Forall (fun r => k <= ip_id r) (keyed k new).
Proof.
  induction new as [|mk new IH]; intros k Hn; simpl; constructor.
  - apply Forall_cons in Hn as [Hmk _]. rewrite Hmk. lia.
  - apply Forall_cons in Hn as [_ Hn].
    eapply Forall_impl; [apply (IH (k + 1) Hn)|]. simpl. intros; lia.
Qed.

Lemma keyed_posts (pid iid : Z) (new : list (Z -> VKImportedPost)) :
  forall k,
  Forall (fun mk => forall key, vk_post_id (mk key) <> pid) new ->
  List.filter (fun r => (vk_post_id r =? pid) && (vk_integration_id r =? iid))
    (keyed k new) = [].
Proof.
  induction new as [|mk new IH]; intros k Hn; simpl; [done|].
  apply Forall_cons in Hn as [Hmk Hn].
  destruct (Z.eqb_spec (vk_post_id (mk k)) pid) as [E|_]; [by apply Hmk in E|].
  simpl. by apply IH.
Qed.

Lemma filter_all {A} (q : A -> bool) (l : list A) :
  Forall (fun x => q x = true) l -> List.filter q l = l.
Proof. induction 1 as [|x l Hx _ IH]; simpl; [done|]. by rewrite Hx, IH. Qed.

Lemma insert_all_purge (r : VKImportedPost) (new : list (Z -> VKImportedPost))
    (d : Database) :
  keys_below d ->
  In r (vk_imported_posts d) ->
  Forall (fun mk => forall key, ip_id (mk key) = key) new ->
  insert_all new (purge r d) = purge r (insert_all new d).
Proof.
  intros Hk Hin Hn. rewrite !insert_all_rows. unfold purge, set_vk_imported_posts.
  simpl. f_equal. rewrite List.filter_app. f_equal. symmetry. apply filter_all.
  unfold keys_below in Hk. rewrite Forall_forall in Hk.
  apply list_elem_of_In, Hk in Hin.
  eapply Forall_impl; [apply (keyed_ids new (vk_imported_posts_seq d) Hn)|].
  simpl. intros x Hx. apply negb_true_iff, Z.eqb_neq. lia.
Qed.

Lemma insert_all_keys (new : list (Z -> VKImportedPost)) (d : Database) :
  keys_below d ->
  Forall (fun mk => forall key, ip_id (mk key) = key) new ->
  keys_below (insert_all new d).
Proof.
  revert d. induction new as [|mk new IH]; intros d Hk Hn; [done|].
  apply Forall_cons in Hn as [Hmk Hn]. cbn [insert_all]. apply IH; [|done].
  unfold keys_below in *. simpl. apply Forall_app. split.
  - eapply Forall_impl; [exact Hk|]. simpl. intros; lia.
  - apply Forall_singleton. rewrite Hmk. lia.
Qed.

Section Sessions.
Context {H : Host}.

Lemma check_ledger_session (af : bool) (p : Post) (i : VKIntegration) (d : Database) :
  check_ledger af p i (session_at d)
  = (fst (check_ledger_at_once p i d), session_at (snd (check_ledger_at_once p i d))).
Proof.
  unfold check_ledger, check_ledger_at_once, query, in_db, flush_new.
  unfold bind, get, ret, raise, modify, scalar_one_or_none, written, session_at.
  destruct af; simpl.
  all: destruct (ledger_rows (post_id p) (vi_id i) d) as [|r [|r' l]]; simpl; try done.
  all: destruct (news_id r) as [n|]; simpl; try done.
  all: destruct (truthy_int n); simpl; try done.
  all: unfold get_news, bind, get, ret; simpl.
  all: by destruct (find_news n d).
Qed.

Lemma query_session {A} (af : bool) (m : DB A) (d : Database) :
  query af m (session_at d) = (fst (m d), session_at (snd (m d))).
Proof.
  unfold query, in_db, flush_new, bind, ret, modify, written, session_at.
  destruct af; simpl; by destruct (m d).
Qed.

Lemma check_ledger_at_once_keys (p : Post) (i : VKIntegration) (d d1 : Database)
    (r : outcome bool) :
  check_ledger_at_once p i d = (r, d1) -> keys_below d -> keys_below d1.
Proof.
  unfold check_ledger_at_once, bind, get, ret, raise, modify, scalar_one_or_none.
  intros E Hk. revert E.
  assert (Hp : forall x, keys_below (purge x d)).
  { intros x. unfold keys_below, purge in *. simpl.
    rewrite Forall_forall in Hk. apply Forall_forall. intros y Hy.
    apply Hk. apply list_elem_of_In. apply list_elem_of_In in Hy.
    by apply filter_In in Hy as [Hy _]. }
  destruct (ledger_rows (post_id p) (vi_id i) d) as [|x [|x' l]]; simpl;
    try (by intros [= <- <-]).
  destruct (news_id x) as [n|]; simpl.
  - destruct (truthy_int n); simpl.
    + unfold get_news, bind, get, ret. simpl.
      destruct (find_news n d); intros [= <- <-]; [done|apply Hp].
    + intros [= <- <-]. apply Hp.
  - intros [= <- <-]. apply Hp.
Qed.

Lemma bind_session {A B} (m : M ImportSession A) (m' : DB A)
    (k : A -> M ImportSession B) (d : Database) :
  m (session_at d) = (fst (m' d), session_at (snd (m' d))) ->
  bind m k (session_at d)
  = match m' d with
    | (Return a, d1) => k a (session_at d1)
    | (Raise e, d1) => (Raise e, session_at d1)
    end.
Proof. unfold bind. intros ->. by destruct (m' d) as [[a|e] d1]. Qed.

(** The import of a post in a session that has nothing to flush. *)
Lemma import_vk_post_session (af : bool) (p : Post) (i : VKIntegration) (d : Database)
    (r : outcome (option News)) (d' : Database) :
  import_vk_post_at_once p i d = (r, d') ->
  exists s,
    import_vk_post af p i (session_at d) = (r, s)
    /\ written s = d'
    /\ (forall e, r = Raise e -> is_new s = [])
    /\ Forall (fun mk => forall key, vk_post_id (mk key) = post_id p
                                      /\ ip_id (mk key) = key) (is_new s)
    /\ (keys_below d -> keys_below (is_db s)).
Proof.
  unfold import_vk_post, import_vk_post_at_once.
  destruct (truthy_str (text p)); cbn [negb].
  2:{ intros [= <- <-]. exists (session_at d). by repeat split. }
  unfold bind at 1.
  rewrite (bind_session _ (check_ledger_at_once p i) _ d
             (check_ledger_session af p i d)).
  destruct (check_ledger_at_once p i d) as [[b|e] d1] eqn:Ec.
  2:{ intros [= <- <-]. exists (session_at d1). repeat split; try done.
      by apply (check_ledger_at_once_keys p i d d1 _ Ec). }
  pose proof (check_ledger_at_once_keys p i d d1 _ Ec) as Hk1.
  destruct b.
  { intros [= <- <-]. exists (session_at d1). by repeat split. }
  unfold bind at 1.
  rewrite (bind_session _ (determine_category (text p) (hashtag_category_map i)
                             (default_category_id i)) _ d1 (query_session af _ d1)).
  destruct (determine_category_reads (text p) (hashtag_category_map i)
              (default_category_id i) d1) as [c Ecat].
  rewrite Ecat.
  unfold bind at 1.
  match goal with
  | |- context [ensure_unique_slug ?s0] =>
      rewrite (bind_session _ (ensure_unique_slug s0) _ d1 (query_session af _ d1));
      destruct (ensure_unique_slug_ends s0 d1) as (rs & Es & _); rewrite Es
  end.
  destruct rs as [s'|e].
  2:{ intros [= <- <-]. exists (session_at d1). by repeat split. }
  unfold bind, flush_new, in_db, add_news, add_imported, insert_imported, modify, ret,
    written, session_at.
  cbn [is_db is_new insert_all fst snd app].
  intros [= <- <-]. eexists. split; [reflexivity|]. split; [reflexivity|].
  split; [done|]. split; [by repeat constructor|]. done.
Qed.

Lemma determine_category_view (t : str) (m : option (list (str * Z)))
    (dflt : option Z) (d d' : Database) :
  news_categories d = news_categories d' ->
  exists c, determine_category t m dflt d = (Return c, d)
            /\ determine_category t m dflt d' = (Return c, d').
Proof.
  intros Hc. destruct m as [[|item items]|]; simpl;
    try (eexists; split; reflexivity).
  unfold bind. rewrite !category_for_tags_eq.
  assert (E : resolved d' (extract_hashtags t) (item :: items)
              = resolved d (extract_hashtags t) (item :: items)).
  { unfold resolved, answers, category_exists. by rewrite Hc. }
  rewrite E. clear E.
  destruct (resolved d (extract_hashtags t) (item :: items));
    eexists; split; reflexivity.
Qed.

Lemma ensure_unique_slug_loop_view (fuel : nat) (base : str) (d d' : Database) :
  news d = news d' ->
  forall (slug0 : str) (counter : N),
  exists r, ensure_unique_slug_loop fuel base slug0 counter d = (r, d)
            /\ ensure_unique_slug_loop fuel base slug0 counter d' = (r, d').
Proof.
  intros Hn. induction fuel as [|fuel IH]; intros slug0 counter; simpl.
  - by eexists.
  - unfold bind, get, ret, raise, scalar_one_or_none, news_with_slug. simpl.
    rewrite Hn.
    destruct (List.filter _ (news d')) as [|a [|b l]]; simpl.
    + by eexists.
    + apply IH.
    + by eexists.
Qed.

Lemma ensure_unique_slug_view (s0 : str) (d d' : Database) :
  news d = news d' ->
  exists r, ensure_unique_slug s0 d = (r, d) /\ ensure_unique_slug s0 d' = (r, d').
Proof.
  intros Hn. unfold ensure_unique_slug, bind, get. rewrite Hn.
  apply (ensure_unique_slug_loop_view _ _ d d' Hn).
Qed.

Lemma check_ledger_pending (p : Post) (i : VKIntegration) (s : ImportSession) :
  keys_below (is_db s) ->
  Forall (fun mk => forall key, vk_post_id (mk key) <> post_id p
                                /\ ip_id (mk key) = key) (is_new s) ->
  exists b s1 s2,
    check_ledger false p i s = (b, s1)
    /\ check_ledger false p i (session_at (written s)) = (b, s2)
    /\ ((s1 = s /\ s2 = session_at (written s)) \/ s1 = s2).
Proof.
  intros Hk Hn. destruct s as [d N]. cbn [is_db is_new] in *.
  assert (Hn1 : Forall (fun mk => forall key, vk_post_id (mk key) <> post_id p) N)
    by (eapply Forall_impl; [exact Hn|]; simpl; intros mk Hmk key; apply Hmk).
  assert (Hn2 : Forall (fun mk => forall key, ip_id (mk key) = key) N)
    by (eapply Forall_impl; [exact Hn|]; simpl; intros mk Hmk key; apply Hmk).
  set (D := written {| is_db := d; is_new := N |}).
  assert (Hrows : ledger_rows (post_id p) (vi_id i) D
                  = ledger_rows (post_id p) (vi_id i) d).
  { unfold D, written, ledger_rows. cbn [is_db is_new]. rewrite insert_all_rows.
    simpl. rewrite List.filter_app, keyed_posts by done. apply app_nil_r. }
  assert (Hnews : forall n, find_news n D = find_news n d).
  { intros n. unfold D, written, find_news. cbn [is_db is_new].
    by rewrite insert_all_rows. }
  rewrite check_ledger_session.
  unfold check_ledger_at_once, check_ledger, query, in_db, flush_new.
  unfold get_news, scalar_one_or_none. unfold bind, get, ret, raise, modify.
  cbn [is_db is_new]. rewrite Hrows.
  destruct (ledger_rows (post_id p) (vi_id i) d) as [|x [|x' l]] eqn:Er;
    cbv beta iota; cbn [is_db is_new fst snd].
  - eexists _, _, _. split; [reflexivity|]. split; [reflexivity|]. by left.
  - assert (Hx : In x (vk_imported_posts d)).
    { assert (Hin : In x [x]) by (by left). rewrite <- Er in Hin.
      by apply filter_In in Hin as [Hin _]. }
    assert (Hstale : session_at (written {| is_db := purge x d; is_new := N |})
                     = session_at (purge x D)).
    { unfold D, written. cbn [is_db is_new]. by rewrite insert_all_purge. }
    destruct (news_id x) as [n|]; cbv beta iota; cbn [is_db is_new fst snd].
    + destruct (truthy_int n); cbv beta iota; cbn [is_db is_new fst snd].
      * rewrite Hnews.
        destruct (find_news n d); cbv beta iota; cbn [is_db is_new fst snd].
        -- eexists _, _, _. split; [reflexivity|]. split; [reflexivity|]. by left.
        -- eexists _, _, _. split; [reflexivity|]. split; [reflexivity|]. right.
           exact Hstale.
      * eexists _, _, _. split; [reflexivity|]. split; [reflexivity|]. right.
        exact Hstale.
    + eexists _, _, _. split; [reflexivity|]. split; [reflexivity|]. right.
      exact Hstale.
  - eexists _, _, _. split; [reflexivity|]. split; [reflexivity|]. by left.
Qed.

Lemma query_pending {A} (m : DB A) (s : ImportSession) (a : A) :
  m (is_db s) = (Return a, is_db s) ->
  query false m s = (Return a, s).
Proof.
  intros E. unfold query, in_db, bind, ret. rewrite E. by destruct s.
Qed.

Lemma query_pending_raise {A} (m : DB A) (s : ImportSession) (e : exn) :
  m (is_db s) = (Raise e, is_db s) ->
  query false m s = (Raise e, s).
Proof.
  intros E. unfold query, in_db, bind, ret. rewrite E. by destruct s.
Qed.

(** The import of a post in a session that has rows to flush, beside the
    import in the session once flushed: with autoflush, and without it
    when none of the rows is a row of the post. *)
Lemma import_vk_post_pending (af : bool) (p : Post) (i : VKIntegration)
    (s : ImportSession) :
  af = true
  \/ (keys_below (is_db s)
      /\ Forall (fun mk => forall key, vk_post_id (mk key) <> post_id p
                                       /\ ip_id (mk key) = key) (is_new s)) ->
  exists r s1 s2,
    import_vk_post af p i s = (r, s1)
    /\ import_vk_post af p i (session_at (written s)) = (r, s2)
    /\ ((s1 = s /\ s2 = session_at (written s) /\ (af = true -> r = Return None))
        \/ s1 = s2).
Proof.
  intros Hs.
  destruct (truthy_str (text p)) eqn:Ht.
  2:{ exists (Return None), s, (session_at (written s)).
      unfold import_vk_post. rewrite Ht. split; [done|]. split; [done|]. by left. }
  destruct af.
  { assert (E : import_vk_post true p i s
                = import_vk_post true p i (session_at (written s))).
    { unfold import_vk_post. rewrite Ht. cbn [negb].
      unfold check_ledger, query, flush_new, modify, bind. reflexivity. }
    destruct (import_vk_post true p i (session_at (written s))) as [r s2].
    exists r, s2, s2. split; [exact E|]. split; [done|]. by right. }
  destruct Hs as [Hs|[Hk Hn]]; [done|].
  destruct (check_ledger_pending p i s Hk Hn) as (b & c1 & c2 & E1 & E2 & Hrel).
  unfold import_vk_post. rewrite Ht. cbn [negb].
  match goal with
  | |- context [bind (check_ledger false p i) ?K] => set (k := K)
  end.
  unfold bind. rewrite E1, E2.
  destruct Hrel as [[-> ->]| ->].
  2:{ destruct (match b with
                | Return a => k a c2
                | Raise e => (Raise e, c2)
                end) as [r s2].
      exists r, s2, s2. split; [done|]. split; [done|]. by right. }
  destruct b as [[|]|e].
  - eexists _, _, _. split; [reflexivity|]. split; [reflexivity|]. by left.
  - unfold k. clear k.
    destruct (determine_category_view (text p) (hashtag_category_map i)
                (default_category_id i) (is_db s) (written s)) as (c & Ec1 & Ec2).
    { unfold written. by rewrite insert_all_rows. }
    match goal with
    | |- context [bind (query false ?m) ?K] => set (k := K)
    end.
    unfold bind. rewrite (query_pending _ s c Ec1).
    rewrite (query_pending _ (session_at (written s)) c Ec2).
    unfold k. clear k.
    match goal with
    | |- context [ensure_unique_slug ?s0] =>
        destruct (ensure_unique_slug_view s0 (is_db s) (written s))
          as (rs & Es1 & Es2)
    end.
    { unfold written. by rewrite insert_all_rows. }
    match goal with
    | |- context [bind (query false ?m) ?K] => set (k := K)
    end.
    unfold bind.
    destruct rs as [sl|e].
    + rewrite (query_pending _ s sl Es1).
      rewrite (query_pending _ (session_at (written s)) sl Es2).
      assert (E : k sl s = k sl (session_at (written s))).
      { unfold k, bind, flush_new, modify. reflexivity. }
      rewrite E. destruct (k sl (session_at (written s))) as [r s2].
      exists r, s2, s2. split; [done|]. split; [done|]. by right.
    + rewrite (query_pending_raise _ s e Es1).
      rewrite (query_pending_raise _ (session_at (written s)) e Es2).
      eexists _, _, _. split; [reflexivity|]. split; [reflexivity|]. by left.
  - eexists _, _, _. split; [reflexivity|]. split; [reflexivity|]. by left.
Qed.

(** A batch in a session, beside the batch with every row written where
    it is added. *)
Lemma import_posts_pending (af : bool) (posts : list Post) (i : VKIntegration) :
  forall (k : Z) (s : ImportSession),
  af = true
  \/ (keys_below (is_db s)
      /\ NoDup (map post_id posts)
      /\ Forall (fun mk => forall key, (vk_post_id (mk key) ∉ map post_id posts)
                                       /\ ip_id (mk key) = key) (is_new s)) ->
  forall r d',
  import_posts_at_once posts i k (written s) = (r, d') ->
  exists s',
    import_posts af posts i k s = (r, s')
    /\ written s' = d'
    /\ (af = true -> forall e, r = Raise e -> is_new s' = []).
Proof.
  induction posts as [|p posts IH]; intros k s Hs r d'.
  - cbn [import_posts import_posts_at_once]. intros [= <- <-].
    exists s. by repeat split.
  - cbn [import_posts import_posts_at_once].
    destruct (truthy_opt truthy_int (marked_as_ads p)).
    { apply IH. destruct Hs as [Hs|(Hk & Hnd & Hn)]; [by left|right].
      split; [done|]. split; [by apply NoDup_cons in Hnd as [_ Hnd]|].
      eapply Forall_impl; [exact Hn|]. simpl. intros mk Hmk key.
      destruct (Hmk key) as [H1 H2]. split; [|done].
      intros Hin. apply H1. by right. }
    destruct (import_vk_post_pending af p i s) as (r1 & s1 & s2 & E1 & E2 & Hrel).
    { destruct Hs as [Hs|(Hk & Hnd & Hn)]; [by left|right]. split; [done|].
      eapply Forall_impl; [exact Hn|]. simpl. intros mk Hmk key.
      destruct (Hmk key) as [H1 H2]. split; [|done].
      intros Heq. apply H1. rewrite Heq. by left. }
    destruct (import_vk_post_at_once p i (written s)) as [r0 d0] eqn:Ea.
    destruct (import_vk_post_session af p i (written s) r0 d0 Ea)
      as (s2' & E2' & Hw2 & Hraise & Hnew & Hkeys).
    rewrite E2 in E2'. injection E2' as <- <-.
    assert (Hw1 : written s1 = d0).
    { destruct Hrel as [(-> & -> & _)| ->]; [|done].
      by rewrite written_session_at in Hw2. }
    unfold bind at 1 2. rewrite E1, Ea.
    destruct r1 as [res|e].
    + rewrite <- Hw1. apply IH.
      destruct Hs as [Hs|(Hk & Hnd & Hn)]; [by left|right].
      apply NoDup_cons in Hnd as [Hp Hnd].
      destruct Hrel as [(-> & _ & _)| ->].
      * split; [done|]. split; [done|].
        eapply Forall_impl; [exact Hn|]. simpl. intros mk Hmk key.
        destruct (Hmk key) as [H1 H2]. split; [|done].
        intros Hin. apply H1. by right.
      * split.
        { apply Hkeys. apply insert_all_keys; [done|].
          eapply Forall_impl; [exact Hn|]. simpl. intros mk Hmk key. apply Hmk. }
        split; [done|].
        eapply Forall_impl; [exact Hnew|]. simpl. intros mk Hmk key.
        destruct (Hmk key) as [H1 H2]. split; [|done]. by rewrite H1.
    + intros [= <- <-]. exists s1. split; [done|]. split; [done|].
      intros -> e' _.
      destruct Hrel as [(_ & _ & Hnone)| ->]; [by specialize (Hnone eq_refl)|].
      by apply (Hraise e).
Qed.

Lemma alone_run {A} (m : M ImportSession A) (d : Database) (r : outcome A)
    (s : ImportSession) :
  m (session_at d) = (r, s) ->
  alone m d = (r, match r with Return _ => written s | Raise _ => is_db s end).
Proof.
  intros E. unfold alone, bind, flush_new, modify, ret. rewrite E.
  by destruct r.
Qed.

(** In a session of its own, the import of a post writes its ledger row
    where it adds it, whether the session autoflushes or not. *)
Lemma alone_import_vk_post (af : bool) (p : Post) (i : VKIntegration) (d : Database) :
  alone (import_vk_post af p i) d = import_vk_post_at_once p i d.
Proof.
  destruct (import_vk_post_at_once p i d) as [r d'] eqn:Ea.
  destruct (import_vk_post_session af p i d r d' Ea) as (s & E & Hw & Hraise & _).
  rewrite (alone_run _ d r s E). destruct r as [a|e]; [by rewrite Hw|].
  by rewrite <- (written_settled s (Hraise e eq_refl)), Hw.
Qed.

(** So does the import of a batch in a session that autoflushes; in one
    that does not, when no post comes twice in the batch and the batch is
    imported without an exception. *)
Lemma alone_import_posts (af : bool) (posts : list Post) (i : VKIntegration) (k : Z)
    (d : Database) :
  af = true
  \/ (NoDup (map post_id posts) /\ keys_below d
      /\ exists n d', import_posts_at_once posts i k d = (Return n, d')) ->
  alone (import_posts af posts i k) d = import_posts_at_once posts i k d.
Proof.
  intros Hs.
  destruct (import_posts_at_once posts i k d) as [r d'] eqn:Ea.
  destruct (import_posts_pending af posts i k (session_at d)) with (r := r) (d' := d')
    as (s & E & Hw & Hraise).
  { destruct Hs as [Hs|(Hnd & Hk & _)]; [by left|right].
    split; [done|]. split; [done|constructor]. }
  { exact Ea. }
  rewrite (alone_run _ d r s E). destruct r as [a|e]; [by rewrite Hw|].
  destruct Hs as [->|(_ & _ & n & d0 & [=])].
  by rewrite <- (written_settled s (Hraise eq_refl e eq_refl)), Hw.
Qed.

End Sessions.

Section LedgerClaims.
Context {H : Host}.
Variable autoflush : bool.

(** C1. Idempotent import.  For a post with text, under the keys of the
    schema, each import in a session of its own, whether or not the
    session autoflushes: when the ledger has a row for the post under the
    integration and the article that row names is still in the table,
    [import_vk_post] returns nothing and leaves the database as it is; and
    from any state, importing the post and importing it again creates at
    most one article in all, ends with exactly one ledger row for the
    pair, which names an article in the table, and the second import
    changes nothing. *)
Theorem import_vk_post_idempotent (p : Post) (i : VKIntegration) (d : Database) :
  truthy_str (text p) = true ->
  db_ok d ->
  (forall r a,
      In r (vk_imported_posts d) ->
      vk_post_id r = post_id p ->
      vk_integration_id r = vi_id i ->
      linked_article r d = Some a ->
      alone (import_vk_post autoflush p i) d = (Return None, d))
  /\ (exists res d1,
        alone (import_vk_post autoflush p i) d = (Return res, d1)
        /\ (news d1 = news d \/ exists a, news d1 = news d ++ [a])
        /\ (exists row a,
              ledger_rows (post_id p) (vi_id i) d1 = [row]
              /\ linked_article row d1 = Some a)
        /\ alone (import_vk_post autoflush p i) d1 = (Return None, d1)).
Proof.
  intros Ht Hok.
  destruct (import_vk_post_idempotent_at_once p i d Ht Hok)
    as [Hskip (res & d1 & E & Hn & Hrow & E')].
  split.
  - intros r a Hin Hp Hi Ha. rewrite alone_import_vk_post. by apply (Hskip r a).
  - exists res, d1. by rewrite !alone_import_vk_post.
Qed.

(** C2. Stale reimport.  For a post with text, under the keys of the
    schema, in a session of its own, whether or not the session
    autoflushes: when the ledger has a row for the post under the
    integration whose article reference is null or names no article of the
    table, [import_vk_post] deletes that row, creates one article and one
    ledger row, and the new row is the only one of the pair and names the
    new article. *)
Theorem import_vk_post_stale_reimport (p : Post) (i : VKIntegration) (d : Database)
    (r : VKImportedPost) :
  truthy_str (text p) = true ->
  db_ok d ->
  In r (vk_imported_posts d) ->
  vk_post_id r = post_id p ->
  vk_integration_id r = vi_id i ->
  linked_article r d = None ->
  exists a row d',
    alone (import_vk_post autoflush p i) d = (Return (Some a), d')
    /\ news d' = news d ++ [a]
    /\ vk_imported_posts d'
       = List.filter (fun x => negb (ip_id x =? ip_id r)) (vk_imported_posts d) ++ [row]
    /\ ledger_rows (post_id p) (vi_id i) d' = [row]
    /\ news_id row = Some (n_id a)
    /\ linked_article row d' = Some a.
Proof.
  intros Ht Hok Hin Hp Hi El. rewrite alone_import_vk_post.
  by apply import_vk_post_stale_reimport_at_once.
Qed.

(** C8. Advertisements and empty posts.  A post without text or marked as
    an advertisement is passed over by the loop over a batch, whatever the
    session has added and not yet flushed: the batch with the post does
    what the batch without it does, so the post alone leaves the session,
    the database and the count as they were; and a post without text is
    returned at the head of [import_vk_post], before the ledger is
    read. *)
Theorem skipped_post_leaves_no_trace (post : Post) (rest : list Post)
    (i : VKIntegration) (n : Z) (s : ImportSession) :
  truthy_str (text post) = false \/ truthy_opt truthy_int (marked_as_ads post) = true ->
  import_posts autoflush (post :: rest) i n s = import_posts autoflush rest i n s
  /\ import_posts autoflush [post] i n s = (Return n, s)
  /\ (truthy_str (text post) = false ->
      import_vk_post autoflush post i s = (Return None, s))
  /\ (forall d,
        alone (import_posts autoflush (post :: rest) i n) d
        = alone (import_posts autoflush rest i n) d
        /\ alone (import_posts autoflush [post] i n) d = (Return n, d)).
Proof.
  intros Hskip.
  assert (Hempty : forall s0, truthy_str (text post) = false ->
                   import_vk_post autoflush post i s0 = (Return None, s0)).
  { intros s0 E. unfold import_vk_post. by rewrite E. }
  assert (Hgen : forall l s0, import_posts autoflush (post :: l) i n s0
                              = import_posts autoflush l i n s0).
  { intros l s0. cbn [import_posts].
    destruct (truthy_opt truthy_int (marked_as_ads post)) eqn:Ead; [done|].
    destruct Hskip as [E|E]; [|done].
    unfold bind. by rewrite (Hempty s0 E). }
  split; [apply Hgen|]. split; [by rewrite Hgen|]. split; [apply Hempty|].
  intros d. split.
  - unfold alone, bind. by rewrite Hgen.
  - unfold alone, bind. by rewrite Hgen.
Qed.

End LedgerClaims.

Lemma imported_db_ok : db_ok imported_db.
Proof. apply (bool_decide_unpack _). vm_compute. exact I. Defined.

Lemma import_vk_post_idempotent_witness :
  truthy_str (text post11) = true /\ db_ok imported_db /\
  exists res d1,
    alone (import_vk_post (H:=ascii_host) false post11 sample_integration) imported_db
    = (Return res, d1)
    /\ (news d1 = news imported_db \/ exists a, news d1 = news imported_db ++ [a])
    /\ (exists row a,
          ledger_rows (post_id post11) (vi_id sample_integration) d1 = [row]
          /\ linked_article row d1 = Some a)
    /\ alone (import_vk_post (H:=ascii_host) false post11 sample_integration) d1
       = (Return None, d1).
Proof.
  split; [reflexivity|]. split; [exact imported_db_ok|].
  exact (proj2 (import_vk_post_idempotent (H:=ascii_host) false post11
                  sample_integration imported_db eq_refl imported_db_ok)).
Defined.

Lemma stale_db_ok : db_ok stale_db.
Proof. apply (bool_decide_unpack _). vm_compute. exact I. Defined.

Lemma import_vk_post_stale_reimport_witness :
  exists a row d',
    alone (import_vk_post (H:=ascii_host) false post11 sample_integration) stale_db
    = (Return (Some a), d')
    /\ news d' = news stale_db ++ [a]
    /\ vk_imported_posts d'
       = List.filter (fun x => negb (ip_id x =? ip_id stale_row))
           (vk_imported_posts stale_db) ++ [row]
    /\ ledger_rows (post_id post11) (vi_id sample_integration) d' = [row]
    /\ news_id row = Some (n_id a)
    /\ linked_article row d' = Some a.
Proof.
  apply (import_vk_post_stale_reimport (H:=ascii_host) false post11 sample_integration
           stale_db stale_row).
  - reflexivity.
  - exact stale_db_ok.
  - vm_compute. left. reflexivity.
  - reflexivity.
  - reflexivity.
  - reflexivity.
Defined.

Lemma skipped_post_leaves_no_trace_witness :
  import_posts (H:=ascii_host) false (ad_post :: [post11]) sample_integration 0
    (session_at sample_db)
  = import_posts (H:=ascii_host) false [post11] sample_integration 0
      (session_at sample_db)
  /\ import_posts (H:=ascii_host) false [ad_post] sample_integration 0
       (session_at sample_db)
     = (Return 0, session_at sample_db).
Proof.
  destruct (skipped_post_leaves_no_trace (H:=ascii_host) false ad_post [post11]
              sample_integration 0 (session_at sample_db)) as (H1 & H2 & _).
  - right. reflexivity.
  - split; [exact H1|exact H2].
Defined.

(** ** Scheduled publisher *)

Lemma due_eligible (now : datetime) (a : News) : due now a = true <-> eligible now a.
Proof.
  unfold due, eligible. split.
  - intros E. apply andb_true_iff in E as [E1 E2].
    apply negb_true_iff in E1. split; [done|].
    destruct (scheduled_publish_at a) as [t|]; [|done].
    exists t. split; [done|]. by apply Z.leb_le.
  - intros [E1 (t & E2 & E3)]. rewrite E1, E2. simpl. by apply Z.leb_le.
Qed.

Lemma publish_due_rows (now : datetime) (l : list News) :
  List.filter (due now) l = [] ->
  map (fun a => if due now a then publish now a else a) l = l.
Proof.
  induction l as [|a l IH]; simpl; [done|].
  destruct (due now a); [done|]. intros E. f_equal. by apply IH.
Qed.

(** C9. Scheduled publishing.  A pass of the publisher at [now] returns;
    it touches the table of articles only, row by row: an article that is
    due becomes published with publish date [now] and is otherwise the same
    row, an article that is not due stays as it is; and a published article
    stays published. *)
Theorem scheduled_publisher_tick_spec (now : datetime) (d : Database) :
  exists d',
    scheduled_news_publisher_tick now d = (Return tt, d')
    /\ vk_integrations d' = vk_integrations d
    /\ vk_imported_posts d' = vk_imported_posts d
    /\ Forall2
         (fun a a' =>
            (eligible now a ->
               a' = publish now a
               /\ is_published a' = true /\ publish_date a' = Some now)
            /\ (~ eligible now a -> a' = a)
            /\ (is_published a = true -> is_published a' = true))
         (news d) (news d').
Proof.
  exists (set_news (map (fun a => if due now a then publish now a else a) (news d)) d).
  split.
  - unfold scheduled_news_publisher_tick. run.
    destruct (List.filter (due now) (news d)) eqn:E; [|done].
    rewrite (publish_due_rows now (news d) E). by destruct d.
  - split; [done|]. split; [done|]. simpl.
    induction (news d) as [|a l IH]; simpl; constructor; [|exact IH].
    pose proof (due_eligible now a) as Hd.
    destruct (due now a) eqn:E.
    + split; [done|]. split; [intros Hn; exfalso; apply Hn; by apply Hd|done].
    + assert (Hn : ~ eligible now a).
      { intros He. apply Hd in He. done. }
      split; [done|]. split; [done|done].
Qed.

(** ** Minutes since the checkpoint *)

Lemma rne_cases (n d : Z) :
  0 < d ->
  exists q r,
    n = d * q + r /\ 0 <= r < d
    /\ ((2 * r < d /\ rne n d = q)
        \/ (d < 2 * r /\ rne n d = q + 1)
        \/ (2 * r = d /\ Z.even (rne n d) = true
            /\ (rne n d = q \/ rne n d = q + 1))).
Proof.
  intros Hd. exists (n / d), (n mod d).
  pose proof (Z.div_mod n d ltac:(lia)) as E.
  pose proof (Z.mod_pos_bound n d Hd) as Hr.
  split; [exact E|]. split; [exact Hr|].
  unfold rne.
  destruct (Z.ltb_spec (2 * (n mod d)) d); [left; lia|].
  destruct (Z.ltb_spec d (2 * (n mod d))); [right; left; lia|].
  right. right. split; [lia|].
  destruct (Z.even (n / d)) eqn:Eq; [by split; [|left]|].
  split; [|by right]. rewrite Z.even_add, Eq. reflexivity.
Qed.

Lemma rne_bounds (n d : Z) :
  0 < d -> 2 * rne n d * d - d <= 2 * n <= 2 * rne n d * d + d.
Proof.
  intros Hd. destruct (rne_cases n d Hd) as (q & r & E & Hr & H).
  destruct H as [[H ->]|[[H ->]|(H & _ & [-> | ->])]]; nia.
Qed.

Lemma rne_tie (n d j : Z) :
  0 < d -> 2 * n = (2 * j + 1) * d -> Z.even (rne n d) = true.
Proof.
  intros Hd Hj. destruct (rne_cases n d Hd) as (q & r & E & Hr & H).
  destruct H as [[H _]|[[H _]|(H & He & _)]]; [| |exact He].
  - exfalso. assert (j = q \/ j < q \/ q < j) as [->|[?|?]] by lia; nia.
  - exfalso. assert (j = q \/ j < q \/ q < j) as [->|[?|?]] by lia; nia.
Qed.

Lemma rne_mono (n d n' d' : Z) :
  0 < d -> 0 < d' -> n * d' <= n' * d -> rne n d <= rne n' d'.
Proof.
  intros Hd Hd' Hle.
  pose proof (rne_bounds n d Hd) as B. pose proof (rne_bounds n' d' Hd') as B'.
  destruct (Z.le_gt_cases (rne n d) (rne n' d')) as [|Hgt]; [done|exfalso].
  set (q := rne n d) in *. set (q' := rne n' d') in *.
  assert (Hdd : 0 < d * d') by nia.
  assert (H1 : (2 * q - 1) * (d * d') <= 2 * (n * d')) by nia.
  assert (H2 : 2 * (n' * d) <= (2 * q' + 1) * (d * d')) by nia.
  assert (H3 : (2 * q - 1) * (d * d') <= (2 * q' + 1) * (d * d')) by lia.
  assert (Hq : q = q' + 1) by nia.
  assert (T : 2 * n = (2 * q' + 1) * d) by nia.
  assert (T' : 2 * n' = (2 * q' + 1) * d') by nia.
  pose proof (rne_tie n d q' Hd T) as Ev.
  pose proof (rne_tie n' d' q' Hd' T') as Ev'.
  fold q in Ev. fold q' in Ev'. rewrite Hq, Z.even_add, Ev' in Ev. done.
Qed.

Lemma rne_exact (k d : Z) : 0 < d -> rne (k * d) d = k.
Proof.
  intros Hd. unfold rne. rewrite Z.div_mul, Z.mod_mul by lia.
  destruct (Z.ltb_spec (2 * 0) d); [done|lia].
Qed.

Lemma scale_up_pos (e : Z) : 0 < scale_up e.
Proof. unfold scale_up. apply Z.pow_pos_nonneg; lia. Qed.

Lemma scale_down_pos (e : Z) : 0 < scale_down e.
Proof. unfold scale_down. apply Z.pow_pos_nonneg; lia. Qed.

Lemma scale_shift (e k : Z) :
  0 <= k ->
  scale_up (e + k) * scale_down e = 2 ^ k * (scale_up e * scale_down (e + k)).
Proof.
  intros Hk. unfold scale_up, scale_down.
  rewrite <- !Z.pow_add_r by lia. f_equal. lia.
Qed.

Lemma scale_nonpos (e : Z) : e <= 0 -> scale_up e = 1 /\ scale_down e = 2 ^ (- e).
Proof.
  intros He. unfold scale_up, scale_down.
  rewrite Z.max_l by lia. rewrite Z.max_r by lia. done.
Qed.

Lemma scale_nonneg (e : Z) : 0 <= e -> scale_up e = 2 ^ e /\ scale_down e = 1.
Proof.
  intros He. unfold scale_up, scale_down.
  rewrite Z.max_r by lia. rewrite Z.max_l by lia. done.
Qed.

(** The binade of a positive quotient. *)
Lemma fexp_spec (n d : Z) :
  0 < n -> 0 < d ->
  2 ^ 52 * (d * scale_up (fexp n d)) <= n * scale_down (fexp n d)
  /\ n * scale_down (fexp n d) < 2 ^ 53 * (d * scale_up (fexp n d)).
Proof.
  intros Hn Hd. unfold fexp.
  set (a := Z.log2 n). set (b := Z.log2 d). set (e0 := a - b - 53).
  pose proof (Z.log2_spec n Hn) as Ha. pose proof (Z.log2_spec d Hd) as Hb.
  fold a in Ha. fold b in Hb.
  pose proof (Z.log2_nonneg n) as Ha0. pose proof (Z.log2_nonneg d) as Hb0.
  fold a in Ha0. fold b in Hb0.
  pose proof (scale_up_pos e0) as HP. pose proof (scale_down_pos e0) as HQ.
  assert (Hid : 2 ^ a * scale_down e0 = 2 ^ (b + 53) * scale_up e0).
  { unfold scale_up, scale_down. rewrite <- !Z.pow_add_r by lia. f_equal. lia. }
  rewrite Z.pow_succ_r in Ha, Hb by lia.
  rewrite Z.pow_add_r in Hid by lia.
  assert (Hpb : 0 < 2 ^ b) by (apply Z.pow_pos_nonneg; lia).
  assert (Hlow : 2 ^ 52 * (d * scale_up e0) < n * scale_down e0).
  { assert (2 ^ a * scale_down e0 <= n * scale_down e0) by nia.
    assert (2 ^ 52 * (d * scale_up e0) < 2 ^ 52 * ((2 * 2 ^ b) * scale_up e0)) by nia.
    change (2 ^ 53) with (2 * 2 ^ 52) in Hid. nia. }
  assert (Hup : n * scale_down e0 < 2 ^ 54 * (d * scale_up e0)).
  { assert (n * scale_down e0 < 2 * 2 ^ a * scale_down e0) by nia.
    assert (2 ^ 54 * (2 ^ b * scale_up e0) <= 2 ^ 54 * (d * scale_up e0)) by nia.
    change (2 ^ 54) with (2 * 2 ^ 53) in *. nia. }
  destruct (Z.leb_spec (2 ^ 53 * (d * scale_up e0)) (n * scale_down e0)) as [Hge|Hlt].
  - pose proof (scale_shift e0 1 ltac:(lia)) as Hs.
    pose proof (scale_up_pos (e0 + 1)) as HP1.
    pose proof (scale_down_pos (e0 + 1)) as HQ1.
    change (2 ^ 1) with 2 in Hs. change (2 ^ 54) with (2 * 2 ^ 53) in Hup.
    change (2 ^ 53) with (2 * 2 ^ 52) in *.
    set (P0 := scale_up e0) in *. set (Q0 := scale_down e0) in *.
    set (P1 := scale_up (e0 + 1)) in *. set (Q1 := scale_down (e0 + 1)) in *.
    split.
    + apply (Z.mul_le_mono_pos_r _ _ Q0); [done|].
      replace (2 ^ 52 * (d * P1) * Q0) with (2 ^ 52 * d * (P1 * Q0)) by ring.
      rewrite Hs. nia.
    + apply (Z.mul_lt_mono_pos_r Q0); [done|].
      replace (2 * 2 ^ 52 * (d * P1) * Q0) with (2 * 2 ^ 52 * d * (P1 * Q0)) by ring.
      rewrite Hs. nia.
  - split; lia.
Qed.

Lemma round53_mantissa (n d : Z) :
  0 < n -> 0 < d ->
  2 ^ 52 <= fst (round53 n d) <= 2 ^ 53.
Proof.
  intros Hn Hd. unfold round53. simpl.
  destruct (fexp_spec n d Hn Hd) as [Hlo Hhi].
  set (e := fexp n d) in *.
  pose proof (scale_up_pos e) as HP. pose proof (scale_down_pos e) as HQ.
  assert (HD : 0 < d * scale_up e) by nia.
  split.
  - rewrite <- (rne_exact (2 ^ 52) (d * scale_up e) HD).
    apply rne_mono; [done|done|nia].
  - rewrite <- (rne_exact (2 ^ 53) (d * scale_up e) HD).
    apply rne_mono; [done|done|nia].
Qed.

Lemma fexp_mono (n d n' d' : Z) :
  0 < n -> 0 < d -> 0 < n' -> 0 < d' ->
  n * d' <= n' * d -> fexp n d <= fexp n' d'.
Proof.
  intros Hn Hd Hn' Hd' Hle.
  destruct (fexp_spec n d Hn Hd) as [Hlo _].
  destruct (fexp_spec n' d' Hn' Hd') as [_ Hhi].
  set (e := fexp n d) in *. set (e' := fexp n' d') in *.
  destruct (Z.le_gt_cases e e') as [|Hgt]; [done|exfalso].
  pose proof (scale_shift e' (e - e') ltac:(lia)) as Hs.
  replace (e' + (e - e')) with e in Hs by lia.
  assert (HK : 2 <= 2 ^ (e - e')).
  { change 2 with (2 ^ 1) at 1. apply Z.pow_le_mono_r; lia. }
  set (K := 2 ^ (e - e')) in *.
  pose proof (scale_up_pos e) as HP. pose proof (scale_down_pos e) as HQ.
  pose proof (scale_up_pos e') as HP'. pose proof (scale_down_pos e') as HQ'.
  set (P := scale_up e) in *. set (Q := scale_down e) in *.
  set (P' := scale_up e') in *. set (Q' := scale_down e') in *.
  change (2 ^ 53) with (2 * 2 ^ 52) in Hhi.
  set (c := 2 ^ 52) in *. assert (Hc : 0 < c) by done.
  (* n d' Q Q' is squeezed *)
  assert (H1 : c * (d * P) * (d' * Q') <= n * Q * (d' * Q')).
  { apply Z.mul_le_mono_nonneg_r; nia. }
  assert (H2 : n' * Q' * (d * Q) < 2 * c * (d' * P') * (d * Q)).
  { apply Z.mul_lt_mono_pos_r; nia. }
  assert (H3 : n * d' * (Q * Q') <= n' * d * (Q * Q')).
  { apply Z.mul_le_mono_nonneg_r; nia. }
  assert (H4 : c * (d * d') * (P * Q') < 2 * c * (d * d') * (P' * Q)).
  { replace (c * (d * d') * (P * Q')) with (c * (d * P) * (d' * Q')) by ring.
    replace (2 * c * (d * d') * (P' * Q)) with (2 * c * (d' * P') * (d * Q)) by ring.
    replace (n * Q * (d' * Q')) with (n * d' * (Q * Q')) in H1 by ring.
    replace (n' * Q' * (d * Q)) with (n' * d * (Q * Q')) in H2 by ring.
    lia. }
  rewrite Hs in H4.
  assert (H5 : 0 < c * (d * d') * (P' * Q)) by nia.
  nia.
Qed.

Lemma round53_mono (n d n' d' : Z) :
  0 < n -> 0 < d -> 0 < n' -> 0 < d' ->
  n * d' <= n' * d -> fle (round53 n d) (round53 n' d').
Proof.
  intros Hn Hd Hn' Hd' Hle.
  pose proof (fexp_mono n d n' d' Hn Hd Hn' Hd' Hle) as He.
  pose proof (round53_mantissa n d Hn Hd) as Hm.
  pose proof (round53_mantissa n' d' Hn' Hd') as Hm'.
  unfold fle, fnum, fden, round53 in *. simpl in *.
  set (e := fexp n d) in *. set (e' := fexp n' d') in *.
  pose proof (scale_up_pos e) as HP. pose proof (scale_down_pos e) as HQ.
  pose proof (scale_up_pos e') as HP'. pose proof (scale_down_pos e') as HQ'.
  destruct (Z.eq_dec e e') as [Heq|Hne].
  - rewrite <- Heq.
    apply Z.mul_le_mono_nonneg_r; [lia|].
    apply Z.mul_le_mono_nonneg_r; [lia|].
    apply rne_mono; [nia|nia|].
    replace (n * scale_down e * (d' * scale_up e))
      with (n * d' * (scale_down e * scale_up e)) by ring.
    replace (n' * scale_down e * (d * scale_up e))
      with (n' * d * (scale_down e * scale_up e)) by ring.
    apply Z.mul_le_mono_nonneg_r; nia.
  - pose proof (scale_shift e (e' - e) ltac:(lia)) as Hs.
    replace (e + (e' - e)) with e' in Hs by lia.
    assert (HK : 2 <= 2 ^ (e' - e)).
    { change 2 with (2 ^ 1) at 1. apply Z.pow_le_mono_r; lia. }
    set (K := 2 ^ (e' - e)) in *.
    set (m := rne (n * scale_down e) (d * scale_up e)) in *.
    set (m' := rne (n' * scale_down e') (d' * scale_up e')) in *.
    replace (m' * scale_up e' * scale_down e)
      with (m' * (scale_up e' * scale_down e)) by ring.
    rewrite Hs.
    replace (m * scale_up e * scale_down e')
      with (m * (scale_up e * scale_down e')) by ring.
    replace (m' * (K * (scale_up e * scale_down e')))
      with (m' * K * (scale_up e * scale_down e')) by ring.
    apply Z.mul_le_mono_nonneg_r; [nia|].
    change (2 ^ 53) with (2 * 2 ^ 52) in *. nia.
Qed.

Lemma fden_pos (f : Z * Z) : 0 < fden f.
Proof. apply scale_down_pos. Qed.

Lemma fdiv_sign (n d : Z) :
  0 < d ->
  (0 < n -> 0 < fnum (fdiv n d))
  /\ (n = 0 -> fnum (fdiv n d) = 0)
  /\ (n < 0 -> fnum (fdiv n d) < 0).
Proof.
  intros Hd. unfold fdiv.
  destruct (Z.eqb_spec n 0) as [->|Hn0]; [by repeat split; try lia|].
  destruct (Z.ltb_spec n 0) as [Hneg|Hpos].
  - pose proof (round53_mantissa (- n) d ltac:(lia) Hd) as Hm.
    destruct (round53 (- n) d) as [m e] eqn:E. simpl in Hm.
    pose proof (scale_up_pos e). unfold fnum. simpl.
    assert (0 < 2 ^ 52) by done. repeat split; intros; nia.
  - pose proof (round53_mantissa n d ltac:(lia) Hd) as Hm.
    destruct (round53 n d) as [m e] eqn:E. simpl in Hm.
    pose proof (scale_up_pos e). unfold fnum. simpl.
    assert (0 < 2 ^ 52) by done. repeat split; intros; nia.
Qed.

Lemma fdiv_neg (n d : Z) :
  n < 0 ->
  fnum (fdiv n d) = - fnum (round53 (- n) d)
  /\ fden (fdiv n d) = fden (round53 (- n) d).
Proof.
  intros Hn. unfold fdiv.
  destruct (Z.eqb_spec n 0); [lia|]. destruct (Z.ltb_spec n 0); [|lia].
  destruct (round53 (- n) d) as [m e]. unfold fnum, fden. simpl. split; [ring|done].
Qed.

Lemma fdiv_pos (n d : Z) : 0 < n -> fdiv n d = round53 n d.
Proof.
  intros Hn. unfold fdiv.
  destruct (Z.eqb_spec n 0); [lia|]. by destruct (Z.ltb_spec n 0); [lia|].
Qed.

(** The quotient is monotone in its value. *)
Lemma fdiv_mono (n d n' d' : Z) :
  0 < d -> 0 < d' -> n * d' <= n' * d -> fle (fdiv n d) (fdiv n' d').
Proof.
  intros Hd Hd' Hle.
  pose proof (fden_pos (fdiv n d)) as HQ. pose proof (fden_pos (fdiv n' d')) as HQ'.
  destruct (fdiv_sign n d Hd) as (S1 & S2 & S3).
  destruct (fdiv_sign n' d' Hd') as (S1' & S2' & S3').
  assert (n < 0 \/ n = 0 \/ 0 < n) as [Hn|[Hn|Hn]] by lia;
  assert (n' < 0 \/ n' = 0 \/ 0 < n') as [Hn'|[Hn'|Hn']] by lia;
    try (exfalso; nia); unfold fle;
    try specialize (S1 Hn); try specialize (S2 Hn); try specialize (S3 Hn);
    try specialize (S1' Hn'); try specialize (S2' Hn'); try specialize (S3' Hn');
    try nia.
  - destruct (fdiv_neg n d Hn) as [-> ->]. destruct (fdiv_neg n' d' Hn') as [-> ->].
    pose proof (round53_mono (- n') d' (- n) d ltac:(lia) Hd' ltac:(lia) Hd
                  ltac:(nia)) as H.
    unfold fle in H. lia.
  - rewrite (fdiv_pos n d Hn), (fdiv_pos n' d' Hn').
    by apply round53_mono.
Qed.

Lemma flt_fle (f g : Z * Z) (k : Z) :
  fle f g -> flt g k = true -> flt f k = true.
Proof.
  unfold fle, flt. intros Hle Hlt. apply Z.ltb_lt in Hlt. apply Z.ltb_lt.
  pose proof (fden_pos f). pose proof (fden_pos g).
  assert (fnum f * fden g < k * fden f * fden g) by nia.
  nia.
Qed.

Lemma elapsed_minutes_mono (us us' : Z) :
  us <= us' -> fle (elapsed_minutes us) (elapsed_minutes us').
Proof.
  intros Hle. unfold elapsed_minutes.
  pose proof (fdiv_mono us 1000000 us' 1000000 ltac:(lia) ltac:(lia) ltac:(lia)) as H.
  pose proof (fden_pos (fdiv us 1000000)). pose proof (fden_pos (fdiv us' 1000000)).
  apply fdiv_mono; [lia|lia|]. unfold fle in H. nia.
Qed.

(** A quotient that is an integer of at most 53 bits is exact. *)
Lemma fdiv_exact (k d : Z) :
  0 < d -> - 2 ^ 53 < k < 2 ^ 53 ->
  fnum (fdiv (k * d) d) = k * fden (fdiv (k * d) d).
Proof.
  intros Hd Hk.
  assert (Hpos : forall j, 0 < j < 2 ^ 53 ->
            fnum (round53 (j * d) d) = j * fden (round53 (j * d) d)).
  { intros j Hj. destruct (fexp_spec (j * d) d ltac:(nia) Hd) as [Hlo Hhi].
    unfold round53, fnum, fden. simpl. set (e := fexp (j * d) d) in *.
    pose proof (scale_up_pos e) as HP. pose proof (scale_down_pos e) as HQ.
    assert (He : e <= 0).
    { destruct (Z.le_gt_cases e 0) as [|Hgt]; [done|exfalso].
      destruct (scale_nonneg e ltac:(lia)) as [EP EQ]. rewrite EP, EQ in *.
      assert (2 <= 2 ^ e).
      { change 2 with (2 ^ 1) at 1. apply Z.pow_le_mono_r; lia. }
      change (2 ^ 53) with (2 * 2 ^ 52) in *. nia. }
    destruct (scale_nonpos e He) as [EP EQ]. rewrite EP.
    replace (j * d * scale_down e) with (j * scale_down e * (d * 1)) by ring.
    rewrite rne_exact by lia. ring. }
  assert (k < 0 \/ k = 0 \/ 0 < k) as [Hn|[->|Hn]] by lia.
  - destruct (fdiv_neg (k * d) d ltac:(nia)) as [-> ->].
    replace (- (k * d)) with (- k * d) by ring. rewrite Hpos by lia. ring.
  - simpl. done.
  - rewrite fdiv_pos by nia. apply Hpos. lia.
Qed.

(** At the interval and after it, the minutes are not below the interval. *)
Lemma elapsed_minutes_reached (us k : Z) :
  - 2 ^ 53 < 60 * k < 2 ^ 53 ->
  k * 60000000 <= us ->
  flt (elapsed_minutes us) k = false.
Proof.
  intros Hk Hus.
  pose proof (elapsed_minutes_mono _ _ Hus) as Hle.
  assert (Hex : fnum (elapsed_minutes (k * 60000000))
                = k * fden (elapsed_minutes (k * 60000000))).
  { unfold elapsed_minutes.
    replace (k * 60000000) with (60 * k * 1000000) by ring.
    pose proof (fdiv_exact (60 * k) 1000000 ltac:(lia) Hk) as E1.
    set (s := fdiv (60 * k * 1000000) 1000000) in *.
    rewrite E1. pose proof (fden_pos s).
    replace (60 * k * fden s) with (k * (60 * fden s)) by ring.
    apply fdiv_exact; [lia|]. assert (0 < 2 ^ 53) by done. lia. }
  unfold flt. apply Z.ltb_ge. unfold fle in Hle.
  pose proof (fden_pos (elapsed_minutes (k * 60000000))).
  pose proof (fden_pos (elapsed_minutes us)).
  rewrite Hex in Hle. nia.
Qed.

(** One microsecond before an interval of less than [2^34 / 60] minutes,
    the minutes are below the interval. *)
Lemma elapsed_minutes_just_short (k : Z) :
  0 < k -> 60 * k < 2 ^ 34 ->
  flt (elapsed_minutes (k * 60000000 - 1)) k = true.
Proof.
  intros Hk Hmax. unfold elapsed_minutes.
  set (us := k * 60000000 - 1).
  assert (Hus : 0 < us) by (unfold us; lia).
  rewrite (fdiv_pos us 1000000 Hus).
  destruct (fexp_spec us 1000000 Hus ltac:(lia)) as [Hlo1 Hhi1].
  pose proof (round53_mantissa us 1000000 Hus ltac:(lia)) as Hm1.
  unfold round53 in *. simpl in Hm1. unfold fnum, fden. cbn [fst snd].
  set (e1 := fexp us 1000000) in *.
  assert (He1 : e1 <= -19).
  { destruct (Z.le_gt_cases e1 (-19)) as [|Hgt]; [done|exfalso].
    destruct (Z.le_gt_cases 0 e1) as [Hnn|Hneg].
    - destruct (scale_nonneg e1 Hnn) as [EP EQ]. rewrite EP, EQ in *.
      assert (0 < 2 ^ e1) by (apply Z.pow_pos_nonneg; lia).
      change (2 ^ 34) with 17179869184 in Hmax.
      change (2 ^ 52) with 4503599627370496 in Hlo1. unfold us in Hlo1. nia.
    - destruct (scale_nonpos e1 ltac:(lia)) as [EP EQ]. rewrite EP, EQ in *.
      assert (2 ^ (- e1) <= 2 ^ 18) by (apply Z.pow_le_mono_r; lia).
      assert (0 < 2 ^ (- e1)) by (apply Z.pow_pos_nonneg; lia).
      change (2 ^ 34) with 17179869184 in Hmax.
      change (2 ^ 18) with 262144 in *.
      change (2 ^ 52) with 4503599627370496 in Hlo1. unfold us in Hlo1. nia. }
  destruct (scale_nonpos e1 ltac:(lia)) as [EP1 EQ1]. rewrite EP1, EQ1 in *.
  assert (HQ1 : 2 ^ 19 <= 2 ^ (- e1)) by (apply Z.pow_le_mono_r; lia).
  change (2 ^ 19) with 524288 in HQ1.
  set (Q1 := 2 ^ (- e1)) in *.
  set (m1 := rne (us * Q1) (1000000 * 1)) in *.
  assert (Hm1N : m1 <= 60 * k * Q1 - 1).
  { pose proof (rne_bounds (us * Q1) (1000000 * 1) ltac:(lia)) as B.
    fold m1 in B. unfold us in B. nia. }
  rewrite Z.mul_1_r.
  assert (Hm1pos : 0 < m1) by (assert (0 < 2 ^ 52) by done; lia).
  rewrite (fdiv_pos m1 (60 * Q1) Hm1pos).
  destruct (fexp_spec m1 (60 * Q1) Hm1pos ltac:(lia)) as [Hlo2 _].
  unfold flt, fnum, fden, round53. simpl.
  set (e2 := fexp m1 (60 * Q1)) in *.
  assert (He2 : e2 <= e1 - 5).
  { destruct (Z.le_gt_cases e2 (e1 - 5)) as [|Hgt]; [done|exfalso].
    change (2 ^ 53) with (2 * 2 ^ 52) in Hm1.
    assert (Hc : 0 < 2 ^ 52) by done. set (c := 2 ^ 52) in *.
    destruct (Z.le_gt_cases 0 e2) as [Hnn|Hneg].
    - destruct (scale_nonneg e2 Hnn) as [EP EQ]. rewrite EP, EQ in *.
      assert (0 < 2 ^ e2) by (apply Z.pow_pos_nonneg; lia). nia.
    - destruct (scale_nonpos e2 ltac:(lia)) as [EP EQ]. rewrite EP, EQ in *.
      assert (Hq : 2 ^ (- e2) <= 2 ^ (4 - e1)) by (apply Z.pow_le_mono_r; lia).
      replace (4 - e1) with (4 + - e1) in Hq by lia.
      rewrite Z.pow_add_r in Hq by lia. fold Q1 in Hq.
      change (2 ^ 4) with 16 in Hq.
      assert (0 < 2 ^ (- e2)) by (apply Z.pow_pos_nonneg; lia). nia. }
  destruct (scale_nonpos e2 ltac:(lia)) as [EP2 EQ2]. rewrite EP2, EQ2 in *.
  assert (HQ2 : 32 * Q1 <= 2 ^ (- e2)).
  { assert (Hq : 2 ^ (5 + - e1) <= 2 ^ (- e2)) by (apply Z.pow_le_mono_r; lia).
    rewrite Z.pow_add_r in Hq by lia. by fold Q1 in Hq. }
  set (Q2 := 2 ^ (- e2)) in *.
  pose proof (rne_bounds (m1 * Q2) (60 * Q1 * 1) ltac:(lia)) as B.
  set (m2 := rne (m1 * Q2) (60 * Q1 * 1)) in *.
  apply Z.ltb_lt. rewrite Z.mul_1_r.
  assert (Hn : m1 * Q2 <= (60 * k * Q1 - 1) * Q2) by nia.
  assert (HD : 0 < 60 * Q1) by lia.
  assert (H2 : 2 * m2 * (60 * Q1) < 2 * (k * Q2) * (60 * Q1)) by nia.
  nia.
Qed.

(** Before an interval of less than [2^34 / 60] minutes (some 544 years)
    the minutes are below the interval. *)
Lemma elapsed_minutes_short (us k : Z) :
  0 <= k -> 60 * k < 2 ^ 34 ->
  us < k * 60000000 ->
  flt (elapsed_minutes us) k = true.
Proof.
  intros Hk Hmax Hus.
  destruct (Z.eq_dec k 0) as [->|Hk0].
  - unfold flt. apply Z.ltb_lt. unfold elapsed_minutes.
    destruct (fdiv_sign us 1000000 ltac:(lia)) as (_ & _ & S3).
    specialize (S3 ltac:(lia)).
    pose proof (fden_pos (fdiv us 1000000)).
    destruct (fdiv_sign (fnum (fdiv us 1000000)) (60 * fden (fdiv us 1000000))
                ltac:(lia)) as (_ & _ & S3').
    specialize (S3' S3). lia.
  - apply (flt_fle _ (elapsed_minutes (k * 60000000 - 1))).
    + apply elapsed_minutes_mono. lia.
    + apply elapsed_minutes_just_short; lia.
Qed.
(** ** The throttle *)

Lemma throttled_mono (now now' : datetime) (i : VKIntegration) :
  now <= now' -> throttled now' i = true -> throttled now i = true.
Proof.
  unfold throttled. destruct (last_checked_at i) as [last|]; [|done].
  intros Hle. apply flt_fle. apply elapsed_minutes_mono. lia.
Qed.

Lemma throttled_short (now last : datetime) (i : VKIntegration) :
  last_checked_at i = Some last ->
  0 <= check_interval_minutes i ->
  60 * check_interval_minutes i < 2 ^ 34 ->
  now - last < check_interval_minutes i * 60000000 ->
  throttled now i = true.
Proof.
  intros El H0 Hmax Hlt. unfold throttled. rewrite El.
  by apply elapsed_minutes_short.
Qed.

Lemma throttled_reached (now : datetime) (i : VKIntegration) :
  last_checked_at i = None
  \/ (exists last, last_checked_at i = Some last
                   /\ - 2 ^ 53 < 60 * check_interval_minutes i < 2 ^ 53
                   /\ check_interval_minutes i * 60000000 <= now - last) ->
  throttled now i = false.
Proof.
  unfold throttled. intros [->|(last & -> & Hb & Hle)]; [done|].
  by apply elapsed_minutes_reached.
Qed.


(** ** Manual trigger and ingestion loop *)

Lemma written_checkpointed (id : Z) (now : datetime) (s : ImportSession) :
  written {| is_db := checkpointed id now (is_db s); is_new := is_new s |}
  = checkpointed id now (written s).
Proof.
  unfold written, checkpointed, set_vk_integrations. cbn [is_db is_new].
  by rewrite !insert_all_rows.
Qed.

Lemma keeps_bind {A B} (m : M ImportSession A) (k : A -> M ImportSession B) :
  keeps_integrations m -> (forall a, keeps_integrations (k a)) ->
  keeps_integrations (bind m k).
Proof.
  intros Hm Hk s r s'. unfold bind.
  destruct (m s) as [[a|e] s1] eqn:E; specialize (Hm _ _ _ E).
  - intros E'. apply Hk in E'. congruence.
  - intros [= <- <-]. done.
Qed.

Lemma keeps_ret {A} (a : A) : keeps_integrations (ret a).
Proof. by intros s r s' [= <- <-]. Qed.

Lemma keeps_flush_new : keeps_integrations flush_new.
Proof.
  intros s r s' [= <- <-]. unfold written. cbn [is_db session_at].
  by rewrite insert_all_rows.
Qed.

Lemma keeps_in_db {A} (m : DB A) :
  (forall d r d', m d = (r, d') -> vk_integrations d' = vk_integrations d) ->
  keeps_integrations (in_db m).
Proof.
  intros Hm s r s'. unfold in_db. destruct (m (is_db s)) as [r0 d0] eqn:E.
  intros [= <- <-]. by apply (Hm _ _ _ E).
Qed.

Lemma keeps_query {A} (af : bool) (m : DB A) :
  (forall d r d', m d = (r, d') -> vk_integrations d' = vk_integrations d) ->
  keeps_integrations (query af m).
Proof.
  intros Hm. apply keeps_bind.
  - destruct af; [apply keeps_flush_new|apply keeps_ret].
  - intros _. by apply keeps_in_db.
Qed.

Lemma keeps_add_imported (mk : Z -> VKImportedPost) :
  keeps_integrations (add_imported mk).
Proof. by intros s r s' [= <- <-]. Qed.

Section Frame.
Context {H : Host}.

Lemma keeps_check_ledger (af : bool) (p : Post) (i : VKIntegration) :
  keeps_integrations (check_ledger af p i).
Proof.
  apply keeps_bind.
  - apply keeps_query. intros d r d'. unfold bind, get, scalar_one_or_none, ret, raise.
    destruct (ledger_rows _ _ d) as [|x [|y l]]; by intros [= <- <-].
  - intros [r|]; [|apply keeps_ret].
    apply keeps_bind.
    + destruct (news_id r) as [n|]; [|apply keeps_ret].
      destruct (truthy_int n); [|apply keeps_ret].
      apply keeps_query. by intros d r0 d' [= <- <-].
    + intros [a|]; [apply keeps_ret|].
      apply keeps_bind; [|intros _; apply keeps_bind;
                                    [apply keeps_flush_new|intros _; apply keeps_ret]].
      apply keeps_in_db. by intros d r0 d' [= <- <-].
Qed.

Lemma keeps_import_vk_post (af : bool) (p : Post) (i : VKIntegration) :
  keeps_integrations (import_vk_post af p i).
Proof.
  unfold import_vk_post. destruct (negb (truthy_str (text p))); [apply keeps_ret|].
  apply keeps_bind; [apply keeps_check_ledger|].
  intros [|]; [apply keeps_ret|].
  apply keeps_bind.
  { apply keeps_query. intros d r d' E.
    destruct (determine_category_reads (text p) (hashtag_category_map i)
                (default_category_id i) d) as [c Ec].
    rewrite Ec in E. by injection E as <- <-. }
  intros c. apply keeps_bind.
  { apply keeps_query. intros d r d' E.
    match type of E with
    | ensure_unique_slug ?s0 d = _ =>
        destruct (ensure_unique_slug_ends s0 d) as (r0 & Es & _)
    end.
    rewrite Es in E. by injection E as <- <-. }
  intros sl. apply keeps_bind; [apply keeps_flush_new|]. intros _.
  apply keeps_bind.
  { apply keeps_in_db. by intros d r d' [= <- <-]. }
  intros a. apply keeps_bind; [apply keeps_add_imported|]. intros _. apply keeps_ret.
Qed.

Lemma keeps_import_posts (af : bool) (posts : list Post) (i : VKIntegration) :
  forall k, keeps_integrations (import_posts af posts i k).
Proof.
  induction posts as [|p posts IH]; intros k; cbn [import_posts]; [apply keeps_ret|].
  destruct (truthy_opt truthy_int (marked_as_ads p)); [apply IH|].
  apply keeps_bind; [apply keeps_import_vk_post|]. intros r. apply IH.
Qed.

(** A batch leaves the configurations as they are, whatever comes of it. *)
Lemma alone_import_posts_frame (af : bool) (posts : list Post) (i : VKIntegration)
    (k : Z) (d d' : Database) (r : outcome Z) :
  alone (import_posts af posts i k) d = (r, d') ->
  vk_integrations d' = vk_integrations d.
Proof.
  unfold alone.
  destruct ((let* a := import_posts af posts i k in
             let* _ := flush_new in ret a) (session_at d)) as [r0 s] eqn:E.
  intros [= <- <-].
  apply (keeps_bind (import_posts af posts i k)) in E; [done| |].
  - apply keeps_import_posts.
  - intros a. apply keeps_bind; [apply keeps_flush_new|]. intros _. apply keeps_ret.
Qed.

End Frame.

Lemma checkpointed_rows_of (id : Z) (now : datetime) (rows : list VKIntegration) :
  Forall2 (fun x x' =>
             same_settings x x'
             /\ last_checked_at x'
                = (if vi_id x =? id then Some now else last_checked_at x))
    rows
    (map (fun x => if vi_id x =? id then with_last_checked_at (Some now) x else x) rows).
Proof.
  induction rows as [|x rows IH]; simpl; constructor; [|exact IH].
  destruct (vi_id x =? id); by repeat split.
Qed.

Arguments on_session : simpl never.

Section Passes.
Context {H : Host}.
Variable wall_get : VKRequest -> option VKData.
Variable autoflush : bool.

(** The block of a fetch: the batch imported in a session of its own, then
    the checkpoint; when the import raises, the checkpoint is not set. *)
Lemma on_session_import_batch (posts : list Post) (i : VKIntegration)
    (now : datetime) (w : World) :
  on_session (import_batch autoflush posts i now) w
  = match alone (import_posts autoflush posts i 0) (db w) with
    | (Return n, d') =>
        (Return n, {| db := checkpointed (vi_id i) now d'; vk_calls := vk_calls w |})
    | (Raise e, d') => (Raise e, {| db := d'; vk_calls := vk_calls w |})
    end.
Proof.
  unfold on_session, import_batch.
  destruct (import_posts autoflush posts i 0 (session_at (db w))) as [r s] eqn:E.
  rewrite (alone_run _ _ r s E). unfold bind at 1. rewrite E.
  destruct r as [n|e]; [|done].
  unfold bind, in_db, set_last_checked_at, modify, flush_new, ret.
  cbn [is_db is_new session_at].
  by rewrite <- written_checkpointed.
Qed.

Lemma import_posts_returns (posts : list Post) (i : VKIntegration) :
  forall (k : Z) (d : Database),
  db_ok d ->
  exists n d', import_posts_at_once posts i k d = (Return n, d')
               /\ db_ok d' /\ vk_integrations d' = vk_integrations d.
Proof.
  induction posts as [|p posts IH]; intros k d Hok; [by exists k, d|].
  cbn [import_posts_at_once].
  destruct (truthy_opt truthy_int (marked_as_ads p)); [by apply IH|].
  destruct (import_vk_post_returns p i d Hok) as (r & d1 & E & Hok1 & Hi).
  unfold bind. rewrite E.
  destruct (IH (match r with Some _ => k + 1 | None => k end) d1 Hok1)
    as (n & d' & E' & Hok' & Hi').
  exists n, d'. split; [exact E'|]. split; [done|congruence].
Qed.

Lemma alone_import_posts_returns (posts : list Post) (i : VKIntegration) (k : Z)
    (d : Database) :
  db_ok d ->
  batch_ok autoflush posts d ->
  exists n d',
    alone (import_posts autoflush posts i k) d = (Return n, d')
    /\ import_posts_at_once posts i k d = (Return n, d')
    /\ db_ok d' /\ vk_integrations d' = vk_integrations d.
Proof.
  intros Hok Hb.
  destruct (import_posts_returns posts i k d Hok) as (n & d' & E & Hok' & Hi).
  exists n, d'. split; [|done]. rewrite alone_import_posts; [exact E|].
  destruct Hb as [Hb|[Hnd Hk]]; [by left|right]. split; [done|]. split; [done|].
  by exists n, d'.
Qed.

(** C3, as the code has it.  [fetch_now] raises 404 when no integration is
    configured and 400 when the mode of the integration is [off], in both
    cases with the world as it was: no request, no change.  In any other
    mode, [auto] as well as [manual], it sends one request for a batch of
    [fetch_count or 20] posts, and when the feed answers with posts and
    their import returns, it has imported them, set the checkpoint and
    reports the counts. *)
Theorem fetch_now_mode_gating (now : datetime) (w : World) :
  (vk_integrations (db w) = [] ->
     fetch_now wall_get autoflush now w
     = (Raise (HTTPException 404 detail_not_configured), w))
  /\ (forall i rest,
        vk_integrations (db w) = i :: rest ->
        mode i = MODE_OFF ->
        fetch_now wall_get autoflush now w
        = (Raise (HTTPException 400 detail_switched_off), w))
  /\ (forall i rest,
        vk_integrations (db w) = i :: rest ->
        mode i <> MODE_OFF ->
        exists res w',
          fetch_now wall_get autoflush now w = (res, w')
          /\ vk_calls w' = vk_calls w ++ [request_of i]
          /\ forall posts n d',
               wall_get (request_of i) = Some (VKResponse posts) ->
               alone (import_posts autoflush posts i 0) (db w) = (Return n, d') ->
               res = Return {| imported := n;
                               total_checked := Z.of_nat (length posts) |}
               /\ db w' = checkpointed (vi_id i) now d').
Proof.
  destruct w as [d calls]. simpl. split; [|split].
  - intros E. unfold fetch_now, first_integration. run. by rewrite E.
  - intros i rest E Hm. unfold fetch_now, first_integration. run. rewrite E. simpl.
    apply str_eqb_eq in Hm. by rewrite Hm.
  - intros i rest E Hm. unfold fetch_now, first_integration. run. rewrite E. simpl.
    destruct (str_eqb (mode i) MODE_OFF) eqn:Eo; [by apply str_eqb_eq in Eo|].
    unfold except_http, fetch_vk_posts. run. fold (request_of i).
    destruct (wall_get (request_of i)) as [[msg|posts]|] eqn:Ew; simpl.
    + eexists _, _. split; [reflexivity|]. split; [done|]. intros. done.
    + rewrite on_session_import_batch. cbn [db vk_calls].
      destruct (alone (import_posts autoflush posts i 0) d) as [[n|e] d'] eqn:Ei.
      * eexists _, _. split; [reflexivity|]. split; [done|].
        intros posts' n' d'' [= <-] Ei'. rewrite Ei in Ei'.
        by injection Ei' as <- <-.
      * destruct e; eexists _, _; (split; [reflexivity|]); (split; [done|]);
          intros posts' n' d'' [= <-] Ei'; rewrite Ei in Ei'; discriminate.
    + eexists _, _. split; [reflexivity|]. split; [done|]. intros. done.
Qed.

End Passes.


(** C3, as the specification states it, fails: the sample integration is in mode
    [auto], not [manual], and the manual trigger fetches for it and imports
    the post of the batch. *)
Lemma fetch_now_serves_auto_mode :
  mode sample_integration = MODE_AUTO
  /\ mode sample_integration <> MODE_MANUAL
  /\ forall autoflush,
       exists w',
         fetch_now (H:=ascii_host) (feed_of [post11]) autoflush 1700020000000000
           sample_world
         = (Return {| imported := 1; total_checked := 1 |}, w')
         /\ vk_calls w' = [request_of sample_integration]
         /\ length (news (db w')) = 1%nat
         /\ length (vk_imported_posts (db w')) = 1%nat.
Proof.
  split; [reflexivity|]. split; [intros E; vm_compute in E; discriminate|].
  intros []; (eexists; split; [vm_compute; reflexivity|]; by vm_compute).
Qed.

Section Ingestion.
Context {H : Host}.
Variable wall_get : VKRequest -> option VKData.
Variables autoflush expire_on_commit : bool.

Lemma vk_fetch_integration_expired (now : datetime) (i : VKIntegration) (w : World) :
  vk_fetch_integration wall_get autoflush expire_on_commit now i Expired w
  = (Raise MissingGreenlet, w).
Proof. reflexivity. Qed.

(** What the turn of one integration comes to, in a session whose rows are
    not expired. *)
Lemma vk_fetch_integration_outcome (now : datetime) (i : VKIntegration)
    (st : SessionStatus) (w : World) :
  st <> Expired ->
  exists st' w',
    vk_fetch_integration wall_get autoflush expire_on_commit now i st w
    = (Return st', w')
    /\ ((throttled now i = true /\ w' = w /\ st' = st)
        \/ (throttled now i = false
            /\ vk_calls w' = vk_calls w ++ [request_of i]
            /\ match wall_get (request_of i) with
               | Some (VKResponse posts) =>
                   match alone (import_posts autoflush posts i 0) (db w) with
                   | (Return n, d') =>
                       db w' = checkpointed (vi_id i) now d'
                       /\ st' = (if expire_on_commit then Expired else Idle)
                   | (Raise _, _) => db w' = db w /\ st' = Expired
                   end
               | Some (VKError _) => db w' = db w /\ st' = st
               | None => db w' = db w /\ st' = rolled_back st
               end)).
Proof.
  intros Hst. destruct w as [d calls].
  assert (E : vk_fetch_integration wall_get autoflush expire_on_commit now i st
                {| db := d; vk_calls := calls |}
              = (if throttled now i then ret st
                 else
                   except_rollback st (
                     let* data :=
                       fetch_vk_posts wall_get (group_id i) (access_token i)
                         (count_of i) in
                     match data with
                     | VKError _ => ret st
                     | VKResponse posts =>
                         except_rollback InTransaction (
                           let* imported_count :=
                             on_session (import_batch autoflush posts i now) in
                           ret (if expire_on_commit then Expired else Idle))
                     end)) {| db := d; vk_calls := calls |})
    by (by destruct st).
  rewrite E. clear E.
  destruct (throttled now i) eqn:Et; [eexists _, _; split; [reflexivity|by left]|].
  unfold except_rollback at 1, fetch_vk_posts. unfold bind at 1.
  cbn [db vk_calls]. fold (request_of i).
  destruct (wall_get (request_of i)) as [[msg|posts]|] eqn:Ew.
  - eexists _, _. split; [reflexivity|]. right. by repeat split.
  - unfold except_rollback, bind. rewrite on_session_import_batch. cbn [db vk_calls].
    destruct (alone (import_posts autoflush posts i 0) d) as [[n|e] d'] eqn:Ei.
    + eexists _, _. split; [reflexivity|]. right. by repeat split.
    + eexists _, _. split; [reflexivity|]. right. by repeat split.
  - eexists _, _. split; [reflexivity|]. right. by repeat split.
Qed.

Lemma vk_fetch_tick_alone (clock : VKIntegration -> datetime) (w : World)
    (i : VKIntegration) :
  List.filter (fun x => str_eqb (mode x) MODE_AUTO) (vk_integrations (db w)) = [i] ->
  vk_fetch_tick wall_get autoflush expire_on_commit clock w
  = (Return tt,
     snd (vk_fetch_integration wall_get autoflush expire_on_commit (clock i) i
            InTransaction w)).
Proof.
  intros Ei. unfold vk_fetch_tick, except_log. unfold bind at 1, get. rewrite Ei.
  cbn [fetch_integrations]. unfold bind.
  destruct (vk_fetch_integration_outcome (clock i) i InTransaction w)
    as (st' & w' & E & _); [done|].
  by rewrite E.
Qed.

Lemma vk_fetch_tick_none (clock : VKIntegration -> datetime) (w : World) :
  Forall (fun x => mode x <> MODE_AUTO) (vk_integrations (db w)) ->
  vk_fetch_tick wall_get autoflush expire_on_commit clock w = (Return tt, w).
Proof.
  intros Hno. unfold vk_fetch_tick, except_log. unfold bind at 1, get.
  assert (E : List.filter (fun i => str_eqb (mode i) MODE_AUTO)
                (vk_integrations (db w)) = []).
  { apply filter_none. eapply Forall_impl; [exact Hno|]. simpl.
    intros i Hi. destruct (str_eqb (mode i) MODE_AUTO) eqn:E; [|done].
    by apply str_eqb_eq in E. }
  by rewrite E.
Qed.

End Ingestion.

Section IngestionClaim.
Context {H : Host}.
Variable wall_get : VKRequest -> option VKData.
Variables autoflush expire_on_commit : bool.


End IngestionClaim.


(** C4, as the specification states it, fails in two ways.  With an interval of
    286331154 minutes, one microsecond short of the interval after the
    checkpoint the float of the elapsed minutes is the interval itself:
    the pass sends its request and moves the checkpoint.  And when the
    import of the batch raises, here on the two ledger rows that a session
    without autoflush has written for a post that came twice, the request
    was sent and answered and the checkpoint is not set. *)
Lemma fetch_early_and_checkpoint_missed :
  (patient_clock - 1700000000000000
   < check_interval_minutes patient_integration * 60000000
   /\ last_checked_at patient_integration = Some 1700000000000000
   /\ forall autoflush expire_on_commit,
        exists w',
          vk_fetch_tick (H:=ascii_host) (feed_of []) autoflush expire_on_commit
            (fun _ => patient_clock) patient_world = (Return tt, w')
          /\ vk_calls w' = [request_of patient_integration]
          /\ map last_checked_at (vk_integrations (db w')) = [Some patient_clock])
  /\ (map vk_post_id (vk_imported_posts repeated_db) = [11; 11]
      /\ map last_checked_at (vk_integrations repeated_db) = [Some 1700020000000000]
      /\ forall autoflush expire_on_commit,
           exists w',
             vk_fetch_tick (H:=ascii_host) (feed_of [post11]) autoflush
               expire_on_commit (fun _ => 1700030000000000)
               {| db := repeated_db; vk_calls := [] |} = (Return tt, w')
             /\ vk_calls w' = [request_of sample_integration]
             /\ db w' = repeated_db).
Proof.
  split.
  - split; [by vm_compute|]. split; [reflexivity|].
    intros [] []; (eexists; split; [vm_compute; reflexivity|]; by vm_compute).
  - split; [by vm_compute|]. split; [by vm_compute|].
    intros [] []; (eexists; split; [vm_compute; reflexivity|]; by vm_compute).
Qed.

Lemma sample_db_ok : db_ok sample_db.
Proof. apply (bool_decide_unpack _). vm_compute. exact I. Defined.

Lemma sample_auto_rows :
  List.filter (fun x => str_eqb (mode x) MODE_AUTO) (vk_integrations (db sample_world))
  = [sample_integration].
Proof. reflexivity. Defined.


(** The throttle of the specification's example: an interval of ten
    minutes, a checkpoint five minutes old, then fifteen. *)
Example throttle_five_minutes :
  let i := with_last_checked_at (Some 1700000000000000) sample_integration in
  throttled (1700000000000000 + 5 * 60000000) i = true
  /\ throttled (1700000000000000 + 15 * 60000000) i = false.
Proof. by vm_compute. Qed.

(** The interval to the microsecond, and the first interval at which the
    float of the minutes is no longer below the interval one microsecond
    before it. *)
Example throttle_boundaries :
  flt (elapsed_minutes (10 * 60000000 - 1)) 10 = true
  /\ flt (elapsed_minutes (10 * 60000000)) 10 = false
  /\ flt (elapsed_minutes (286331153 * 60000000 - 1)) 286331153 = true
  /\ flt (elapsed_minutes (286331154 * 60000000 - 1)) 286331154 = false.
Proof. by vm_compute. Qed.

(** A pass over two integrations in mode [auto] ends with the first one
    whose turn is rolled back: the rows of the session are expired, the
    reading of the next row raises, and the second integration, whose
    turn has not come, gets no request. *)
Example pass_ends_after_rollback :
  forall autoflush expire_on_commit,
    vk_fetch_tick (H:=ascii_host) half_dead_feed autoflush expire_on_commit
      (fun _ => 1700020000000000) two_auto_world
    = (Return tt,
       {| db := db two_auto_world; vk_calls := [request_of sample_integration] |}).
Proof. by intros [] []; vm_compute. Qed.

(** ** Batch size *)

(** [update_vk_integration] stores a batch size between 1 and 100. *)
Lemma update_clamps_fetch_count (data : VKIntegrationUpdate) (i : VKIntegration) (n : Z) :
  u_fetch_count data = Some n ->
  1 <= fetch_count (apply_update data i) <= 100.
Proof. intros E. simpl. rewrite E. lia. Qed.

Arguments insert_refused : simpl never.
Arguments update_refused : simpl never.

(** What [create_vk_integration] comes to: the first configuration and
    its ledger rows leave, and the new row comes in, when the server takes
    it; when it does not, nothing has changed. *)
Lemma create_vk_integration_run {H : Host} (data : VKIntegrationCreate) (d : Database) :
  create_vk_integration data d
  = match insert_refused d (row_of data (vk_integrations_seq d)) with
    | Some e => (Raise e, d)
    | None =>
        (Return (row_of data (vk_integrations_seq d)),
         {| vk_integrations :=
              match vk_integrations d with
              | [] => []
              | old :: _ =>
                  List.filter (fun i => negb (vi_id i =? vi_id old)) (vk_integrations d)
              end ++ [row_of data (vk_integrations_seq d)];
            vk_imported_posts :=
              match vk_integrations d with
              | [] => vk_imported_posts d
              | old :: _ =>
                  List.filter (fun r => negb (vk_integration_id r =? vi_id old))
                    (vk_imported_posts d)
              end;
            news := news d;
            news_categories := news_categories d;
            vk_integrations_seq := vk_integrations_seq d + 1;
            vk_imported_posts_seq := vk_imported_posts_seq d;
            news_seq := news_seq d |})
    end.
Proof.
  unfold create_vk_integration, atomically, first_integration, add_integration,
    delete_integration, row_of.
  unfold bind, get, ret, modify.
  destruct (vk_integrations d) as [|old rest] eqn:Ei; simpl.
  - destruct (insert_refused d _); [done|]. by rewrite Ei.
  - match goal with
    | |- context [insert_refused ?d0 ?i0] =>
        change (insert_refused d0 i0) with (insert_refused d i0)
    end.
    destruct (insert_refused d _); [done|]. by rewrite Ei.
Qed.

(** [create_vk_integration] stores the batch size it is given. *)
Lemma create_stores_fetch_count {H : Host} (data : VKIntegrationCreate)
    (d d' : Database) (i : VKIntegration) :
  create_vk_integration data d = (Return i, d') ->
  fetch_count i = c_fetch_count data.
Proof.
  rewrite create_vk_integration_run.
  destruct (insert_refused d _); [done|]. by intros [= <- _].
Qed.

(** C5 at the failing input.  A configuration created with a batch size of
    500 is stored with 500, and the manual trigger and the ingestion loop
    both ask the feed for 500 posts; the same size sent through an update
    is stored as 100. *)
Theorem create_keeps_oversized_fetch_count :
  exists i d,
    create_vk_integration (H:=ascii_host) oversized_create empty_db = (Return i, d)
    /\ fetch_count i = 500
    /\ (forall autoflush,
          map rq_count
            (vk_calls (snd (fetch_now (H:=ascii_host) (feed_of []) autoflush
                              1700020000000000 {| db := d; vk_calls := [] |})))
          = [500])
    /\ (forall autoflush expire_on_commit,
          map rq_count
            (vk_calls (snd (vk_fetch_integration (H:=ascii_host) (feed_of [])
                              autoflush expire_on_commit 1700020000000000 i
                              InTransaction {| db := d; vk_calls := [] |})))
          = [500])
    /\ fetch_count (apply_update oversized_update i) = 100.
Proof.
  eexists _, _. split; [vm_compute; reflexivity|]. split; [by vm_compute|].
  split; [by intros []; vm_compute|]. split; [by intros [] []; vm_compute|].
  by vm_compute.
Qed.

(** ** Title *)

Section Title.
Context {U : UnicodeDB}.

Lemma take_drop_while (p : char -> bool) (s : str) :
  s = take_while p s ++ drop_while p s
  /\ Forall (fun c => p c = true) (take_while p s)
  /\ (drop_while p s = [] \/ exists c rest, drop_while p s = c :: rest /\ p c = false).
Proof.
  induction s as [|c s (IH1 & IH2 & IH3)]; simpl.
  - split; [done|]. split; [constructor|by left].
  - destruct (p c) eqn:E; simpl.
    + split; [by f_equal|]. split; [by constructor|done].
    + split; [done|]. split; [constructor|]. right. by exists c, s.
Qed.

(** [s.rsplit(' ', 1)[0]] is [s] when [s] has no space, and otherwise the
    part of [s] before its last space. *)
Lemma rsplit_space_head_spec (s : str) :
  (~ In ch_space s /\ rsplit_space_head s = s)
  \/ (exists word, s = rsplit_space_head s ++ ch_space :: word /\ ~ In ch_space word).
Proof.
  unfold rsplit_space_head.
  destruct (take_drop_while (fun c => negb (c =? ch_space)%N) (rev s))
    as (Hs & Hall & Hd).
  assert (Hno : ~ In ch_space (take_while (fun c => negb (c =? ch_space)%N) (rev s))).
  { intros Hin. rewrite Forall_forall in Hall.
    apply list_elem_of_In, Hall in Hin. by rewrite N.eqb_refl in Hin. }
  destruct Hd as [Hd|(c & rest & Hd & Hc)]; rewrite Hd in *.
  - left. split; [|done]. rewrite app_nil_r in Hs.
    intros Hin. apply Hno. rewrite <- Hs. by apply in_rev in Hin.
  - right. apply negb_false_iff, N.eqb_eq in Hc. subst c.
    exists (rev (take_while (fun c => negb (c =? ch_space)%N) (rev s))). split.
    + rewrite <- (rev_involutive s) at 1. rewrite Hs at 1.
      rewrite rev_app_distr. simpl. by rewrite <- app_assoc.
    + intros Hin. apply Hno. by apply in_rev.
Qed.

(** C6, as the code has it.  The title is made of the first line of the
    cleaned text without its hashtags, stripped.  An empty line gives the
    fallback label; a line of at most 150 characters is the title; a longer
    line is cut and followed by an ellipsis: what is kept is the part of
    its first 150 characters before their last space, and all 150 of them
    when they hold no space.  The title is never empty. *)
Theorem make_title_from_text_spec (t : str) :
  title_line t
  = strip (first_line (strip (re_sub match_hashtag (fun _ => []) (clean_vk_text t))))
  /\ make_title_from_text t <> []
  /\ (title_line t = [] -> make_title_from_text t = fallback_title)
  /\ (title_line t <> [] -> (length (title_line t) <= 150)%nat ->
      make_title_from_text t = title_line t)
  /\ ((150 < length (title_line t))%nat ->
      exists kept,
        make_title_from_text t = kept ++ ellipsis
        /\ (length kept <= 150)%nat
        /\ ((~ In ch_space (firstn 150 (title_line t))
             /\ kept = firstn 150 (title_line t))
            \/ (exists word,
                  firstn 150 (title_line t) = kept ++ ch_space :: word
                  /\ ~ In ch_space word))).
Proof.
  split; [done|].
  unfold make_title_from_text, make_title_from_text_len.
  destruct (Nat.ltb_spec 150 (length (title_line t))) as [Hlong|Hshort].
  - assert (Hcut : forall k, truthy_str (k ++ ellipsis) = true)
      by (intros [|? ?]; done).
    rewrite Hcut.
    split; [intros E; apply app_eq_nil in E as [_ E]; discriminate E|].
    split; [intros E; rewrite E in Hlong; simpl in Hlong; lia|].
    split; [intros; lia|]. intros _.
    exists (rsplit_space_head (firstn 150 (title_line t))). split; [done|].
    assert (Hlen : (length (firstn 150 (title_line t)) <= 150)%nat)
      by (rewrite length_firstn; lia).
    destruct (rsplit_space_head_spec (firstn 150 (title_line t)))
      as [[Hno E]|(word & E & Hno)].
    + rewrite E. split; [done|]. by left.
    + split.
      * rewrite E in Hlen. rewrite length_app in Hlen. lia.
      * right. by exists word.
  - destruct (title_line t) as [|c l] eqn:El; simpl in *.
    + split; [done|]. split; [done|]. split; [done|]. intros; lia.
    + split; [done|]. split; [done|]. split; [done|]. intros; lia.
Qed.

End Title.

(** C6, as the specification states it, fails on a line without a space: 151 letters
    [a] keep their first 150 letters and get the ellipsis, a cut inside
    the word and at no space of the line. *)
Lemma title_cut_inside_a_word :
  let t := repeat 97%N 151 in
  @title_line ascii_db t = t
  /\ @make_title_from_text ascii_db t = repeat 97%N 150 ++ ellipsis
  /\ ~ (exists kept rest,
          @make_title_from_text ascii_db t = kept ++ ellipsis
          /\ @title_line ascii_db t = kept ++ ch_space :: rest).
Proof.
  intros t.
  assert (E : @title_line ascii_db t = t) by (by vm_compute).
  split; [exact E|]. split; [by vm_compute|].
  intros (kept & rest & _ & E2). rewrite E in E2.
  assert (Hin : In ch_space t) by (rewrite E2; apply in_app_iff; right; by left).
  apply repeat_spec in Hin. discriminate.
Qed.

(** ** Category resolution *)

Section Category.
Context {H : Host}.

Lemma find_first {A} (p : A -> bool) (l : list A) (x : A) :
  find p l = Some x ->
  exists before after,
    l = before ++ x :: after /\ p x = true /\ Forall (fun y => p y = false) before.
Proof.
  induction l as [|y l IH]; simpl; [done|].
  destruct (p y) eqn:E.
  - intros [= ->]. exists [], l. split; [done|]. split; [done|constructor].
  - intros Hf. destruct (IH Hf) as (before & after & -> & Hx & Hb).
    exists (y :: before), after. split; [done|]. split; [done|by constructor].
Qed.

Lemma existsb_false {A} (p : A -> bool) (l : list A) (x : A) :
  existsb p l = false -> In x l -> p x = false.
Proof.
  intros E Hin. destruct (p x) eqn:Ep; [|done].
  assert (Ht : existsb p l = true) by (apply existsb_exists; by exists x).
  congruence.
Qed.

(** C7, as the code has it.  [determine_category] returns and reads only.
    With a map, its answer is the category of the first hashtag of the
    text, in order of occurrence, that some key of the map answers: the
    key, without all of its leading hash signs and in lower case, is the
    hashtag in lower case, and its category is in the table; among such
    keys the first of the map gives the category.  No hashtag before that
    one is answered by any key.  Without such a hashtag, or without a map,
    the answer is the default category, which may be null. *)
Theorem determine_category_spec (t : str) (m : option (list (str * Z)))
    (dflt : option Z) (d : Database) :
  determine_category t m dflt d
  = (Return match m with
            | Some items =>
                match resolved d (extract_hashtags t) items with
                | Some c => Some c
                | None => dflt
                end
            | None => dflt
            end, d)
  /\ (forall items c,
        resolved d (extract_hashtags t) items = Some c ->
        exists before tag after key,
          extract_hashtags t = before ++ tag :: after
          /\ In (key, c) items
          /\ lower (lstrip_hash key) = lower tag
          /\ category_exists d c = true
          /\ Forall (fun earlier =>
                       forall item, In item items ->
                                    answers d (lower earlier) item = false) before)
  /\ (forall items,
        resolved d (extract_hashtags t) items = None ->
        forall tag item,
          In tag (extract_hashtags t) -> In item items ->
          answers d (lower tag) item = false).
Proof.
  split; [|split].
  - destruct m as [[|item items]|]; simpl; [| |done].
    + unfold resolved.
      destruct (find _ (extract_hashtags t)) eqn:E; [|done].
      apply find_some in E as [_ E]. done.
    + unfold bind. rewrite category_for_tags_eq.
      by destruct (resolved d (extract_hashtags t) (item :: items)).
  - intros items c. unfold resolved.
    destruct (find _ (extract_hashtags t)) as [tag|] eqn:E; [|done].
    destruct (find (answers d (lower tag)) items) as [[key c']|] eqn:Ek; [|done].
    simpl. intros [= ->].
    destruct (find_first _ _ _ E) as (before & after & Ht & _ & Hb).
    apply find_some in Ek as [Hin Hk]. unfold answers in Hk. simpl in Hk.
    apply andb_true_iff in Hk as [Hk1 Hk2]. apply str_eqb_eq in Hk1.
    exists before, tag, after, key. repeat split; try done.
    eapply Forall_impl; [exact Hb|]. simpl. intros earlier He item Hi.
    by apply (existsb_false _ items).
  - intros items. unfold resolved.
    destruct (find _ (extract_hashtags t)) as [tag|] eqn:E.
    + apply find_some in E as [_ E]. rewrite find_existsb in E.
      by destruct (find (answers d (lower tag)) items).
    + intros _ tag item Ht Hi.
      apply (existsb_false _ items); [|done].
      by apply (find_none _ _ E).
Qed.

End Category.

(** C7, as the specification states it, fails on a key with two leading hash signs:
    without one of them the key is still no hashtag of the text, so the
    specified resolver falls back to the default, while the code strips both
    and returns the category of the key. *)
Lemma key_with_two_hash_signs :
  let t := lit "News #tag" in
  let items := [(lit "##tag", 7)] in
  determine_category (H:=ascii_host) t (Some items) None empty_db
  = (Return (Some 7), empty_db)
  /\ resolved_as_specified (H:=ascii_host) empty_db
       (extract_hashtags (U:=ascii_db) t) items None = None.
Proof. by vm_compute. Qed.

(** ** Replacing the configuration *)

Section Replace.
Context {H : Host}.
Variable autoflush : bool.


End Replace.

Lemma imported_db_fk_ok : ledger_fk_ok imported_db.
Proof. apply (bool_decide_unpack _). vm_compute. exact I. Defined.


(** C10, as the specification states it, fails: the server refuses a row
    whose default category is no row of the categories, and the request
    raises.  On the empty tables no integration exists afterwards; on
    tables with a configuration and a ledger row of it, the old record
    has not been deleted and its ledger row is still there. *)
Lemma create_refused_changes_nothing :
  news_categories empty_db = [7]
  /\ c_default_category_id orphan_create = Some 99
  /\ create_vk_integration (H:=ascii_host) orphan_create empty_db
     = (Raise IntegrityError, empty_db)
  /\ vk_integrations empty_db = []
  /\ create_vk_integration (H:=ascii_host) orphan_create imported_db
     = (Raise IntegrityError, imported_db)
  /\ vk_integrations imported_db = [sample_integration]
  /\ map vk_integration_id (vk_imported_posts imported_db) = [vi_id sample_integration].
Proof. by vm_compute. Qed.

(** The sample post is imported a second time after the configuration was
    created anew: two articles of the same title. *)
Example reimport_after_replace :
  let d' := snd (create_vk_integration (H:=ascii_host) sample_create imported_db) in
  let i' := {| vi_id := 2; group_id := lit "examplegroup";
               access_token := lit "secret"; is_enabled := false;
               mode := MODE_AUTO; default_category_id := None;
               auto_publish := true; check_interval_minutes := 10;
               fetch_count := 5;
               hashtag_category_map := Some [(lit "#Results", 7)];
               last_checked_at := None |} in
  vk_integrations d' = [i']
  /\ map title
       (news (snd (alone (import_vk_post (H:=ascii_host) false post11 i') d')))
     = [lit "Final  are in"; lit "Final  are in"].
Proof. by vm_compute. Qed.

(** A default category that is no row of the table, and a batch size that
    is no 32-bit integer: the server of the sample host refuses the row,
    and the configuration that was there stays. *)
Example create_refused :
  let unknown_category :=
    {| c_group_id := lit "examplegroup"; c_access_token := lit "secret";
       c_mode := MODE_AUTO; c_default_category_id := Some 99;
       c_auto_publish := true; c_check_interval_minutes := 10;
       c_fetch_count := 5; c_hashtag_category_map := None |} in
  let huge_batch :=
    {| c_group_id := lit "examplegroup"; c_access_token := lit "secret";
       c_mode := MODE_AUTO; c_default_category_id := None;
       c_auto_publish := true; c_check_interval_minutes := 10;
       c_fetch_count := 2 ^ 31; c_hashtag_category_map := None |} in
  create_vk_integration (H:=ascii_host) unknown_category imported_db
  = (Raise IntegrityError, imported_db)
  /\ create_vk_integration (H:=ascii_host) huge_batch imported_db
     = (Raise DataError, imported_db).
Proof. by vm_compute. Qed.

(** ** Scenarios of the specification, run on the sample host *)

Example sample_db_integrations : vk_integrations sample_db = [sample_integration].
Proof. by vm_compute. Qed.

(** The scenario of the specification: three posts, one marked as an
    advertisement, one with the hashtag mapped to category 7, one plain;
    two articles are created, in the mapped category and in the default
    one, and the checkpoint is the reading of the clock. *)
Example ingestion_scenario :
  let posts :=
    [ad_post; sample_post 21 "Cup #results"; sample_post 22 "Plain words"] in
  let w' := snd (vk_fetch_tick (H:=ascii_host) (feed_of posts) false true
                   (fun _ => 1700020000000000) sample_world) in
  map category_id (news (db w')) = [Some 7; None]
  /\ map vk_post_id (vk_imported_posts (db w')) = [21; 22]
  /\ map last_checked_at (vk_integrations (db w')) = [Some 1700020000000000]
  /\ map rq_count (vk_calls w') = [5].
Proof. by vm_compute. Qed.

(** Two posts of the same title get the slugs [base] and [base-1], a third
    one [base-2]. *)
Example slugs_of_equal_titles :
  let posts :=
    [sample_post 31 "Same title"; sample_post 32 "Same title";
     sample_post 33 "Same title"] in
  map slug (news (snd (alone (import_posts (H:=ascii_host) false posts
                                sample_integration 0) sample_db)))
  = [lit "same-title"; lit "same-title-1"; lit "same-title-2"].
Proof. by vm_compute. Qed.

(** A long line is cut before the last space of its first 150 characters. *)
Example title_cut_at_last_space :
  let word := repeat 97%N 49 ++ [ch_space] in
  let t := word ++ word ++ word ++ word in
  make_title_from_text (U:=ascii_db) t
  = word ++ word ++ repeat 97%N 49 ++ ellipsis.
Proof. by vm_compute. Qed.

(** The manual trigger on an empty table and on an integration in mode
    [off]. *)
Example fetch_now_rejections :
  let off_db :=
    snd (create_vk_integration (H:=ascii_host)
           {| c_group_id := lit "examplegroup"; c_access_token := lit "secret";
              c_mode := MODE_OFF; c_default_category_id := None;
              c_auto_publish := true; c_check_interval_minutes := 10;
              c_fetch_count := 5; c_hashtag_category_map := None |} empty_db) in
  let w0 := {| db := empty_db; vk_calls := [] |} in
  let w1 := {| db := off_db; vk_calls := [] |} in
  fetch_now (H:=ascii_host) (feed_of [post11]) true 1700020000000000 w0
  = (Raise (HTTPException 404 detail_not_configured), w0)
  /\ fetch_now (H:=ascii_host) (feed_of [post11]) true 1700020000000000 w1
     = (Raise (HTTPException 400 detail_switched_off), w1).
Proof. by vm_compute. Qed.

(** A hashtag in capitals against a key with a hash sign; no hashtag of the
    map; a category that is gone. *)
Example category_of_hashtags :
  let items := [(lit "#Results", 7); (lit "gone", 9)] in
  determine_category (H:=ascii_host) (lit "Cup #RESULTS") (Some items) (Some 3) empty_db
  = (Return (Some 7), empty_db)
  /\ determine_category (H:=ascii_host) (lit "Cup #other") (Some items) (Some 3) empty_db
     = (Return (Some 3), empty_db)
  /\ determine_category (H:=ascii_host) (lit "#gone #results") (Some items) None empty_db
     = (Return (Some 7), empty_db).
Proof. by vm_compute. Qed.

(** The publisher on three articles: one due, one scheduled for later, one
    published before. *)
Example publisher_scenario :
  let a (id : Z) (pub : bool) (at_ : option datetime) : News :=
    {| n_id := id; title := lit "t"; slug := decimalZ id; excerpt := [];
       content := []; featured_image := None; video_url := None;
       gallery := None; category_id := None; is_published := pub;
       is_featured := false; publish_date := if pub then Some 5 else None;
       created_at := Some 1; scheduled_publish_at := at_ |} in
  let d := set_news [a 1 false (Some 90); a 2 false (Some 150); a 3 true (Some 10)]
             empty_db in
  let d' := snd (scheduled_news_publisher_tick 100 d) in
  map is_published (news d') = [true; false; true]
  /\ map publish_date (news d') = [Some 100; None; Some 5].
Proof. by vm_compute. Qed.

(** * Further properties of the code *)

(** ** Text of an article *)

Section TextProperties.
Context {U : UnicodeDB}.

Lemma drop_while_head (p : char -> bool) (s : str) :
  match drop_while p s with
  | [] => True
  | c :: _ => p c = false
  end.
Proof.
  induction s as [|c s IH]; simpl; [done|].
  destruct (p c) eqn:E; [exact IH|done].
Qed.

Lemma drop_while_suffix (p : char -> bool) (s : str) :
  exists l, s = l ++ drop_while p s /\ Forall (fun c => p c = true) l.
Proof.
  induction s as [|c s (l & E & Hl)]; simpl.
  - by exists [].
  - destruct (p c) eqn:Ec.
    + exists (c :: l). split; [simpl; by f_equal|by constructor].
    + by exists [].
Qed.

Lemma drop_while_id (p : char -> bool) (s : str) :
  match s with [] => True | c :: _ => p c = false end ->
  drop_while p s = s.
Proof. destruct s as [|c s]; simpl; [done|]. by intros ->. Qed.

Lemma last_rev_head {A} (l : list A) (x d : A) :
  List.last (rev (x :: l)) d = x.
Proof. simpl. by rewrite last_last. Qed.

(** [str.strip]: the result has no white space at either end, stripping
    it again changes nothing, and it is the string without a run of white
    space before and a run of white space behind. *)
Lemma strip_trims (s : str) :
  trimmed (strip s)
  /\ strip (strip s) = strip s
  /\ exists l r,
       s = l ++ strip s ++ r
       /\ Forall (fun c => isspace c = true) l
       /\ Forall (fun c => isspace c = true) r.
Proof.
  unfold strip.
  destruct (drop_while_suffix isspace s) as (l & El & Hl).
  destruct (drop_while_suffix isspace (rev (drop_while isspace s))) as (r & Er & Hr).
  pose proof (drop_while_head isspace s) as Hh.
  pose proof (drop_while_head isspace (rev (drop_while isspace s))) as Ht.
  set (a := drop_while isspace s) in *.
  set (b := drop_while isspace (rev a)) in *.
  assert (Ea : a = rev b ++ rev r).
  { rewrite <- (rev_involutive a), Er. by rewrite rev_app_distr. }
  assert (Htrim : trimmed (rev b)).
  { unfold trimmed. destruct (rev b) as [|c t] eqn:Eb; [done|].
    split.
    - rewrite Ea in Hh. by simpl in Hh.
    - destruct b as [|x b']; [done|].
      rewrite <- Eb, last_rev_head. exact Ht. }
  split; [exact Htrim|]. split.
  - assert (E1 : drop_while isspace (rev b) = rev b).
    { apply drop_while_id. unfold trimmed in Htrim.
      destruct (rev b); [done|apply Htrim]. }
    rewrite E1, rev_involutive.
    rewrite (drop_while_id isspace b); [done|].
    destruct b; [done|exact Ht].
  - exists l, (rev r). split; [by rewrite <- Ea|]. split; [done|].
    apply Forall_forall. intros c Hc. rewrite Forall_forall in Hr.
    apply Hr. apply list_elem_of_In. apply list_elem_of_In in Hc. by apply in_rev.
Qed.

Lemma strip_prefix_app (p s s1 : str) :
  strip_prefix p s = Some s1 -> s = p ++ s1.
Proof.
  revert s. induction p as [|a p IH]; intros s; simpl.
  - by intros [= ->].
  - destruct s as [|b s]; [done|].
    destruct (N.eqb_spec a b) as [->|]; [|done].
    intros E. by rewrite (IH s E).
Qed.

(** A mention that matches is longer than its label and lies within the
    text; a text that does not start with a bracket matches none. *)
Lemma match_mention_consumes (kw s g : str) (n : nat) :
  match_mention kw s = Some (g, n) ->
  (length g <= n <= length s)%nat.
Proof.
  unfold match_mention.
  destruct (strip_prefix (ch_lbracket :: kw) s) as [s1|] eqn:Ep; [|done].
  apply strip_prefix_app in Ep.
  destruct (take_drop_while isdigit s1) as (E1 & _ & _).
  destruct (take_while isdigit s1) as [|d ds]; [done|].
  destruct (drop_while isdigit s1) as [|c s2]; [done|].
  destruct (c =? ch_bar)%N; [|done].
  destruct (take_drop_while (fun c => negb (c =? ch_rbracket)%N) s2) as (E2 & _ & _).
  destruct (take_while _ s2) as [|x label]; [done|].
  destruct (drop_while _ s2) as [|y rest]; [done|].
  intros [= <- <-]. subst s. rewrite E1, E2.
  simpl. rewrite ?length_app. simpl. rewrite ?length_app. simpl.
  rewrite ?length_app. simpl. lia.
Qed.

Lemma match_mention_bracket (kw : str) (c : char) (s : str) :
  c <> ch_lbracket -> match_mention kw (c :: s) = None.
Proof.
  intros Hc. unfold match_mention. cbn [strip_prefix].
  destruct (N.eqb_spec ch_lbracket c) as [E|_]; [|done].
  by symmetry in E.
Qed.

Lemma re_sub_from_shorter (m : matcher) (s : str) :
  (forall s' g n, m s' = Some (g, n) -> (length g <= n <= length s')%nat) ->
  forall skip,
    (length (re_sub_from m (fun g => g) skip s) + Nat.min skip (length s)
     <= length s)%nat.
Proof.
  intros Hm. induction s as [|c s IH]; intros skip; simpl; [lia|].
  destruct skip as [|k].
  - destruct (m (c :: s)) as [[g n]|] eqn:E.
    + specialize (Hm _ _ _ E). simpl in Hm. rewrite length_app.
      specialize (IH (Nat.pred n)). lia.
    + simpl. specialize (IH O). lia.
  - specialize (IH k). lia.
Qed.

Lemma re_sub_from_plain (m : matcher) (repl : str -> str) (s : str) :
  (forall c s', In c s -> m (c :: s') = None) ->
  re_sub_from m repl O s = s.
Proof.
  induction s as [|c s IH]; intros Hm; simpl; [done|].
  rewrite (Hm c s (or_introl eq_refl)). f_equal. apply IH.
  intros c' s' Hc. apply Hm. by right.
Qed.

(** X1. [clean_vk_text] gives a text without white space at either end
    and never a longer one; a text without an opening bracket is only
    stripped. *)
Theorem clean_vk_text_plain (t : str) :
  trimmed (clean_vk_text t)
  /\ (length (clean_vk_text t) <= length t)%nat
  /\ (~ In ch_lbracket t -> clean_vk_text t = strip t).
Proof.
  unfold clean_vk_text.
  split; [apply strip_trims|]. split.
  - set (t1 := re_sub (match_mention (lit "club")) (fun g => g) t).
    set (t2 := re_sub (match_mention (lit "id")) (fun g => g) t1).
    destruct (strip_trims t2) as (_ & _ & l & r & E & _).
    assert (H2 : (length (strip t2) <= length t2)%nat).
    { rewrite E at 2. rewrite !length_app. lia. }
    pose proof (re_sub_from_shorter (match_mention (lit "id")) t1
                  (match_mention_consumes (lit "id")) O) as H1.
    pose proof (re_sub_from_shorter (match_mention (lit "club")) t
                  (match_mention_consumes (lit "club")) O) as H0.
    fold (re_sub (match_mention (lit "id")) (fun g => g) t1) in H1.
    fold (re_sub (match_mention (lit "club")) (fun g => g) t) in H0.
    fold t1 in H0. fold t2 in H1. lia.
  - intros Hno.
    assert (Hplain : forall kw, re_sub (match_mention kw) (fun g => g) t = t).
    { intros kw. apply re_sub_from_plain. intros c s' Hc.
      apply match_mention_bracket. intros ->. by apply Hno. }
    by rewrite !Hplain.
Qed.

(** X2. The hashtags [extract_hashtags] finds are non-empty runs of word
    characters. *)
Theorem extract_hashtags_are_words (t : str) :
  Forall (fun tag => tag <> [] /\ Forall (fun c => isword c = true) tag)
    (extract_hashtags t).
Proof.
  unfold extract_hashtags, re_findall. generalize O.
  induction t as [|c t IH]; intros skip; simpl; [constructor|].
  destruct skip as [|k]; [|apply IH].
  destruct (c =? ch_hash)%N; [|apply IH].
  destruct (take_drop_while isword t) as (_ & Hw & _).
  destruct (take_while isword t) as [|x w] eqn:E; [apply IH|].
  constructor; [|apply IH]. split; [done|exact Hw].
Qed.

Lemma make_title_from_text_len_bound (t : str) (max_len : nat) :
  (length (make_title_from_text_len t max_len)
   <= Nat.max (max_len + 3) (length fallback_title))%nat.
Proof.
  unfold make_title_from_text_len.
  destruct (Nat.ltb_spec max_len (length (title_line t))) as [Hlong|Hshort].
  - assert (Hcut : forall k, truthy_str (k ++ ellipsis) = true)
      by (intros [|? ?]; done).
    rewrite Hcut, length_app.
    assert (Hk : (length (rsplit_space_head (firstn max_len (title_line t)))
                  <= max_len)%nat).
    { assert (Hf : (length (firstn max_len (title_line t)) <= max_len)%nat)
        by (rewrite length_firstn; lia).
      destruct (rsplit_space_head_spec (firstn max_len (title_line t)))
        as [[_ E]|(word & E & _)].
      - by rewrite E.
      - rewrite E, length_app in Hf. lia. }
    change (length ellipsis) with 3%nat. lia.
  - destruct (truthy_str (title_line t)); lia.
Qed.

(** X3. A title is never longer than its maximum and the three characters
    of the ellipsis, the fallback label apart: 153 characters for the
    maximum of 150 that [import_vk_post] uses. *)
Theorem make_title_length_bound (t : str) :
  (forall max_len,
      (length (make_title_from_text_len t max_len)
       <= Nat.max (max_len + 3) (length fallback_title))%nat)
  /\ (length (make_title_from_text t) <= 153)%nat.
Proof.
  split; [apply make_title_from_text_len_bound|].
  pose proof (make_title_from_text_len_bound t 150) as Hgen.
  unfold make_title_from_text.
  change (length fallback_title) with 14%nat in Hgen. lia.
Qed.

End TextProperties.

(** ** Slug resolver *)

Section SlugProperties.
Context {H : Host}.

Lemma ensure_unique_slug_loop_first_free (base : str) (fuel : nat) :
  forall (counter : N) (d d' : Database) (s' : str),
  slugs_unique d ->
  (1 <= counter)%N ->
  ensure_unique_slug_loop fuel base (probe base (counter - 1)) counter d
  = (Return s', d') ->
  exists k,
    (counter - 1 <= k < counter - 1 + N.of_nat fuel)%N
    /\ s' = probe base k
    /\ (s' ∉ map slug (news d))
    /\ forall j, (counter - 1 <= j < k)%N -> probe base j ∈ map slug (news d).
Proof.
  induction fuel as [|fuel IH]; intros counter d d' s' Hu Hc E; [discriminate|].
  cbn [ensure_unique_slug_loop] in E. unfold bind, get in E. cbv beta iota in E.
  destruct (news_with_slug_cases (probe base (counter - 1)) d Hu)
    as [[E0 Hfree]|[a [E0 Hin]]]; rewrite E0 in E;
    cbv beta iota delta [scalar_one_or_none ret raise] in E.
  - injection E as <- <-. exists (counter - 1)%N.
    split; [lia|]. split; [done|]. split; [done|]. intros; lia.
  - assert (Ep : base ++ lit "-" ++ decimal counter = probe base (counter + 1 - 1)).
    { unfold probe. replace (counter + 1 - 1)%N with counter by lia.
      destruct (N.eqb_spec counter 0); [lia|done]. }
    rewrite Ep in E.
    assert (Hc' : (1 <= counter + 1)%N) by lia.
    destruct (IH (counter + 1)%N d d' s' Hu Hc' E) as (k & Hk & Es & Hf & Hj).
    exists k. split; [lia|]. split; [done|]. split; [done|].
    intros j Hjk. destruct (N.eq_dec j (counter - 1)%N) as [->|Hne]; [done|].
    apply Hj. lia.
Qed.

(** X4. With unique slugs in the table, [ensure_unique_slug] returns the
    first free slug in the order [slug], [slug-1], [slug-2], ...: every
    earlier one is taken, the returned one is not, at most as many are
    passed over as the table has articles, and the database is only
    read. *)
Theorem ensure_unique_slug_first_free (s : str) (d : Database) :
  slugs_unique d ->
  exists k,
    (k <= N.of_nat (length (news d)))%N
    /\ ensure_unique_slug s d = (Return (probe s k), d)
    /\ (probe s k ∉ map slug (news d))
    /\ forall j, (j < k)%N -> probe s j ∈ map slug (news d).
Proof.
  intros Hu.
  destruct (ensure_unique_slug_returns s d Hu) as (s' & E & _).
  pose proof E as E'.
  change (ensure_unique_slug s d)
    with (ensure_unique_slug_loop (S (length (news d))) s (probe s (1 - 1)) 1%N d)
    in E'.
  assert (H1 : (1 <= 1)%N) by lia.
  destruct (ensure_unique_slug_loop_first_free s _ 1%N d d s' Hu H1 E')
    as (k & Hk & -> & Hfree & Hj).
  exists k. split; [lia|]. split; [exact E|]. split; [exact Hfree|].
  intros j Hjk. apply Hj. lia.
Qed.

End SlugProperties.

Lemma sample_slugs_unique : slugs_unique imported_db.
Proof. apply imported_db_ok. Defined.

Lemma ensure_unique_slug_first_free_witness :
  slugs_unique imported_db /\
  exists k,
    (k <= N.of_nat (length (news imported_db)))%N
    /\ ensure_unique_slug (lit "final--are-in") imported_db
       = (Return (probe (lit "final--are-in") k), imported_db).
Proof.
  split; [exact sample_slugs_unique|].
  destruct (ensure_unique_slug_first_free (lit "final--are-in") imported_db
              sample_slugs_unique) as (k & Hk & E & _).
  exists k. split; [exact Hk|exact E].
Defined.

(** ** Media *)

Lemma max_by_first_greatest {A} (key : A -> Z) (l : list A) :
  forall best,
  exists before after,
    best :: l = before ++ max_by key best l :: after
    /\ Forall (fun x => key x < key (max_by key best l)) before
    /\ Forall (fun x => key x <= key (max_by key best l)) after.
Proof.
  induction l as [|x l IH]; intros best; simpl.
  - exists [], []. split; [done|]. split; constructor.
  - destruct (IH (if key best <? key x then x else best))
      as (before & after & E & Hb & Ha).
    set (m := max_by key (if key best <? key x then x else best) l) in *.
    destruct (Z.ltb_spec (key best) (key x)) as [Hlt|Hge].
    + exists (best :: before), after. split; [by rewrite E|]. split; [|done].
      constructor; [|done].
      assert (Hx : key x <= key m).
      { destruct before as [|y before'].
        - injection E as <- _. lia.
        - injection E as <- _. apply Forall_cons in Hb as [Hb _]. lia. }
      lia.
    + destruct before as [|y before'].
      * injection E as Em El. exists [], (x :: l). rewrite <- Em.
        split; [done|]. split; [constructor|].
        constructor; [lia|]. by rewrite El, Em.
      * injection E as <- El. apply Forall_cons in Hb as [Hy Hb].
        exists (best :: x :: before'), after.
        split; [simpl; by rewrite El|]. split; [|done].
        constructor; [done|]. constructor; [lia|done].
Qed.

(** X5. The size picked for a photo or a thumbnail ([max] with the area as
    key): it is one of the sizes, none has a larger area, and every size
    before it has a smaller one. *)
Theorem best_size_is_first_largest (s : ImageSize) (sizes : list ImageSize) :
  exists before after,
    s :: sizes = before ++ max_by area s sizes :: after
    /\ Forall (fun x => img_width x * img_height x
                        < img_width (max_by area s sizes)
                          * img_height (max_by area s sizes)) before
    /\ Forall (fun x => img_width x * img_height x
                        <= img_width (max_by area s sizes)
                           * img_height (max_by area s sizes)) after.
Proof. apply (max_by_first_greatest area). Qed.

Section MediaProperties.
Context {H : Host}.

Lemma video_ext_url_truthy (v : Video) (u : str) :
  video_ext_url v = Some u -> truthy_str u = true.
Proof.
  unfold video_ext_url.
  destruct (truthy_opt truthy_str (player v)) eqn:Ep.
  - intros E. rewrite E in Ep. exact Ep.
  - destruct (video_owner_id v) as [o|]; [|done].
    destruct (video_id v) as [i|]; [|done].
    destruct (truthy_int o && truthy_int i); [|done].
    intros [= <-]. done.
Qed.

Lemma collect_photos (atts : list Attachment) :
  forallb (fun a => negb (is_video a)) atts = true ->
  forall m,
  fold_left media_step atts m
  = match photo_urls atts with
    | [] => m
    | u :: rest =>
        if truthy_opt truthy_str (m_featured_image m)
        then {| m_featured_image := m_featured_image m;
                m_gallery_images := m_gallery_images m ++ u :: rest;
                m_video_url := m_video_url m |}
        else {| m_featured_image := Some u;
                m_gallery_images := m_gallery_images m ++ rest;
                m_video_url := m_video_url m |}
    end.
Proof.
  induction atts as [|att atts IH]; intros Hnv m; [done|].
  simpl in Hnv. apply andb_true_iff in Hnv as [Hv Hnv].
  cbn [fold_left]. rewrite (IH Hnv).
  destruct att as [sizes|v|]; [| discriminate |done].
  unfold photo_urls at 2. cbn [flat_map]. fold (photo_urls atts).
  assert (Hstep : media_step m (AttPhoto sizes)
    = if truthy_str (best_url sizes)
      then if truthy_opt truthy_str (m_featured_image m)
           then {| m_featured_image := m_featured_image m;
                   m_gallery_images := m_gallery_images m ++ [best_url sizes];
                   m_video_url := m_video_url m |}
           else {| m_featured_image := Some (best_url sizes);
                   m_gallery_images := m_gallery_images m;
                   m_video_url := m_video_url m |}
      else m).
  { destruct sizes as [|s l]; [done|]. done. }
  rewrite Hstep.
  destruct (truthy_str (best_url sizes)) eqn:Eu; simpl.
  - destruct (truthy_opt truthy_str (m_featured_image m)) eqn:Ef; simpl.
    + rewrite Ef. destruct (photo_urls atts); simpl.
      * done.
      * by rewrite <- app_assoc.
    + rewrite Eu. destruct (photo_urls atts); [|done].
      by rewrite app_nil_r; destruct m.
  - done.
Qed.

(** X6. Photos of a post without a video: the first usable photo URL (the
    best size of a photo, when it has a non-empty URL) is the featured
    image and the following ones are the gallery, in the order of the
    attachments; without a usable photo there is neither. *)
Theorem photos_fill_featured_then_gallery (atts : list Attachment) :
  forallb (fun a => negb (is_video a)) atts = true ->
  m_video_url (collect_media atts) = None
  /\ match photo_urls atts with
     | [] =>
         m_featured_image (collect_media atts) = None
         /\ m_gallery_images (collect_media atts) = []
     | u :: rest =>
         m_featured_image (collect_media atts) = Some u
         /\ m_gallery_images (collect_media atts) = rest
     end.
Proof.
  intros Hnv. unfold collect_media. rewrite (collect_photos atts Hnv).
  destruct (photo_urls atts); simpl; done.
Qed.

Lemma photos_fill_featured_then_gallery_witness :
  m_video_url (collect_media sample_photos) = None
  /\ m_featured_image (collect_media sample_photos) = Some (lit "a.jpg")
  /\ m_gallery_images (collect_media sample_photos) = [lit "b.jpg"].
Proof.
  pose proof (photos_fill_featured_then_gallery sample_photos eq_refl) as [Hv Hp].
  split; [exact Hv|]. exact Hp.
Defined.

Lemma collect_video_url (atts : list Attachment) :
  forall m,
  m_video_url (fold_left media_step atts m)
  = if truthy_opt truthy_str (m_video_url m) then m_video_url m
    else match video_urls atts with
         | u :: _ => Some u
         | [] => match atts with
                 | [] => m_video_url m
                 | _ => if existsb is_video atts then None else m_video_url m
                 end
         end.
Proof.
  induction atts as [|att atts IH]; intros m.
  - simpl. by destruct (truthy_opt truthy_str (m_video_url m)).
  - cbn [fold_left]. rewrite IH.
    destruct att as [sizes|v|].
    + assert (Ev : m_video_url (media_step m (AttPhoto sizes)) = m_video_url m).
      { destruct sizes as [|s l]; [done|]. simpl.
        destruct (truthy_str _); [|done].
        by destruct (truthy_opt truthy_str (m_featured_image m)). }
      rewrite Ev. unfold video_urls. cbn [flat_map app existsb is_video orb].
      fold (video_urls atts).
      destruct (truthy_opt truthy_str (m_video_url m)); [done|].
      destruct (video_urls atts); [|done].
      destruct atts; [done|]. done.
    + cbn [media_step].
      destruct (truthy_opt truthy_str (m_video_url m)) eqn:Em.
      * by rewrite Em.
      * cbn [m_video_url]. unfold video_urls. cbn [flat_map].
        fold (video_urls atts).
        destruct (video_ext_url v) as [u|] eqn:Eu.
        -- cbn [truthy_opt]. by rewrite (video_ext_url_truthy v u Eu).
        -- cbn [truthy_opt app existsb is_video orb].
           destruct (video_urls atts); [|done].
           destruct atts; [done|]. by destruct (existsb is_video _).
    + cbn [media_step]. unfold video_urls. cbn [flat_map app existsb is_video orb].
      fold (video_urls atts).
      destruct (truthy_opt truthy_str (m_video_url m)); [done|].
      destruct (video_urls atts); [|done].
      destruct atts; [done|]. done.
Qed.

(** X7. The video of a post is the first of its videos that has a URL (a
    player URL, or an owner and a video id to build one from): videos
    without one are passed over, later ones with one are ignored. *)
Theorem first_video_with_url_wins (atts : list Attachment) :
  m_video_url (collect_media atts)
  = match video_urls atts with
    | u :: _ => Some u
    | [] => None
    end.
Proof.
  unfold collect_media. rewrite collect_video_url. simpl.
  destruct (video_urls atts); [|done].
  destruct atts; [done|]. by destruct (existsb is_video _).
Qed.

End MediaProperties.

(** ** Import of a post and of a batch *)

Section BatchProperties.
Context {H : Host}.

Lemma check_ledger_frame (p : Post) (i : VKIntegration) (d d1 : Database)
    (r : outcome bool) :
  check_ledger_at_once p i d = (r, d1) ->
  news d1 = news d /\ news_seq d1 = news_seq d
  /\ vk_integrations d1 = vk_integrations d
  /\ news_categories d1 = news_categories d.
Proof.
  unfold check_ledger_at_once. run.
  destruct (ledger_rows (post_id p) (vi_id i) d) as [|x [|y l]]; simpl;
    try (intros [= <- <-]; repeat split; reflexivity).
  destruct (news_id x) as [n|]; simpl.
  - destruct (truthy_int n); simpl.
    + unfold get_news. run.
      destruct (find_news n d); intros [= <- <-]; repeat split; reflexivity.
    + intros [= <- <-]; repeat split; reflexivity.
  - intros [= <- <-]; repeat split; reflexivity.
Qed.

Lemma make_title_nonempty (t : str) : make_title_from_text t <> [].
Proof.
  unfold make_title_from_text, make_title_from_text_len.
  destruct (150 <? length (title_line t))%nat.
  - destruct (rsplit_space_head _); done.
  - by destruct (title_line t).
Qed.

(** What [import_vk_post_at_once] returns, when it returns an article. *)
Lemma import_vk_post_article (p : Post) (i : VKIntegration) (d d' : Database)
    (a : News) :
  import_vk_post_at_once p i d = (Return (Some a), d') ->
  truthy_str (text p) = true
  /\ exists c s,
       a = news_of_post p i c (make_title_from_text (text p)) s (news_seq d)
       /\ (s ∉ map slug (news d))
       /\ news d' = news d ++ [a]
       /\ exists r, In r (vk_imported_posts d') /\ news_id r = Some (n_id a)
                    /\ vk_post_id r = post_id p
                    /\ vk_integration_id r = vi_id i.
Proof.
  unfold import_vk_post_at_once.
  destruct (truthy_str (text p)) eqn:Ht; simpl; [|by intros [=]].
  unfold bind at 1.
  destruct (check_ledger_at_once p i d) as [[b|e] d1] eqn:Ec; [|by intros [=]].
  destruct (check_ledger_frame p i d d1 _ Ec) as (Hn & Hs & _).
  destruct b; [by intros [=]|].
  destruct (determine_category_reads (text p) (hashtag_category_map i)
              (default_category_id i) d1) as [c Ecat].
  unfold bind at 1. rewrite Ecat.
  match goal with
  | |- context [ensure_unique_slug ?s] =>
      destruct (ensure_unique_slug_ends s d1) as (r & Es & Hr)
  end.
  unfold bind at 1. rewrite Es.
  destruct Hr as [(s' & -> & Hfree)|[-> _]]; [|by intros [=]].
  unfold bind, add_news, insert_imported, ret. simpl.
  intros [= <- <-]. split; [done|].
  exists c, s'. rewrite <- Hs, <- Hn. split; [done|]. split; [done|].
  split; [done|]. simpl.
  eexists. split; [apply in_app_iff; right; by left|]. done.
Qed.

(** The shape of the article, with the ledger row written at once. *)
Lemma imported_article_shape_at_once (p : Post) (i : VKIntegration) (d d' : Database)
    (a : News) :
  import_vk_post_at_once p i d = (Return (Some a), d') ->
  title a = make_title_from_text (text p)
  /\ title a <> [] /\ (length (title a) <= 153)%nat
  /\ excerpt a = firstn 300 (clean_vk_text (text p))
  /\ ~ In ch_newline (content a)
  /\ n_id a = news_seq d
  /\ (slug a ∉ map slug (news d))
  /\ is_published a = auto_publish i
  /\ is_featured a = auto_publish i
  /\ publish_date a
     = (if auto_publish i then Some ((date p + 3 * 3600) * 1000000) else None)
  /\ created_at a = Some ((date p + 3 * 3600) * 1000000)
  /\ (forall now, due now a = false)
  /\ news d' = news d ++ [a]
  /\ exists r, In r (vk_imported_posts d') /\ news_id r = Some (n_id a)
               /\ vk_post_id r = post_id p /\ vk_integration_id r = vi_id i.
Proof.
  intros E.
  destruct (import_vk_post_article p i d d' a E) as (Ht & c & s & -> & Hs & Hn & Hr).
  simpl. split; [done|]. split; [apply make_title_nonempty|].
  split.
  { pose proof (make_title_from_text_len_bound (text p) 150) as Hb.
    unfold make_title_from_text.
    change (length fallback_title) with 14%nat in Hb. lia. }
  split.
  { destruct (Nat.ltb_spec 300 (length (clean_vk_text (text p)))); [done|].
    symmetry. apply firstn_all2. lia. }
  split.
  { unfold replace_char. intros Hin. apply in_flat_map in Hin as (x & _ & Hx).
    destruct (N.eqb_spec x ch_newline) as [Heq|Hne].
    - vm_compute in Hx. intuition discriminate.
    - destruct Hx as [Hx|[]]. by symmetry in Hx. }
  split; [done|]. split; [done|]. split; [done|]. split; [done|].
  split; [done|]. split; [done|].
  split.
  { intros now. unfold due. simpl. by rewrite andb_false_r. }
  split; [exact Hn|exact Hr].
Qed.

(** X8. The article [import_vk_post] makes of a post, in a session that
    autoflushes or not.  Its title is the one
    derived from the text, not empty and of at most 153 characters; its
    excerpt is the first 300 characters of the cleaned text; its body has
    no newline left; its key is the next of the sequence and its slug is
    no slug of an article that was there; it is published and featured
    exactly when the integration publishes automatically, and then dated
    with the post's time at UTC+3; it has no scheduled time, so it is
    never due for the scheduled publisher; and the ledger has a row of the
    post that names it. *)
Theorem imported_article_shape (autoflush : bool) (p : Post) (i : VKIntegration)
    (d d' : Database) (a : News) :
  alone (import_vk_post autoflush p i) d = (Return (Some a), d') ->
  title a = make_title_from_text (text p)
  /\ title a <> [] /\ (length (title a) <= 153)%nat
  /\ excerpt a = firstn 300 (clean_vk_text (text p))
  /\ ~ In ch_newline (content a)
  /\ n_id a = news_seq d
  /\ (slug a ∉ map slug (news d))
  /\ is_published a = auto_publish i
  /\ is_featured a = auto_publish i
  /\ publish_date a
     = (if auto_publish i then Some ((date p + 3 * 3600) * 1000000) else None)
  /\ created_at a = Some ((date p + 3 * 3600) * 1000000)
  /\ (forall now, due now a = false)
  /\ news d' = news d ++ [a]
  /\ exists r, In r (vk_imported_posts d') /\ news_id r = Some (n_id a)
               /\ vk_post_id r = post_id p /\ vk_integration_id r = vi_id i.
Proof.
  rewrite alone_import_vk_post. apply imported_article_shape_at_once.
Qed.

Lemma import_vk_post_effect (p : Post) (i : VKIntegration) (d : Database) :
  db_ok d ->
  exists r d',
    import_vk_post_at_once p i d = (Return r, d')
    /\ db_ok d'
    /\ vk_integrations d' = vk_integrations d
    /\ news_categories d' = news_categories d
    /\ news d' = news d ++ match r with Some a => [a] | None => [] end
    /\ (length (vk_imported_posts d')
        <= length (vk_imported_posts d) + match r with Some _ => 1 | None => 0 end)%nat.
Proof.
  intros Hok.
  destruct (import_vk_post_returns p i d Hok) as (r & d' & E & Hok' & Hi).
  exists r, d'. split; [exact E|]. split; [exact Hok'|]. split; [exact Hi|].
  destruct r as [a|].
  - destruct (import_vk_post_article p i d d' a E) as (Ht & c & s & _ & _ & Hn & _).
    split; [|split; [exact Hn|]].
    + revert E. unfold import_vk_post_at_once. rewrite Ht. simpl. unfold bind at 1.
      destruct (check_ledger_at_once p i d) as [[b|e] d1] eqn:Ec; [|by intros [=]].
      destruct (check_ledger_frame p i d d1 _ Ec) as (_ & _ & _ & Hc).
      destruct b; [by intros [=]|].
      destruct (determine_category_reads (text p) (hashtag_category_map i)
                  (default_category_id i) d1) as [c' Ecat].
      unfold bind at 1. rewrite Ecat.
      match goal with
      | |- context [ensure_unique_slug ?s0] =>
          destruct (ensure_unique_slug_ends s0 d1) as (r & Es & Hr)
      end.
      unfold bind at 1. rewrite Es.
      destruct r as [s'|e]; [|by intros [=]].
      unfold bind, add_news, insert_imported, ret. simpl. by intros [= _ <-].
    + revert E. unfold import_vk_post_at_once. rewrite Ht. simpl. unfold bind at 1.
      assert (Hlen : forall d1 b, check_ledger_at_once p i d = (Return b, d1) ->
                (length (vk_imported_posts d1) <= length (vk_imported_posts d))%nat).
      { intros d1 b. unfold check_ledger_at_once. run.
        destruct (ledger_rows (post_id p) (vi_id i) d) as [|x [|y l]]; simpl;
          [intros [= <- <-]; lia| |intros [=]].
        assert (Hf : (length (List.filter (fun x0 => negb (ip_id x0 =? ip_id x)%Z)
                                (vk_imported_posts d))
                      <= length (vk_imported_posts d))%nat) by apply List.filter_length_le.
        destruct (news_id x) as [n|]; simpl.
        - destruct (truthy_int n); simpl.
          + unfold get_news. run.
            destruct (find_news n d); intros [= <- <-]; simpl; lia.
          + intros [= <- <-]; simpl; lia.
        - intros [= <- <-]; simpl; lia. }
      destruct (check_ledger_at_once p i d) as [[b|e] d1] eqn:Ec; [|by intros [=]].
      specialize (Hlen d1 b eq_refl).
      destruct b; [by intros [=]|].
      destruct (determine_category_reads (text p) (hashtag_category_map i)
                  (default_category_id i) d1) as [c' Ecat].
      unfold bind at 1. rewrite Ecat.
      match goal with
      | |- context [ensure_unique_slug ?s0] =>
          destruct (ensure_unique_slug_ends s0 d1) as (r & Es & Hr)
      end.
      unfold bind at 1. rewrite Es.
      destruct r as [s'|e]; [|by intros [=]].
      unfold bind, add_news, insert_imported, ret. simpl. intros [= _ <-]. simpl.
      rewrite length_app. simpl. lia.
  - assert (Ed : d' = d).
    { revert E. unfold import_vk_post_at_once.
      destruct (truthy_str (text p)) eqn:Ht; simpl; [|by intros [= <-]].
      pose proof Hok as (Hs & Hl & Hk).
      destruct (ledger_rows_cases (post_id p) (vi_id i) d Hl) as [E0|[x E0]].
      - destruct (import_vk_post_stores p i d d Ht (check_ledger_fresh p i d E0) Hs)
          as (a & Ei & _). unfold import_vk_post_at_once in Ei. rewrite Ht in Ei.
        simpl in Ei. rewrite Ei. by intros [=].
      - destruct (linked_article x d) as [a|] eqn:El.
        + unfold bind. rewrite (check_ledger_linked p i d x a Hk E0 El).
          by intros [= <-].
        + pose proof (purge_ok x d Hok) as (Hs' & _).
          destruct (import_vk_post_stores p i d (purge x d) Ht
                      (check_ledger_stale p i d x E0 El) Hs') as (a & Ei & _).
          unfold import_vk_post_at_once in Ei. rewrite Ht in Ei. simpl in Ei.
          rewrite Ei. by intros [=]. }
    subst d'. split; [done|]. split; [by rewrite app_nil_r|lia].
Qed.

(** The effect of a batch, with the ledger rows written at once. *)
Lemma import_posts_effect_at_once (posts : list Post) (i : VKIntegration) (k : Z)
    (d : Database) :
  db_ok d ->
  exists n d' added,
    import_posts_at_once posts i k d = (Return n, d')
    /\ db_ok d'
    /\ vk_integrations d' = vk_integrations d
    /\ news_categories d' = news_categories d
    /\ news d' = news d ++ added
    /\ n = k + Z.of_nat (length added)
    /\ (length added <= length posts)%nat
    /\ (length (vk_imported_posts d')
        <= length (vk_imported_posts d) + length added)%nat.
Proof.
  revert k d. induction posts as [|p posts IH]; intros k d Hok.
  - exists k, d, []. rewrite app_nil_r. simpl.
    do 5 (split; [done|]). split; [lia|]. split; lia.
  - cbn [import_posts_at_once].
    destruct (truthy_opt truthy_int (marked_as_ads p)).
    + destruct (IH k d Hok) as (n & d' & added & E & H1 & H2 & H3 & H4 & H5 & H6 & H7).
      exists n, d', added. do 6 (split; [done|]). split; [simpl; lia|done].
    + destruct (import_vk_post_effect p i d Hok)
        as (r & d1 & E1 & Hok1 & Hi1 & Hc1 & Hn1 & Hl1).
      unfold bind. rewrite E1.
      destruct (IH (match r with Some _ => k + 1 | None => k end) d1 Hok1)
        as (n & d' & added & E & H1 & H2 & H3 & H4 & H5 & H6 & H7).
      exists n, d', (match r with Some a => [a] | None => [] end ++ added).
      split; [exact E|]. split; [done|]. split; [congruence|].
      split; [congruence|].
      split; [by rewrite H4, Hn1, <- app_assoc|].
      rewrite length_app.
      destruct r; simpl in *; (split; [lia|]); (split; lia).
Qed.


End BatchProperties.

Lemma imported_article_shape_witness :
  exists a d',
    alone (import_vk_post (H:=ascii_host) false post11 sample_integration) sample_db
    = (Return (Some a), d')
    /\ title a = make_title_from_text (U:=ascii_db) (text post11)
    /\ n_id a = news_seq sample_db
    /\ is_published a = auto_publish sample_integration.
Proof.
  destruct (alone (import_vk_post (H:=ascii_host) false post11 sample_integration)
              sample_db)
    as [[[a|]|e] d'] eqn:E; try (vm_compute in E; discriminate).
  exists a, d'.
  destruct (imported_article_shape (H:=ascii_host) false post11 sample_integration
              sample_db d' a E) as (H1 & _ & _ & _ & _ & H6 & _ & H8 & _).
  split; [reflexivity|]. split; [exact H1|]. split; [exact H6|exact H8].
Defined.

Lemma sample_pair_ok : batch_ok false [ad_post; post11] sample_db.
Proof.
  right. split; apply (bool_decide_unpack _); vm_compute; exact I.
Defined.


(** ** A batch fetched again *)

Lemma map_key_member_eq {A K} (f : A -> K) (l : list A) (x y : A) :
  NoDup (map f l) -> In x l -> In y l -> f x = f y -> x = y.
Proof.
  induction l as [|z l IH]; simpl; [done|].
  intros Hnd Hx Hy E. apply NoDup_cons in Hnd as [Hz Hnd].
  destruct Hx as [->|Hx], Hy as [->|Hy]; auto.
  - exfalso. apply Hz. rewrite E. apply list_elem_of_In, in_map, Hy.
  - exfalso. apply Hz. rewrite <- E. apply list_elem_of_In, in_map, Hx.
Qed.

Lemma find_news_stored (n : Z) (a x : News) (r : VKImportedPost) (d : Database) :
  find_news n d = Some x -> find_news n (stored a r d) = Some x.
Proof.
  unfold find_news. simpl. induction (news d) as [|y l IH]; simpl; [done|].
  destruct (n_id y =? n); [done|exact IH].
Qed.

Lemma ledger_ids_purge (r : VKImportedPost) (d : Database) :
  ledger_ids_ok d -> ledger_ids_ok (purge r d).
Proof.
  intros [Hnd Hlt]. unfold ledger_ids_ok, purge. simpl. split.
  - eapply sublist_NoDup; [exact Hnd|].
    generalize (vk_imported_posts d). intros l.
    induction l as [|x l IH]; simpl; [constructor|].
    destruct (negb _); simpl; by constructor.
  - rewrite Forall_forall in Hlt. apply Forall_forall. intros x Hx.
    apply Hlt. apply list_elem_of_In. apply list_elem_of_In in Hx.
    by apply filter_In in Hx as [Hx _].
Qed.

Lemma ledger_ids_stored (a : News) (r : VKImportedPost) (d : Database) :
  ledger_ids_ok d ->
  ip_id r = vk_imported_posts_seq d ->
  ledger_ids_ok (stored a r d).
Proof.
  intros [Hnd Hlt] Hid. unfold ledger_ids_ok, stored. simpl. split.
  - rewrite map_app. simpl. apply NoDup_app. split; [done|].
    split; [|apply NoDup_singleton].
    intros x Hx Hy. apply list_elem_of_singleton in Hy. subst x.
    apply list_elem_of_In, in_map_iff in Hx as (y & Hy1 & Hy2).
    rewrite Forall_forall in Hlt. apply list_elem_of_In, Hlt in Hy2. lia.
  - apply Forall_app. split.
    + eapply Forall_impl; [exact Hlt|]. simpl. intros; lia.
    + apply Forall_singleton. lia.
Qed.

Section Reimport.
Context {H : Host}.

(** The ways of [import_vk_post_at_once] under the keys of the schema. *)
Lemma import_vk_post_cases (p : Post) (i : VKIntegration) (d : Database) :
  db_ok d ->
  (import_vk_post_at_once p i d = (Return None, d)
   /\ (truthy_str (text p) = false
       \/ exists r a, ledger_rows (post_id p) (vi_id i) d = [r]
                      /\ linked_article r d = Some a))
  \/ (exists a d1,
        import_vk_post_at_once p i d
        = (Return (Some a), stored a (ledger_row p i a (vk_imported_posts_seq d1)) d1)
        /\ truthy_str (text p) = true
        /\ n_id a = news_seq d1
        /\ (slug a ∉ map slug (news d1))
        /\ db_ok d1
        /\ ledger_rows (post_id p) (vi_id i) d1 = []
        /\ ((d1 = d /\ ledger_rows (post_id p) (vi_id i) d = [])
            \/ exists r, d1 = purge r d
                         /\ ledger_rows (post_id p) (vi_id i) d = [r]
                         /\ linked_article r d = None)).
Proof.
  intros Hok. pose proof Hok as (Hs & Hl & Hk).
  destruct (truthy_str (text p)) eqn:Ht.
  2:{ left. split; [|by left]. unfold import_vk_post_at_once. by rewrite Ht. }
  destruct (ledger_rows_cases (post_id p) (vi_id i) d Hl) as [E|[r E]].
  - right.
    destruct (import_vk_post_stores p i d d Ht (check_ledger_fresh p i d E) Hs)
      as (a & Ei & Hn & Hfree & _).
    exists a, d. do 6 (split; [done|]). by left.
  - destruct (linked_article r d) as [a|] eqn:El.
    + left. split; [|right; by exists r, a].
      unfold import_vk_post_at_once. rewrite Ht. simpl. unfold bind.
      by rewrite (check_ledger_linked p i d r a Hk E El).
    + right. pose proof (purge_ok r d Hok) as Hok'.
      destruct (import_vk_post_stores p i d (purge r d) Ht
                  (check_ledger_stale p i d r E El) (proj1 Hok'))
        as (a & Ei & Hn & Hfree & _).
      exists a, (purge r d). do 5 (split; [done|]).
      split; [by apply purge_rows|]. right. by exists r.
Qed.

Lemma import_vk_post_settles (p q : Post) (i : VKIntegration) (d d' : Database)
    (res : option News) :
  db_ok d -> ledger_ids_ok d ->
  import_vk_post_at_once p i d = (Return res, d') ->
  db_ok d' /\ ledger_ids_ok d'
  /\ (truthy_opt truthy_int (marked_as_ads p) = false -> settled p i d')
  /\ (settled q i d -> settled q i d').
Proof.
  intros Hok Hids E.
  destruct (import_vk_post_cases p i d Hok)
    as [[E0 Hwhy]|(a & d1 & E1 & Ht & Hn & Hfree & Hok1 & Hr1 & Hd1)].
  - rewrite E0 in E. injection E as <- <-. do 2 (split; [done|]). split; [|done].
    intros Had. destruct Hwhy as [Hempty|Hlinked].
    + left. unfold passed_over. by rewrite Hempty.
    + by right.
  - rewrite E1 in E. injection E as <- <-.
    set (row := ledger_row p i a (vk_imported_posts_seq d1)) in *.
    assert (Hids1 : ledger_ids_ok d1).
    { destruct Hd1 as [[-> _]|(r & -> & _)]; [done|by apply ledger_ids_purge]. }
    split; [apply stored_ok; auto|]. split; [by apply ledger_ids_stored|].
    split.
    + intros _. right. exists row, a. split; [by apply stored_rows|].
      apply stored_linked; [apply Hok1|done|done].
    + intros [Hskip|(rq & aq & Erq & Elq)]; [by left|]. right.
      exists rq, aq.
      assert (Erq1 : ledger_rows (post_id q) (vi_id i) d1 = [rq]
                     /\ linked_article rq d1 = Some aq).
      { destruct Hd1 as [[-> _]|(r & -> & Er & El)]; [done|]. split; [|done].
        unfold ledger_rows, purge in *. simpl.
        assert (Hne : (ip_id rq =? ip_id r) = false).
        { apply Z.eqb_neq. intros Heq.
          assert (Hrq : In rq (vk_imported_posts d)).
          { assert (Hin : In rq [rq]) by (by left). rewrite <- Erq in Hin.
            by apply filter_In in Hin as [Hin _]. }
          assert (Hr : In r (vk_imported_posts d)).
          { assert (Hin : In r [r]) by (by left). rewrite <- Er in Hin.
            by apply filter_In in Hin as [Hin _]. }
          assert (rq = r)
            by (apply (map_key_member_eq ip_id (vk_imported_posts d));
                [apply Hids|done|done|done]).
          subst rq. congruence. }
        revert Erq. generalize (vk_imported_posts d). intros l.
        induction l as [|x l IH]; simpl; [done|].
        destruct ((vk_post_id x =? post_id q) && (vk_integration_id x =? vi_id i))
          eqn:Ek.
        - intros [= -> El0]. rewrite Hne. simpl. rewrite Ek. f_equal.
          clear IH. induction l as [|y l IH]; simpl in *; [done|].
          destruct ((vk_post_id y =? post_id q) && (vk_integration_id y =? vi_id i))
            eqn:Eky; [discriminate|].
          destruct (negb (ip_id y =? ip_id r)); simpl; [rewrite Eky|]; by apply IH.
        - intros El0. destruct (negb (ip_id x =? ip_id r)); simpl;
            [rewrite Ek|]; by apply IH. }
      destruct Erq1 as [Erq1 Elq1]. split.
      * unfold ledger_rows in *. simpl. rewrite List.filter_app, Erq1. simpl.
        destruct (Z.eqb_spec (post_id p) (post_id q)) as [Epq|_]; [|done].
        rewrite Z.eqb_refl. simpl. exfalso.
        rewrite Epq in Hr1. by rewrite Hr1 in Erq1.
      * unfold linked_article in *. destruct (news_id rq) as [n|]; [|done].
        by apply find_news_stored.
Qed.

Lemma import_posts_settles (posts : list Post) (i : VKIntegration) :
  forall (k : Z) (d : Database),
  db_ok d -> ledger_ids_ok d ->
  exists n d1,
    import_posts_at_once posts i k d = (Return n, d1)
    /\ db_ok d1 /\ ledger_ids_ok d1
    /\ Forall (fun q => settled q i d1) posts
    /\ (forall q, settled q i d -> settled q i d1).
Proof.
  induction posts as [|p posts IH]; intros k d Hok Hids.
  - exists k, d. do 3 (split; [done|]). split; [constructor|done].
  - cbn [import_posts_at_once].
    destruct (truthy_opt truthy_int (marked_as_ads p)) eqn:Had.
    + destruct (IH k d Hok Hids) as (n & d1 & E & Hok1 & Hids1 & Hall & Hkeep).
      exists n, d1. do 3 (split; [done|]). split; [|done].
      constructor; [|done]. left. unfold passed_over. rewrite Had.
      by rewrite orb_true_r.
    + destruct (import_vk_post_returns p i d Hok) as (r & d0 & E0 & _).
      destruct (import_vk_post_settles p p i d d0 r Hok Hids E0)
        as (Hok0 & Hids0 & Hp & _).
      unfold bind. rewrite E0.
      destruct (IH (match r with Some _ => k + 1 | None => k end) d0 Hok0 Hids0)
        as (n & d1 & E & Hok1 & Hids1 & Hall & Hkeep).
      exists n, d1. do 3 (split; [done|]). split.
      * constructor; [|done]. apply Hkeep, Hp. done.
      * intros q Hq. apply Hkeep.
        destruct (import_vk_post_settles p q i d d0 r Hok Hids E0)
          as (_ & _ & _ & Hq'). by apply Hq'.
Qed.

Lemma import_posts_settled (posts : list Post) (i : VKIntegration) (k : Z)
    (d : Database) :
  news_keys_ok d ->
  Forall (fun q => settled q i d) posts ->
  import_posts_at_once posts i k d = (Return k, d).
Proof.
  intros Hk Hall. induction Hall as [|q posts Hq _ IH]; [done|].
  cbn [import_posts_at_once].
  destruct (truthy_opt truthy_int (marked_as_ads q)) eqn:Had; [exact IH|].
  assert (E : import_vk_post_at_once q i d = (Return None, d)).
  { unfold import_vk_post_at_once.
    destruct (truthy_str (text q)) eqn:Ht; simpl; [|done].
    destruct Hq as [Hskip|(r & a & Er & El)].
    - unfold passed_over in Hskip. by rewrite Ht, Had in Hskip.
    - unfold bind. by rewrite (check_ledger_linked q i d r a Hk Er El). }
  unfold bind. rewrite E. exact IH.
Qed.


End Reimport.

Lemma stale_db_ids_ok : ledger_ids_ok stale_db.
Proof. apply (bool_decide_unpack _). vm_compute. exact I. Defined.


(** ** The two fetch paths *)

Lemma same_settings_refl (x : VKIntegration) : same_settings x x.
Proof. by repeat split. Qed.

Lemma same_settings_trans (x y z : VKIntegration) :
  same_settings x y -> same_settings y z -> same_settings x z.
Proof.
  unfold same_settings. intros (?&?&?&?&?&?&?&?&?&?) (?&?&?&?&?&?&?&?&?&?). repeat split; congruence.
Qed.

Lemma same_settings_rows_refl (l : list VKIntegration) : Forall2 same_settings l l.
Proof. induction l; constructor; [apply same_settings_refl|done]. Qed.

Lemma same_settings_rows_trans (l1 l2 l3 : list VKIntegration) :
  Forall2 same_settings l1 l2 -> Forall2 same_settings l2 l3 ->
  Forall2 same_settings l1 l3.
Proof.
  intros H12. revert l3. induction H12 as [|x y l1 l2 Hxy _ IH]; intros l3 H23.
  - inversion H23. constructor.
  - inversion H23 as [|y' z l2' l3' Hyz Hrest]; subst.
    constructor; [by apply (same_settings_trans x y z)|by apply IH].
Qed.

Lemma filter_auto_one (i : VKIntegration) :
  mode i = MODE_AUTO ->
  List.filter (fun x => str_eqb (mode x) MODE_AUTO) [i] = [i].
Proof. intros Hm. simpl. apply str_eqb_eq in Hm. by rewrite Hm. Qed.

Section FetchProperties.
Context {H : Host}.
Variable wall_get : VKRequest -> option VKData.
Variables autoflush expire_on_commit : bool.

(** The turn of an integration changes nothing of a configuration but the
    checkpoint. *)
Lemma vk_fetch_integration_rows (now : datetime) (i : VKIntegration)
    (st : SessionStatus) (w : World) :
  Forall2 same_settings (vk_integrations (db w))
    (vk_integrations
       (db (snd (vk_fetch_integration wall_get autoflush expire_on_commit now i
                   st w)))).
Proof.
  destruct st; try (rewrite vk_fetch_integration_expired; apply same_settings_rows_refl).
  all: match goal with
       | |- context [vk_fetch_integration _ _ _ _ _ ?st _] =>
           destruct (vk_fetch_integration_outcome wall_get autoflush expire_on_commit
                       now i st w) as (st' & w' & E & Hout); [done|]
       end.
  all: rewrite E; cbn [snd].
  all: destruct Hout as [(_ & -> & _)|(_ & _ & Hdb)];
         [apply same_settings_rows_refl|].
  all: destruct (wall_get (request_of i)) as [[msg|posts]|];
         try (destruct Hdb as [-> _]; apply same_settings_rows_refl).
  all: destruct (alone (import_posts autoflush posts i 0) (db w))
         as [[n|e] d'] eqn:Ei;
         [|destruct Hdb as [-> _]; apply same_settings_rows_refl].
  all: destruct Hdb as [-> _];
       cbn [checkpointed set_vk_integrations vk_integrations];
       rewrite (alone_import_posts_frame _ _ _ _ _ _ _ Ei);
       eapply Forall2_impl; [apply checkpointed_rows_of|];
       intros x y [Hxy _]; exact Hxy.
Qed.

Lemma fetch_integrations_outcome (clock : VKIntegration -> datetime)
    (l : list VKIntegration) :
  forall (st : SessionStatus) (w : World),
  exists r w' served,
    fetch_integrations wall_get autoflush expire_on_commit clock l st w = (r, w')
    /\ vk_calls w' = vk_calls w ++ map request_of served
    /\ sublist served l
    /\ Forall2 same_settings (vk_integrations (db w)) (vk_integrations (db w')).
Proof.
  induction l as [|i l IH]; intros st w.
  - exists (Return tt), w, []. split; [done|]. split; [by rewrite app_nil_r|].
    split; [constructor|apply same_settings_rows_refl].
  - cbn [fetch_integrations]. unfold bind.
    pose proof (vk_fetch_integration_rows (clock i) i st w) as Hrows.
    destruct st.
    3:{ rewrite vk_fetch_integration_expired.
        exists (Raise MissingGreenlet), w, []. split; [done|].
        split; [by rewrite app_nil_r|].
        split; [apply sublist_nil_l|apply same_settings_rows_refl]. }
    all: match goal with
         | |- context [vk_fetch_integration _ _ _ _ _ ?st _] =>
             destruct (vk_fetch_integration_outcome wall_get autoflush
                         expire_on_commit (clock i) i st w)
               as (st' & w1 & E & Hout); [done|]
         end.
    all: rewrite E in *; cbn [snd] in Hrows.
    all: destruct (IH st' w1) as (r & w' & served & E' & Hc & Hsub & Hrows').
    all: destruct Hout as [(_ & -> & _)|(_ & Hc1 & _)].
    all: try (exists r, w', served; split; [exact E'|]; split; [exact Hc|];
              split; [by apply sublist_cons|exact Hrows']).
    all: exists r, w', (i :: served); split; [exact E'|];
         (split; [rewrite Hc, Hc1, <- app_assoc; reflexivity|]);
         (split; [by apply sublist_skip|]);
         by apply (same_settings_rows_trans _ (vk_integrations (db w1))).
Qed.

(** X11. Failures stay inside the ingestion loop.  A pass of
    [vk_fetch_task] returns whatever the feed answers and whatever the
    tables hold; the requests it sends are the requests of integrations of
    the table in mode [auto], in the order of the table and one for each
    of those it serves, which may be not all of them; and of a
    configuration it changes nothing but the checkpoint. *)
Theorem vk_fetch_tick_contains_failures (clock : VKIntegration -> datetime)
    (w : World) :
  exists w' served,
    vk_fetch_tick wall_get autoflush expire_on_commit clock w = (Return tt, w')
    /\ vk_calls w' = vk_calls w ++ map request_of served
    /\ sublist served
         (List.filter (fun i => str_eqb (mode i) MODE_AUTO) (vk_integrations (db w)))
    /\ Forall (fun i => In i (vk_integrations (db w)) /\ mode i = MODE_AUTO) served
    /\ Forall2 same_settings (vk_integrations (db w)) (vk_integrations (db w')).
Proof.
  unfold vk_fetch_tick, except_log. unfold bind at 1, get.
  destruct (fetch_integrations_outcome clock
              (List.filter (fun i => str_eqb (mode i) MODE_AUTO)
                 (vk_integrations (db w))) InTransaction w)
    as (r & w' & served & E & Hc & Hsub & Hrows).
  rewrite E. exists w', served.
  split; [by destruct r as [[]|]|]. split; [exact Hc|]. split; [exact Hsub|].
  split; [|exact Hrows].
  apply Forall_forall. intros i Hi.
  assert (Hin : i ∈ List.filter (fun i => str_eqb (mode i) MODE_AUTO)
                      (vk_integrations (db w))).
  { by apply (sublist_subseteq _ _ Hsub). }
  apply list_elem_of_In, filter_In in Hin as [Hin Hm].
  split; [done|]. by apply str_eqb_eq.
Qed.

End FetchProperties.

Section FetchAgain.
Context {H : Host}.
Variable wall_get : VKRequest -> option VKData.
Variables autoflush expire_on_commit : bool.


(** X13. After a pass that failed, the next pass retries.  For the one
    integration of the table, in mode [auto]: when the interval has passed
    and the request fails in transport or is answered with an error
    envelope, the pass at [now] leaves the database as it was, and a pass
    at any later time sends the request again. *)
Theorem failed_then_retried (now : datetime) (w : World) (i : VKIntegration) :
  vk_integrations (db w) = [i] ->
  mode i = MODE_AUTO ->
  throttled now i = false ->
  (wall_get (request_of i) = None
   \/ exists msg, wall_get (request_of i) = Some (VKError msg)) ->
  exists w',
    vk_fetch_tick wall_get autoflush expire_on_commit (fun _ => now) w
    = (Return tt, w')
    /\ db w' = db w
    /\ vk_calls w' = vk_calls w ++ [request_of i]
    /\ forall feed autoflush' expire_on_commit' now',
         now <= now' ->
         exists w'',
           vk_fetch_tick feed autoflush' expire_on_commit' (fun _ => now') w'
           = (Return tt, w'')
           /\ vk_calls w'' = vk_calls w' ++ [request_of i].
Proof.
  intros Ei Hm Ht Hfail.
  assert (Ef : List.filter (fun x => str_eqb (mode x) MODE_AUTO)
                 (vk_integrations (db w)) = [i])
    by (rewrite Ei; by apply filter_auto_one).
  rewrite (vk_fetch_tick_alone _ _ _ _ w i Ef).
  destruct (vk_fetch_integration_outcome wall_get autoflush expire_on_commit
              now i InTransaction w) as (st' & w' & E & Hout); [done|].
  rewrite E. cbn [snd]. exists w'. split; [done|].
  destruct Hout as [(Ht' & _)|(_ & Hc & Hdb)]; [congruence|].
  assert (Edb : db w' = db w).
  { destruct Hfail as [Hf|[msg Hf]]; rewrite Hf in Hdb; apply Hdb. }
  split; [exact Edb|]. split; [exact Hc|].
  intros feed af' eoc' now' Hle.
  assert (Ht' : throttled now' i = false).
  { destruct (throttled now' i) eqn:Et'; [|done].
    by rewrite (throttled_mono now now' i Hle Et') in Ht. }
  assert (Ef' : List.filter (fun x => str_eqb (mode x) MODE_AUTO)
                  (vk_integrations (db w')) = [i]) by (by rewrite Edb).
  rewrite (vk_fetch_tick_alone _ _ _ _ w' i Ef').
  destruct (vk_fetch_integration_outcome feed af' eoc' now' i InTransaction w')
    as (st2 & w2 & E2 & Hout2); [done|].
  rewrite E2. cbn [snd]. exists w2. split; [done|].
  destruct Hout2 as [(Ht2 & _)|(_ & Hc2 & _)]; [congruence|exact Hc2].
Qed.

(** X14. The manual trigger surfaces the failures of the fetch.  For an
    integration that is not in mode [off]: a transport failure is raised
    as a 500 and an error envelope as a 400 whose detail carries the
    message of the feed, [Unknown error] without one; in both cases one
    request was sent and the database, the checkpoint with it, is as it
    was. *)
Theorem fetch_now_surfaces_failures (now : datetime) (w : World) (i : VKIntegration)
    (rest : list VKIntegration) :
  vk_integrations (db w) = i :: rest ->
  mode i <> MODE_OFF ->
  (wall_get (request_of i) = None ->
   exists detail,
     fetch_now wall_get autoflush now w
     = (Raise (HTTPException 500 detail),
        {| db := db w; vk_calls := vk_calls w ++ [request_of i] |}))
  /\ (forall msg,
        wall_get (request_of i) = Some (VKError msg) ->
        fetch_now wall_get autoflush now w
        = (Raise (HTTPException 400
                    (lit "VK API: "
                     ++ match msg with Some m => m | None => lit "Unknown error" end)),
           {| db := db w; vk_calls := vk_calls w ++ [request_of i] |})).
Proof.
  intros Ei Hm. destruct w as [d calls]. simpl in *.
  assert (Eo : str_eqb (mode i) MODE_OFF = false).
  { destruct (str_eqb (mode i) MODE_OFF) eqn:Eo; [|done]. by apply str_eqb_eq in Eo. }
  split.
  - intros Hw. unfold fetch_now, first_integration. run. rewrite Ei. simpl.
    rewrite Eo. unfold except_http, fetch_vk_posts. run. fold (request_of i).
    rewrite Hw. simpl. by eexists.
  - intros msg Hw. unfold fetch_now, first_integration. run. rewrite Ei. simpl.
    rewrite Eo. unfold except_http, fetch_vk_posts. run. fold (request_of i).
    rewrite Hw. simpl. by destruct msg.
Qed.

End FetchAgain.

Lemma sample_world_rows : vk_integrations (db sample_world) = [sample_integration].
Proof. reflexivity. Defined.

Lemma sample_batch_ok : batch_ok false [post11] (db sample_world).
Proof. right. split; [repeat constructor; by apply not_elem_of_nil|constructor]. Defined.


Lemma failed_then_retried_witness :
  exists w',
    vk_fetch_tick (H:=ascii_host) dead_feed false true (fun _ => 1700020000000000)
      sample_world = (Return tt, w')
    /\ db w' = db sample_world
    /\ vk_calls w' = vk_calls sample_world ++ [request_of sample_integration]
    /\ forall feed autoflush' expire_on_commit' now',
         1700020000000000 <= now' ->
         exists w'',
           vk_fetch_tick (H:=ascii_host) feed autoflush' expire_on_commit'
             (fun _ => now') w' = (Return tt, w'')
           /\ vk_calls w'' = vk_calls w' ++ [request_of sample_integration].
Proof.
  apply (failed_then_retried (H:=ascii_host) dead_feed false true 1700020000000000
           sample_world sample_integration).
  - exact sample_world_rows.
  - reflexivity.
  - reflexivity.
  - left. reflexivity.
Defined.

Lemma fetch_now_surfaces_failures_witness :
  (dead_feed (request_of sample_integration) = None ->
   exists detail,
     fetch_now (H:=ascii_host) dead_feed false 1700020000000000 sample_world
     = (Raise (HTTPException 500 detail),
        {| db := db sample_world;
           vk_calls := vk_calls sample_world ++ [request_of sample_integration] |}))
  /\ (forall msg,
        dead_feed (request_of sample_integration) = Some (VKError msg) ->
        fetch_now (H:=ascii_host) dead_feed false 1700020000000000 sample_world
        = (Raise (HTTPException 400
                    (lit "VK API: "
                     ++ match msg with Some m => m | None => lit "Unknown error" end)),
           {| db := db sample_world;
              vk_calls := vk_calls sample_world ++ [request_of sample_integration] |})).
Proof.
  apply (fetch_now_surfaces_failures (H:=ascii_host) dead_feed false 1700020000000000
           sample_world sample_integration []).
  - exact sample_world_rows.
  - intros E. vm_compute in E. discriminate.
Defined.

(** ** Administration *)

Lemma is_mode_cases (m : str) :
  is_mode m = true <-> m = MODE_OFF \/ m = MODE_AUTO \/ m = MODE_MANUAL.
Proof.
  unfold is_mode. rewrite !orb_true_iff, !str_eqb_eq. tauto.
Qed.

Lemma request_of_with_mode (m : str) (i : VKIntegration) :
  request_of (with_mode m i) = request_of i.
Proof. reflexivity. Qed.

Section AdminProperties.
Context {H : Host}.

Lemma fetch_now_sends (feed : VKRequest -> option VKData) (autoflush : bool)
    (now : datetime) (w : World) (i : VKIntegration) (rest : list VKIntegration) :
  vk_integrations (db w) = i :: rest ->
  mode i <> MODE_OFF ->
  exists res w',
    fetch_now feed autoflush now w = (res, w')
    /\ vk_calls w' = vk_calls w ++ [request_of i].
Proof.
  intros Ei Hm. destruct w as [d calls]. simpl in *.
  unfold fetch_now, first_integration. run. rewrite Ei. simpl.
  destruct (str_eqb (mode i) MODE_OFF) eqn:Eo; [by apply str_eqb_eq in Eo|].
  unfold except_http, fetch_vk_posts. run. fold (request_of i).
  destruct (feed (request_of i)) as [[msg|posts]|] eqn:Ew; simpl.
  - eexists _, _. split; [reflexivity|done].
  - rewrite on_session_import_batch. cbn [db vk_calls].
    destruct (alone (import_posts autoflush posts i 0) d) as [[n|e] d'] eqn:Ei'.
    + eexists _, _. split; [reflexivity|done].
    + destruct e; eexists _, _; (split; [reflexivity|done]).
  - eexists _, _. split; [reflexivity|done].
Qed.

(** X15. Switching the mode.  [set_vk_mode] answers a mode that is none of
    [off], [auto], [manual] with a 400 and changes nothing, whether or not
    an integration exists.  On a table of one integration: once the mode
    is set to [off], the manual trigger is rejected with a 400 and a pass
    of the loop does nothing; once it is set to [manual], a pass of the
    loop does nothing and the manual trigger sends its request; once it is
    set to [auto], both fetch.  The flag [is_enabled] is set exactly for
    the modes other than [off]. *)
Theorem set_vk_mode_gates (d : Database) (i : VKIntegration) :
  vk_integrations d = [i] ->
  (forall m, is_mode m = false ->
             set_vk_mode m d = (Raise (HTTPException 400 detail_bad_mode), d))
  /\ (forall m, is_mode m = true ->
        exists d',
          set_vk_mode m d = (Return (with_mode m i), d')
          /\ vk_integrations d' = [with_mode m i]
          /\ vk_imported_posts d' = vk_imported_posts d
          /\ news d' = news d
          /\ (is_enabled (with_mode m i) = true <-> m <> MODE_OFF)
          /\ forall feed autoflush expire_on_commit now clock calls,
               let w' := {| db := d'; vk_calls := calls |} in
               (m = MODE_OFF ->
                  fetch_now feed autoflush now w'
                  = (Raise (HTTPException 400 detail_switched_off), w')
                  /\ vk_fetch_tick feed autoflush expire_on_commit clock w'
                     = (Return tt, w'))
               /\ (m = MODE_MANUAL ->
                     vk_fetch_tick feed autoflush expire_on_commit clock w'
                     = (Return tt, w')
                     /\ exists res w'',
                          fetch_now feed autoflush now w' = (res, w'')
                          /\ vk_calls w'' = calls ++ [request_of i])
               /\ (m = MODE_AUTO ->
                     (throttled (clock (with_mode m i)) i = false ->
                        exists w'',
                          vk_fetch_tick feed autoflush expire_on_commit clock w'
                          = (Return tt, w'')
                          /\ vk_calls w'' = calls ++ [request_of i])
                     /\ exists res w'',
                          fetch_now feed autoflush now w' = (res, w'')
                          /\ vk_calls w'' = calls ++ [request_of i])).
Proof.
  intros Ei. split.
  - intros m Hm. unfold set_vk_mode. by rewrite Hm.
  - intros m Hm.
    exists (set_vk_integrations [with_mode m i] d).
    assert (Eset : set_vk_mode m d
                   = (Return (with_mode m i), set_vk_integrations [with_mode m i] d)).
    { unfold set_vk_mode, first_integration. rewrite Hm. run. rewrite Ei. simpl.
      rewrite Ei. simpl. by rewrite Z.eqb_refl. }
    split; [exact Eset|]. do 3 (split; [done|]).
    split.
    { simpl. rewrite negb_true_iff. split.
      - intros E ->. by vm_compute in E.
      - intros Hne. destruct (str_eqb m MODE_OFF) eqn:E; [|done].
        by apply str_eqb_eq in E. }
    intros feed autoflush expire_on_commit now clock calls w'.
    assert (Erows : vk_integrations (db w') = [with_mode m i]) by done.
    split; [|split].
    + intros ->. split.
      * unfold fetch_now, first_integration. run. done.
      * apply vk_fetch_tick_none. rewrite Erows. constructor; [|constructor].
        simpl. intros E. by vm_compute in E.
    + intros ->. split.
      * apply vk_fetch_tick_none. rewrite Erows. constructor; [|constructor].
        simpl. intros E. by vm_compute in E.
      * destruct (fetch_now_sends feed autoflush now w' (with_mode MODE_MANUAL i) []
                    Erows) as (res & w'' & E & Hc).
        { simpl. intros E. by vm_compute in E. }
        exists res, w''. split; [exact E|exact Hc].
    + intros ->. split.
      * intros Ht.
        assert (Ef : List.filter (fun x => str_eqb (mode x) MODE_AUTO)
                       (vk_integrations (db w')) = [with_mode MODE_AUTO i])
          by (rewrite Erows; by apply filter_auto_one).
        rewrite (vk_fetch_tick_alone _ _ _ _ w' _ Ef).
        destruct (vk_fetch_integration_outcome feed autoflush expire_on_commit
                    (clock (with_mode MODE_AUTO i)) (with_mode MODE_AUTO i)
                    InTransaction w')
          as (st' & w'' & E & Hout); [done|].
        rewrite E. exists w''. split; [done|].
        destruct Hout as [[Ht' _]|(_ & Hc & _)]; [|exact Hc].
        unfold throttled in *. simpl in *. congruence.
      * destruct (fetch_now_sends feed autoflush now w' (with_mode MODE_AUTO i) []
                    Erows) as (res & w'' & E & Hc).
        { simpl. intros E. by vm_compute in E. }
        exists res, w''. split; [exact E|exact Hc].
Qed.

(** What [update_vk_integration] comes to on a table with a
    configuration. *)
Lemma update_vk_integration_run (data : VKIntegrationUpdate) (d : Database)
    (i : VKIntegration) (rest : list VKIntegration) :
  vk_integrations d = i :: rest ->
  update_vk_integration data d
  = match update_refused d data i with
    | Some e => (Raise e, d)
    | None =>
        (Return (apply_update data i),
         set_vk_integrations
           (apply_update data i
            :: map (fun x => if vi_id x =? vi_id i then apply_update data i else x)
                 rest) d)
    end.
Proof.
  intros Ei. unfold update_vk_integration, first_integration. run. rewrite Ei. simpl.
  destruct (update_refused d data i); [done|]. simpl. rewrite Ei. simpl.
  by rewrite Z.eqb_refl.
Qed.


(** X17. Deleting the configuration.  On an empty table
    [delete_vk_integration] raises a 404 and changes nothing.  On a table
    of one integration it returns; the integration is gone, and with it
    every ledger row that belonged to it, while the articles stay; from
    then on the manual trigger answers 404, the loop does nothing and
    [get_vk_integration] returns nothing. *)
Theorem delete_vk_integration_effect (d : Database) :
  (vk_integrations d = [] ->
   delete_vk_integration d = (Raise (HTTPException 404 detail_not_configured), d))
  /\ (forall i,
        vk_integrations d = [i] ->
        exists d',
          delete_vk_integration d = (Return tt, d')
          /\ vk_integrations d' = []
          /\ vk_imported_posts d'
             = List.filter (fun r => negb (vk_integration_id r =? vi_id i))
                 (vk_imported_posts d)
          /\ Forall (fun r => vk_integration_id r <> vi_id i) (vk_imported_posts d')
          /\ (ledger_fk_ok d -> vk_imported_posts d' = [])
          /\ news d' = news d
          /\ get_vk_integration d' = (Return None, d')
          /\ forall feed autoflush expire_on_commit now clock calls,
               let w' := {| db := d'; vk_calls := calls |} in
               fetch_now feed autoflush now w'
               = (Raise (HTTPException 404 detail_not_configured), w')
               /\ vk_fetch_tick feed autoflush expire_on_commit clock w'
                  = (Return tt, w')).
Proof.
  split.
  - intros E. unfold delete_vk_integration, first_integration. run. by rewrite E.
  - intros i Ei. eexists. split.
    { unfold delete_vk_integration, first_integration. run. rewrite Ei. simpl.
      reflexivity. }
    simpl. rewrite Ei. simpl. rewrite Z.eqb_refl. simpl.
    split; [done|]. split; [done|].
    split.
    { apply Forall_forall. intros r Hr. apply list_elem_of_In, filter_In in Hr as [_ Hr].
      apply negb_true_iff, Z.eqb_neq in Hr. done. }
    split.
    { intros Hfk. apply filter_none. unfold ledger_fk_ok in Hfk. rewrite Ei in Hfk.
      eapply Forall_impl; [exact Hfk|]. simpl. intros r [->|[]].
      by rewrite Z.eqb_refl. }
    split; [done|]. split; [done|].
    intros feed autoflush expire_on_commit now clock calls. split; [done|].
    apply vk_fetch_tick_none. simpl. constructor.
Qed.


End AdminProperties.

Lemma set_vk_mode_gates_witness :
  (forall m, is_mode m = false ->
             set_vk_mode m sample_db = (Raise (HTTPException 400 detail_bad_mode), sample_db))
  /\ exists d',
       set_vk_mode MODE_OFF sample_db = (Return (with_mode MODE_OFF sample_integration), d')
       /\ vk_integrations d' = [with_mode MODE_OFF sample_integration].
Proof.
  destruct (set_vk_mode_gates (H:=ascii_host) sample_db sample_integration eq_refl)
    as [Hbad Hgood].
  split; [exact Hbad|].
  destruct (Hgood MODE_OFF eq_refl) as (d' & E & Hr & _).
  exists d'. split; [exact E|exact Hr].
Defined.


(** An update that the server of the sample host refuses: a default
    category that is no row of the table, and an interval that is no
    32-bit integer; the configuration stays as it was. *)
Example update_refused_keeps_row :
  let unknown_category :=
    {| u_group_id := None; u_access_token := None; u_mode := Some MODE_MANUAL;
       u_default_category_id := Some 99; u_auto_publish := None;
       u_check_interval_minutes := None; u_fetch_count := None;
       u_hashtag_category_map := None |} in
  let huge_interval :=
    {| u_group_id := None; u_access_token := None; u_mode := None;
       u_default_category_id := None; u_auto_publish := None;
       u_check_interval_minutes := Some (2 ^ 31); u_fetch_count := None;
       u_hashtag_category_map := None |} in
  update_vk_integration (H:=ascii_host) unknown_category sample_db
  = (Raise IntegrityError, sample_db)
  /\ update_vk_integration (H:=ascii_host) huge_interval sample_db
     = (Raise DataError, sample_db).
Proof. by vm_compute. Qed.

(** ** Scheduled publisher, again *)

Lemma publisher_tick_rows (now : datetime) (d : Database) :
  scheduled_news_publisher_tick now d
  = (Return tt,
     set_news (map (fun a => if due now a then publish now a else a) (news d)) d).
Proof.
  unfold scheduled_news_publisher_tick. run.
  destruct (List.filter (due now) (news d)) eqn:E; [|done].
  rewrite (publish_due_rows now (news d) E). by destruct d.
Qed.

(** X19. After a pass of the publisher nothing is left to publish: no
    article is due at the time of the pass or at any earlier time, so a
    second pass at such a time changes nothing. *)
Theorem publisher_leaves_nothing_due (now : datetime) (d : Database) :
  exists d',
    scheduled_news_publisher_tick now d = (Return tt, d')
    /\ (forall a now', In a (news d') -> now' <= now -> due now' a = false)
    /\ (forall now', now' <= now ->
          scheduled_news_publisher_tick now' d' = (Return tt, d')).
Proof.
  rewrite publisher_tick_rows. eexists. split; [reflexivity|].
  assert (Hnone : forall a now',
    In a (map (fun a => if due now a then publish now a else a) (news d)) ->
    now' <= now -> due now' a = false).
  { intros a' now' Hin Hle. apply in_map_iff in Hin as (a & <- & _).
    destruct (due now a) eqn:E; [done|].
    unfold due in *. destruct (is_published a); [done|]. simpl in *.
    destruct (scheduled_publish_at a) as [t|]; [|done].
    apply Z.leb_gt in E. apply Z.leb_gt. lia. }
  split; [exact Hnone|].
  intros now' Hle. unfold scheduled_news_publisher_tick. run.
  assert (E : List.filter (due now')
                (map (fun a => if due now a then publish now a else a) (news d)) = []).
  { apply filter_none. apply Forall_forall. intros a Ha.
    apply (Hnone a now'); [by apply list_elem_of_In|done]. }
  by rewrite E.
Qed.

(** ** The administrator gate *)

Section GateProperties.
Variable verify_token : str -> str -> option str.
Variable int_of_str : str -> option Z.

Lemma get_current_user_some (credentials : option str) (users : list User) (u : User) :
  get_current_user verify_token int_of_str credentials users = Granted (Some u) ->
  exists token text,
    credentials = Some token
    /\ verify_token token (lit "access") = Some text
    /\ int_of_str text = Some (user_id u)
    /\ In u users
    /\ is_active u = Some true.
Proof.
  unfold get_current_user.
  destruct credentials as [token|]; [|done].
  destruct (verify_token token (lit "access")) as [text|] eqn:Ev; [|done].
  destruct (truthy_str text); simpl; [|done].
  destruct (int_of_str text) as [id|] eqn:Ei; [|done].
  destruct (List.filter (fun u0 => user_id u0 =? id) users) as [|x [|y l]] eqn:Ef;
    [done| |done].
  destruct (is_active x) as [[|]|] eqn:Ea; simpl; try done.
  intros [= <-].
  assert (Hin : In x (List.filter (fun u0 => user_id u0 =? id) users))
    by (rewrite Ef; by left).
  apply filter_In in Hin as [Hin Hid]. apply Z.eqb_eq in Hid.
  exists token, text. rewrite Hid. done.
Qed.

(** X20. The gate of the administrative endpoints.  [get_current_admin]
    lets through only a user of the table who is active and has the role
    [admin] or [super_admin], named by a bearer token that [verify_token]
    accepts as an access token; it answers a request without credentials
    with 401 and never with anything but 401 or 403; and whoever passes
    [get_current_super_admin] passes [get_current_admin], as the same
    user. *)
Theorem admin_gate_sound (credentials : option str) (users : list User) :
  (forall u,
      get_current_admin verify_token int_of_str credentials users = Granted u ->
      In u users
      /\ is_active u = Some true
      /\ (role u = ADMIN \/ role u = SUPER_ADMIN)
      /\ exists token text,
           credentials = Some token
           /\ verify_token token (lit "access") = Some text
           /\ int_of_str text = Some (user_id u))
  /\ (credentials = None ->
      get_current_admin verify_token int_of_str credentials users
      = Rejected 401 detail_unauthorized)
  /\ (forall c detail,
        get_current_admin verify_token int_of_str credentials users
        = Rejected c detail ->
        (c = 401 /\ detail = detail_unauthorized)
        \/ (c = 403 /\ detail = detail_admin_required))
  /\ (forall u,
        get_current_super_admin verify_token int_of_str credentials users = Granted u ->
        role u = SUPER_ADMIN
        /\ get_current_admin verify_token int_of_str credentials users = Granted u).
Proof.
  unfold get_current_admin, get_current_super_admin, get_current_user_required.
  split; [|split; [|split]].
  - intros u.
    destruct (get_current_user verify_token int_of_str credentials users)
      as [[x|]| |] eqn:E; try done.
    destruct (role x) eqn:Er; try done; intros [= <-];
      destruct (get_current_user_some credentials users x E)
        as (token & text & Hc & Hv & Hi & Hin & Ha);
      (split; [done|]); (split; [done|]); (split; [auto|]);
      by exists token, text.
  - by intros ->.
  - intros c detail.
    destruct (get_current_user verify_token int_of_str credentials users)
      as [[x|]| |] eqn:E; try done.
    + destruct (role x); try done; intros [= <- <-]; by right.
    + intros [= <- <-]. by left.
    + exfalso. revert E. unfold get_current_user.
      destruct credentials as [token|]; [|done].
      destruct (verify_token token (lit "access")) as [text|]; [|done].
      destruct (truthy_str text); simpl; [|done].
      destruct (int_of_str text) as [id|]; [|done].
      destruct (List.filter _ users) as [|x [|y l]]; try done.
      by destruct (truthy_opt _ (is_active x)).
  - intros u.
    destruct (get_current_user verify_token int_of_str credentials users)
      as [[x|]| |] eqn:E; try done.
    destruct (role x) eqn:Er; try done. by intros [= <-].
Qed.

End GateProperties.

(** The gate on the sample users: the chief administrator passes, the
    plain user gets a 403, the inactive administrator and a request
    without a token a 401. *)
Example admin_gate_sample :
  let gate := get_current_admin sample_verify_token sample_int_of_str in
  gate (Some (lit "1")) sample_users
  = Granted {| user_id := 1; email := lit "admin@eurobot.ru";
               hashed_password := lit "h1"; full_name := Some full_name_admin;
               role := SUPER_ADMIN; is_active := Some true;
               is_verified := Some true |}
  /\ gate (Some (lit "2")) sample_users = Rejected 403 detail_admin_required
  /\ gate (Some (lit "3")) sample_users = Rejected 401 detail_unauthorized
  /\ gate None sample_users = Rejected 401 detail_unauthorized.
Proof. by vm_compute. Qed.

(** ** Bulk clear *)

Lemma filter_true {A} (p : A -> bool) (l : list A) :
  (forall x, In x l -> p x = true) -> List.filter p l = l.
Proof.
  induction l as [|x l IH]; simpl; [done|]. intros Hp.
  rewrite (Hp x (or_introl eq_refl)). f_equal. apply IH. intros y Hy. apply Hp. by right.
Qed.

Lemma filter_and {A} (p q : A -> bool) (l : list A) :
  List.filter (fun x => p x && q x) l = List.filter q (List.filter p l).
Proof.
  induction l as [|x l IH]; simpl; [done|].
  destruct (p x); simpl; [|exact IH]. destruct (q x); by rewrite IH.
Qed.

Lemma null_if_deleted_nil (l : list VKImportedPost) :
  map (null_if_deleted []) l = l.
Proof.
  induction l as [|r l IH]; simpl; [done|]. rewrite IH. f_equal.
  unfold null_if_deleted. by destruct (news_id r).
Qed.

Lemma null_if_deleted_ids (gone : list News) (l : list VKImportedPost) :
  map ip_id (map (null_if_deleted gone) l) = map ip_id l.
Proof.
  rewrite map_map. apply map_ext. intros r. unfold null_if_deleted.
  destruct (news_id r) as [n|]; [|done].
  by destruct (existsb (fun x => n_id x =? n) gone).
Qed.

Lemma map_filter_key {A K} (f : A -> K) (p : K -> bool) (l : list A) :
  map f (List.filter (fun x => p (f x)) l) = List.filter p (map f l).
Proof.
  induction l as [|x l IH]; simpl; [done|].
  destruct (p (f x)); simpl; by rewrite IH.
Qed.

(** The keys of the ledger once the session is flushed. *)
Lemma flushed_ledger_ids (s : Session) :
  map ip_id (vk_imported_posts (flushed s))
  = List.filter
      (fun i => negb (existsb (fun x => ip_id x =? i) (s_deleted_posts s)))
      (map ip_id (vk_imported_posts (s_db s))).
Proof.
  unfold flushed. simpl. rewrite null_if_deleted_ids.
  apply (map_filter_key ip_id
           (fun i => negb (existsb (fun x => ip_id x =? i) (s_deleted_posts s)))).
Qed.

Lemma flushed_session_of (d : Database) : flushed (session_of d) = d.
Proof.
  unfold flushed, session_of. simpl.
  rewrite null_if_deleted_nil, !filter_true by done. by destruct d.
Qed.

(** The articles of the session's database once it is flushed; a flush
    does not change what that is. *)
Lemma flushed_flush (s : Session) :
  flushed {| s_db := flushed s; s_deleted_news := []; s_deleted_posts := [] |}
  = flushed s.
Proof.
  generalize (flushed s). intros f. unfold flushed. simpl.
  rewrite null_if_deleted_nil, !filter_true by done. by destruct f.
Qed.

Lemma names_key (a : News) (r : VKImportedPost) (n : Z) :
  news_id r = Some n -> truthy_int n = true ->
  names a r = (n_id a =? n).
Proof. intros E Ht. unfold names. rewrite E, Ht. simpl. apply Z.eqb_sym. Qed.

Lemma names_none (a : News) (r : VKImportedPost) :
  match news_id r with Some n => truthy_int n = false | None => True end ->
  names a r = false.
Proof. unfold names. destruct (news_id r); [by intros ->|done]. Qed.

(** A row whose article is not marked: the article is looked up in the
    database of the session. *)
Lemma delete_news_of_lookup (r : VKImportedPost) (n k : Z) (s : Session) :
  news_id r = Some n -> truthy_int n = true ->
  find (fun a => n_id a =? n) (s_deleted_news s) = None ->
  exists k' s1,
    match find_news n (s_db s) with
    | Some a =>
        (Return (k + 1),
         {| s_db := s_db s; s_deleted_news := s_deleted_news s ++ [a];
            s_deleted_posts := s_deleted_posts s |})
    | None => (Return k, s)
    end = (Return k', s1)
    /\ news_of_row_deleted r k s k' s1.
Proof.
  intros En Ht Hp.
  assert (Hpend : forall x, In x (s_deleted_news s) -> (n_id x =? n) = false).
  { intros x Hx. apply (find_none _ _ Hp x Hx). }
  destruct (find_news n (s_db s)) as [a|] eqn:Ef.
  - destruct (find_news_key n (s_db s) a Ef) as [Hin Hid].
    eexists _, _. split; [reflexivity|].
    assert (Hnews : news (flushed {| s_db := s_db s;
                                     s_deleted_news := s_deleted_news s ++ [a];
                                     s_deleted_posts := s_deleted_posts s |})
                    = List.filter (fun a0 => negb (names a0 r)) (news (flushed s))).
    { unfold flushed. simpl. rewrite <- filter_and. apply filter_ext. intros x.
      rewrite existsb_app. simpl. rewrite orb_false_r, negb_orb.
      rewrite (names_key x r n En Ht), Hid. by rewrite (Z.eqb_sym n). }
    unfold news_of_row_deleted. split; [done|].
    split; [by rewrite !flushed_ledger_ids|].
    split; [exact Hnews|]. do 4 (split; [done|]). split; [by right|].
    split.
    + intros _. right. split; [done|]. intros Hnil.
      assert (Hf : In a (List.filter (fun a0 => names a0 r) (news (flushed s)))).
      { apply filter_In. split.
        - unfold flushed. simpl. apply filter_In. split; [done|].
          apply negb_true_iff. apply not_true_iff_false. intros Hex.
          apply existsb_exists in Hex as (x & Hx & Hxa).
          apply Z.eqb_eq in Hxa. specialize (Hpend x Hx).
          apply Z.eqb_neq in Hpend. congruence.
        - rewrite (names_key a r n En Ht). by apply Z.eqb_eq. }
      by rewrite Hnil in Hf.
    + simpl. intros x Hx. apply in_app_iff in Hx as [Hx|[<-|[]]]; [by left|].
      right. rewrite (names_key a r n En Ht). by apply Z.eqb_eq.
  - exists k, s. split; [done|].
    assert (Hno : forall x, In x (news (flushed s)) -> names x r = false).
    { intros x Hx. rewrite (names_key x r n En Ht).
      unfold flushed in Hx. simpl in Hx. apply filter_In in Hx as [Hx _].
      apply (find_none _ _ Ef x Hx). }
    unfold news_of_row_deleted. split; [done|]. split; [done|].
    split.
    { symmetry. apply filter_true. intros x Hx. by rewrite (Hno x Hx). }
    do 4 (split; [done|]). split; [by left|].
    split; [|by left].
    intros _. left. split; [done|]. apply filter_none. apply Forall_forall.
    intros x Hx. apply Hno. by apply list_elem_of_In.
Qed.

Section BulkClearLoop.
Variable autoflush : bool.

Lemma delete_news_of_effect (r : VKImportedPost) (k : Z) (s : Session) :
  exists k' s1,
    delete_news_of autoflush r k s = (Return k', s1)
    /\ news_of_row_deleted r k s k' s1.
Proof.
  assert (Hplain :
    match news_id r with Some n => truthy_int n = false | None => True end ->
    delete_news_of autoflush r k s = (Return k, s) ->
    exists k' s1,
      delete_news_of autoflush r k s = (Return k', s1)
      /\ news_of_row_deleted r k s k' s1).
  { intros Hnone E. exists k, s. split; [exact E|].
    unfold news_of_row_deleted. split; [done|]. split; [done|].
    split.
    { symmetry. apply filter_true. intros a _. by rewrite names_none. }
    do 4 (split; [done|]). split; [by left|].
    split; [|by left].
    intros _. left. split; [done|]. apply filter_none. apply Forall_forall.
    intros a _. by apply names_none. }
  destruct (news_id r) as [n|] eqn:En.
  2:{ apply Hplain; [done|]. unfold delete_news_of. by rewrite En. }
  destruct (truthy_int n) eqn:Ht.
  2:{ apply Hplain; [done|]. unfold delete_news_of. by rewrite En, Ht. }
  clear Hplain.
  destruct (find (fun a => n_id a =? n) (s_deleted_news s)) as [a0|] eqn:Ep.
  - (* marked already: the identity map answers, nothing changes *)
    destruct (find_some _ _ Ep) as [Hin0 Hid0]. apply Z.eqb_eq in Hid0.
    assert (Hex : existsb (fun x => n_id x =? n_id a0) (s_deleted_news s) = true).
    { apply existsb_exists. exists a0. split; [done|apply Z.eqb_refl]. }
    exists (k + 1), {| s_db := s_db s; s_deleted_news := s_deleted_news s;
                       s_deleted_posts := s_deleted_posts s |}.
    split.
    { unfold delete_news_of. rewrite En, Ht.
      unfold session_get_news, session_delete_news, modify; unfold bind, ret, get.
      cbv beta. rewrite Ep. cbv beta iota. by rewrite Hex. }
    unfold news_of_row_deleted. split; [done|]. split; [done|].
    split.
    { change (news (flushed {| s_db := s_db s; s_deleted_news := s_deleted_news s;
                               s_deleted_posts := s_deleted_posts s |}))
        with (news (flushed s)).
      symmetry. apply filter_true. intros x Hx.
      rewrite (names_key x r n En Ht). apply negb_true_iff, Z.eqb_neq.
      unfold flushed in Hx. simpl in Hx. apply filter_In in Hx as [_ Hx].
      apply negb_true_iff in Hx. intros Heq.
      assert (Ht' : existsb (fun x0 => n_id x0 =? n_id x) (s_deleted_news s) = true).
      { apply existsb_exists. exists a0. split; [done|]. apply Z.eqb_eq. congruence. }
      congruence. }
    do 4 (split; [done|]). split; [by right|].
    split; [|by left].
    intros Hall. exfalso. rewrite Forall_forall in Hall.
    apply list_elem_of_In, Hall in Hin0.
    rewrite (names_key a0 r n En Ht) in Hin0. apply Z.eqb_neq in Hin0. done.
  - (* not marked: a query, after a flush when the session autoflushes *)
    destruct autoflush eqn:Eaf.
    + set (s2 := {| s_db := flushed s; s_deleted_news := [];
                    s_deleted_posts := [] |}).
      destruct (delete_news_of_lookup r n k s2 En Ht eq_refl)
        as (k' & s1 & E & Hfx).
      exists k', s1. split.
      { unfold delete_news_of. rewrite En, Ht.
        unfold session_get_news, session_delete_news, flush, modify; unfold bind, ret, get.
        cbv beta. rewrite Ep. cbv beta iota. fold s2. simpl in E. simpl.
        destruct (find_news n (flushed s)); exact E. }
      unfold news_of_row_deleted in *. unfold s2 in Hfx.
      rewrite flushed_flush in Hfx.
      destruct Hfx as (H1 & H2 & H3 & H4 & H5 & H6 & H7 & H8 & H9 & H10).
      do 8 (split; [done|]). split; [intros _; apply H9; constructor|].
      intros a Ha. destruct (H10 a Ha) as [[]|Hn]. by right.
    + destruct (delete_news_of_lookup r n k s En Ht Ep) as (k' & s1 & E & Hfx).
      exists k', s1. split; [|exact Hfx].
      unfold delete_news_of. rewrite En, Ht.
      unfold session_get_news, session_delete_news, modify; unfold bind, ret, get.
      cbv beta. rewrite Ep. simpl.
      destruct (find_news n (s_db s)) as [a|] eqn:Ef; [|exact E].
      assert (Hex : existsb (fun x => n_id x =? n_id a) (s_deleted_news s) = false).
      { apply not_true_iff_false. intros Hex.
        apply existsb_exists in Hex as (x & Hx & Hxa). apply Z.eqb_eq in Hxa.
        destruct (find_news_key n (s_db s) a Ef) as [_ Hid].
        pose proof (find_none _ _ Ep x Hx) as Hne. apply Z.eqb_neq in Hne.
        congruence. }
      rewrite Hex. exact E.
Qed.

End BulkClearLoop.

Lemma NoDup_map_filter {A B} (f : A -> B) (p : A -> bool) (l : list A) :
  NoDup (map f l) -> NoDup (map f (List.filter p l)).
Proof.
  induction l as [|x l IH]; simpl; [done|].
  intros Hnd. apply NoDup_cons in Hnd as [Hx Hnd].
  destruct (p x); simpl; [|by apply IH].
  apply NoDup_cons. split; [|by apply IH].
  intros Hin. apply Hx. apply list_elem_of_In. apply list_elem_of_In in Hin.
  apply in_map_iff in Hin as (y & Hy & Hin). apply filter_In in Hin as [Hin _].
  apply in_map_iff. by exists y.
Qed.

(** Among articles with unique keys at most one is named by a row. *)
Lemma named_at_most_once (r : VKImportedPost) (l : list News) :
  NoDup (map n_id l) ->
  (length (List.filter (fun a => names a r) l) <= 1)%nat.
Proof.
  induction l as [|x l IH]; simpl; [lia|].
  intros Hnd. apply NoDup_cons in Hnd as [Hx Hnd]. specialize (IH Hnd).
  destruct (names x r) eqn:Ex; [|done]. simpl.
  rewrite filter_none; [simpl; lia|]. apply Forall_forall. intros y Hy.
  apply not_true_iff_false. intros Ey. apply Hx.
  unfold names in Ex, Ey. destruct (news_id r) as [n|]; [|done].
  apply andb_true_iff in Ex as [_ Ex]. apply andb_true_iff in Ey as [_ Ey].
  apply Z.eqb_eq in Ex, Ey. rewrite <- Ex, Ey.
  apply list_elem_of_In, in_map. by apply list_elem_of_In.
Qed.

Lemma named_count (r : VKImportedPost) (l : list News) (k k' : Z) :
  NoDup (map n_id l) ->
  (k' = k /\ List.filter (fun a => names a r) l = [])
  \/ (k' = k + 1 /\ List.filter (fun a => names a r) l <> []) ->
  k' - k = Z.of_nat (length l)
           - Z.of_nat (length (List.filter (fun a => negb (names a r)) l)).
Proof.
  intros Hnd H. pose proof (named_at_most_once r l Hnd) as Hle.
  pose proof (List.filter_length (fun a => names a r) l) as Hlen.
  destruct H as [[-> E]|[-> E]].
  - rewrite E in Hlen. simpl in Hlen. lia.
  - destruct (List.filter (fun a => names a r) l) as [|y t]; [done|].
    simpl in Hle, Hlen. lia.
Qed.

Lemma names_linked (a : News) (rows : list VKImportedPost) :
  existsb (names a) rows = true -> In (n_id a) (linked_ids rows).
Proof.
  intros H. apply existsb_exists in H as (r & Hr & Hn).
  unfold linked_ids. apply in_flat_map. exists r. split; [done|].
  unfold names in Hn. destruct (news_id r) as [n|]; [|done].
  apply andb_true_iff in Hn as [-> Hn]. apply Z.eqb_eq in Hn. by left.
Qed.

Section BulkClearRows.
Variable autoflush : bool.

(** The loop over the ledger rows, seen on the flushed database: the rows
    leave the ledger, the articles they name leave the content table, and
    the counter grows by at most one per row. *)
Lemma delete_imported_rows_effect (rows : list VKImportedPost) :
  forall (k : Z) (s : Session),
  exists k' s',
    delete_imported_rows autoflush rows k s = (Return k', s')
    /\ vk_integrations (flushed s') = vk_integrations (flushed s)
    /\ map ip_id (vk_imported_posts (flushed s'))
       = List.filter
           (fun i => negb (existsb (fun r => ip_id r =? i) rows))
           (map ip_id (vk_imported_posts (flushed s)))
    /\ news (flushed s')
       = List.filter (fun a => negb (existsb (names a) rows)) (news (flushed s))
    /\ news_categories (flushed s') = news_categories (flushed s)
    /\ vk_integrations_seq (flushed s') = vk_integrations_seq (flushed s)
    /\ vk_imported_posts_seq (flushed s') = vk_imported_posts_seq (flushed s)
    /\ news_seq (flushed s') = news_seq (flushed s)
    /\ k <= k' <= k + Z.of_nat (length rows)
    /\ (Forall (fun a => existsb (names a) rows = false) (s_deleted_news s) ->
        NoDup (map n_id (news (flushed s))) ->
        NoDup (linked_ids rows) ->
        k' - k = Z.of_nat (length (news (flushed s)))
                 - Z.of_nat (length (news (flushed s')))).
Proof.
  induction rows as [|r rest IH]; intros k s.
  - exists k, s. split; [done|]. split; [done|].
    split; [symmetry; by apply filter_true|].
    split; [symmetry; by apply filter_true|].
    do 4 (split; [done|]). split; [simpl; lia|]. intros _ _ _. lia.
  - destruct (delete_news_of_effect autoflush r k s) as (k1 & s1 & E1 & Hrow).
    destruct Hrow as (H1 & H2 & H3 & H4 & H5 & H6 & H7 & H8 & H9 & H10).
    set (s2 := {| s_db := s_db s1; s_deleted_news := s_deleted_news s1;
                  s_deleted_posts := s_deleted_posts s1 ++ [r] |}).
    destruct (IH k1 s2) as (k' & s' & E' & I1 & I2 & I3 & I4 & I5 & I6 & I7 & I8 & I9).
    assert (Hledger : map ip_id (vk_imported_posts (flushed s2))
                      = List.filter (fun x => negb (ip_id r =? x))
                          (map ip_id (vk_imported_posts (flushed s1)))).
    { rewrite !flushed_ledger_ids. unfold s2. simpl. rewrite <- filter_and.
      apply filter_ext. intros x. rewrite existsb_app. simpl.
      by rewrite orb_false_r, negb_orb. }
    assert (Hnews2 : news (flushed s2) = news (flushed s1)) by done.
    exists k', s'. split.
    { cbn [delete_imported_rows]. unfold bind. rewrite E1.
      unfold session_delete_post, modify. cbv beta iota. fold s2. exact E'. }
    split; [by rewrite I1, <- H1|].
    split.
    { rewrite I2, Hledger, H2, <- filter_and. apply filter_ext. intros x.
      simpl. by rewrite negb_orb. }
    split.
    { rewrite I3, Hnews2, H3, <- filter_and. apply filter_ext. intros x.
      simpl. by rewrite negb_orb. }
    split; [by rewrite I4, <- H4|]. split; [by rewrite I5, <- H5|].
    split; [by rewrite I6, <- H6|]. split; [by rewrite I7, <- H7|].
    split.
    { simpl length. destruct H8; lia. }
    intros Hp Hnd Hl.
    assert (Hpr : Forall (fun a => names a r = false) (s_deleted_news s)).
    { eapply Forall_impl; [exact Hp|]. intros a Ha. simpl in Ha.
      by apply orb_false_iff in Ha as [Ha _]. }
    pose proof (named_count r (news (flushed s)) k k1 Hnd (H9 Hpr)) as Hk1.
    rewrite <- H3 in Hk1.
    assert (Hl' : NoDup (linked_ids rest) /\
                  forall a, names a r = true -> ~ In (n_id a) (linked_ids rest)).
    { unfold linked_ids in Hl. simpl in Hl. fold (linked_ids rest) in Hl.
      split.
      - by apply NoDup_app in Hl as (_ & _ & Hl).
      - intros a Ha Hin. unfold names in Ha.
        destruct (news_id r) as [n|]; [|done].
        apply andb_true_iff in Ha as [Ht Ha]. apply Z.eqb_eq in Ha.
        rewrite Ht in Hl. simpl in Hl. apply NoDup_cons in Hl as [Hl _].
        apply Hl. apply list_elem_of_In. by rewrite Ha. }
    destruct Hl' as [Hl1 Hl2].
    assert (Hp2 : Forall (fun a => existsb (names a) rest = false)
                    (s_deleted_news s2)).
    { apply Forall_forall. intros a Ha. apply list_elem_of_In in Ha.
      simpl in Ha. destruct (H10 a Ha) as [Hin|Hn].
      - rewrite Forall_forall in Hp. apply list_elem_of_In, Hp in Hin.
        simpl in Hin. by apply orb_false_iff in Hin as [_ Hin].
      - apply not_true_iff_false. intros Hex.
        by apply (Hl2 a Hn), names_linked. }
    assert (Hnd2 : NoDup (map n_id (news (flushed s2)))).
    { rewrite Hnews2, H3. by apply NoDup_map_filter. }
    specialize (I9 Hp2 Hnd2 Hl1). rewrite Hnews2 in I9. lia.
Qed.

End BulkClearRows.

(** X21. The bulk clear.  Whether or not the session autoflushes,
    [delete_all_imported] returns and leaves a flushed session in which the
    ledger is empty and the content table holds exactly the articles that
    no ledger row named; the configurations and the categories are as they
    were.  [deleted_records] is the number of ledger rows, [deleted_news]
    is at most that, and when the keys of the articles are unique and no
    two rows name the same article it is the number of articles that left
    the table. *)
Theorem delete_all_imported_effect (autoflush : bool) (d : Database) :
  exists n d',
    delete_all_imported autoflush (session_of d)
    = (Return {| deleted_news := n;
                 deleted_records := Z.of_nat (length (vk_imported_posts d)) |},
       session_of d')
    /\ vk_imported_posts d' = []
    /\ news d'
       = List.filter (fun a => negb (existsb (names a) (vk_imported_posts d)))
           (news d)
    /\ vk_integrations d' = vk_integrations d
    /\ news_categories d' = news_categories d
    /\ 0 <= n <= Z.of_nat (length (vk_imported_posts d))
    /\ (NoDup (map n_id (news d)) ->
        NoDup (linked_ids (vk_imported_posts d)) ->
        n = Z.of_nat (length (news d)) - Z.of_nat (length (news d'))).
Proof.
  destruct (delete_imported_rows_effect autoflush (vk_imported_posts d) 0
              (session_of d))
    as (n & s' & E & I1 & I2 & I3 & I4 & I5 & I6 & I7 & I8 & I9).
  rewrite flushed_session_of in *.
  exists n, (flushed s'). split.
  { unfold delete_all_imported. unfold bind at 1. unfold get. cbv beta iota.
    change (vk_imported_posts (s_db (session_of d))) with (vk_imported_posts d).
    unfold bind at 1. rewrite E. by unfold bind, flush, modify, ret. }
  split.
  { apply (map_eq_nil ip_id). rewrite I2. apply filter_none.
    apply Forall_forall. intros x Hx. apply list_elem_of_In, in_map_iff in Hx.
    destruct Hx as (r & <- & Hr).
    apply negb_false_iff, existsb_exists. exists r.
    split; [done|apply Z.eqb_refl]. }
  do 3 (split; [done|]). split; [lia|].
  intros Hnd Hl. specialize (I9 (List.Forall_nil _) Hnd Hl). lia.
Qed.

(** The bulk clear on the sample database with two ledger rows, one of
    which names the imported article. *)
Example delete_all_imported_sample :
  fst (delete_all_imported true (session_of two_rows_db))
  = Return {| deleted_news := 1; deleted_records := 2 |}
  /\ fst (delete_all_imported false (session_of two_rows_db))
     = Return {| deleted_news := 1; deleted_records := 2 |}.
Proof. by vm_compute. Qed.

(** ** What the operations keep true of the tables *)

Lemma Forall_list_filter {A} (P : A -> Prop) (q : A -> bool) (l : list A) :
  Forall P l -> Forall P (List.filter q l).
Proof.
  rewrite !Forall_forall. intros HP x Hx. apply HP.
  apply list_elem_of_In. apply list_elem_of_In in Hx.
  by apply filter_In in Hx as [Hx _].
Qed.

(** Ledger rows leave, the configurations change: what stays true. *)
Lemma ledger_filtered_ok (q : VKImportedPost -> bool) (rows : list VKIntegration)
    (iseq : Z) (d : Database) :
  db_ok d -> ledger_ids_ok d -> ledger_news_fk_ok d ->
  let d' := {| vk_integrations := rows;
               vk_imported_posts := List.filter q (vk_imported_posts d);
               news := news d;
               news_categories := news_categories d;
               vk_integrations_seq := iseq;
               vk_imported_posts_seq := vk_imported_posts_seq d;
               news_seq := news_seq d |} in
  db_ok d' /\ ledger_ids_ok d' /\ ledger_news_fk_ok d'.
Proof.
  intros (Hs & Hl & Hk) (Hi1 & Hi2) Hn. simpl. split; [|split].
  - split; [exact Hs|]. split; [|exact Hk].
    unfold ledger_unique. simpl. by apply NoDup_map_filter.
  - split; simpl; [by apply NoDup_map_filter|by apply Forall_list_filter].
  - unfold ledger_news_fk_ok. simpl. by apply Forall_list_filter.
Qed.

(** The configurations are rewritten in place, keys kept. *)
Lemma set_vk_integrations_ok (rows : list VKIntegration) (d : Database) :
  map vi_id rows = map vi_id (vk_integrations d) ->
  system_ok d -> system_ok (set_vk_integrations rows d).
Proof.
  intros Hids (Hok & Hi & Hfk & Hn & Hlen).
  split; [exact Hok|]. split; [exact Hi|]. split; [|split; [exact Hn|]].
  - unfold ledger_fk_ok. simpl. by rewrite Hids.
  - simpl. by rewrite <- (length_map vi_id), Hids, length_map.
Qed.

Lemma replace_row_ids (id : Z) (f : VKIntegration -> VKIntegration)
    (rows : list VKIntegration) :
  (forall i, vi_id (f i) = vi_id i) ->
  map vi_id (map (fun i => if vi_id i =? id then f i else i) rows)
  = map vi_id rows.
Proof.
  intros Hf. rewrite map_map. apply map_ext. intros i.
  destruct (vi_id i =? id); [apply Hf|done].
Qed.

Lemma checkpointed_ok (id : Z) (now : datetime) (d : Database) :
  system_ok d -> system_ok (checkpointed id now d).
Proof.
  intros Hok. apply set_vk_integrations_ok; [|exact Hok].
  by apply (replace_row_ids id (with_last_checked_at (Some now))).
Qed.

Section Kept.
Context {H : Host}.

Lemma import_vk_post_keeps (p : Post) (i : VKIntegration) (d : Database) :
  system_ok d ->
  In (vi_id i) (map vi_id (vk_integrations d)) ->
  exists r d',
    import_vk_post_at_once p i d = (Return r, d')
    /\ system_ok d'
    /\ vk_integrations d' = vk_integrations d.
Proof.
  intros (Hok & Hids & Hfk & Hnfk & Hlen) Hi.
  destruct (import_vk_post_cases p i d Hok)
    as [[E0 _]|(a & d1 & E1 & Ht & Hn & Hfree & Hok1 & Hr1 & Hd1)].
  - exists None, d. split; [exact E0|]. split; [|done].
    by do 4 (split; [done|]).
  - set (row := ledger_row p i a (vk_imported_posts_seq d1)) in *.
    assert (H1 : ledger_ids_ok d1 /\ ledger_fk_ok d1 /\ ledger_news_fk_ok d1
                 /\ vk_integrations d1 = vk_integrations d).
    { destruct Hd1 as [[-> _]|(r & -> & _)]; [done|].
      split; [by apply ledger_ids_purge|].
      split; [by apply Forall_list_filter|].
      split; [by apply Forall_list_filter|done]. }
    destruct H1 as (Hids1 & Hfk1 & Hnfk1 & Hi1).
    exists (Some a), (stored a row d1). split; [exact E1|]. split; [|exact Hi1].
    split; [apply stored_ok; auto|]. split; [by apply ledger_ids_stored|].
    split; [|split].
    + unfold ledger_fk_ok. simpl. apply Forall_app. split; [exact Hfk1|].
      apply Forall_cons. split; [|by apply Forall_nil].
      simpl. by rewrite Hi1.
    + unfold ledger_news_fk_ok. simpl. apply Forall_app. split.
      * eapply Forall_impl; [exact Hnfk1|]. intros r Hr. simpl in Hr.
        destruct (news_id r) as [n|]; [|done].
        rewrite map_app. apply in_app_iff. by left.
      * apply Forall_cons. split; [|by apply Forall_nil]. simpl.
        rewrite map_app. apply in_app_iff. right. by left.
    + simpl. by rewrite Hi1.
Qed.

Lemma import_posts_keeps (posts : list Post) (i : VKIntegration) :
  forall (k : Z) (d : Database),
  system_ok d ->
  In (vi_id i) (map vi_id (vk_integrations d)) ->
  exists n d',
    import_posts_at_once posts i k d = (Return n, d')
    /\ system_ok d'
    /\ vk_integrations d' = vk_integrations d.
Proof.
  induction posts as [|p posts IH]; intros k d Hok Hi.
  - by exists k, d.
  - cbn [import_posts_at_once].
    destruct (truthy_opt truthy_int (marked_as_ads p)); [by apply IH|].
    destruct (import_vk_post_keeps p i d Hok Hi) as (r & d1 & E1 & Hok1 & Hi1).
    unfold bind. rewrite E1.
    destruct (IH (match r with Some _ => k + 1 | None => k end) d1 Hok1)
      as (n & d' & E & Hok' & Hi'); [by rewrite Hi1|].
    exists n, d'. split; [exact E|]. split; [exact Hok'|]. congruence.
Qed.

End Kept.

Section KeptByFetch.
Context {H : Host}.
Variable wall_get : VKRequest -> option VKData.
Variables autoflush expire_on_commit : bool.
Hypothesis feed_ok : fetch_ok autoflush wall_get.

Lemma feed_batch_ok (rq : VKRequest) (posts : list Post) (d : Database) :
  system_ok d ->
  wall_get rq = Some (VKResponse posts) ->
  batch_ok autoflush posts d.
Proof.
  intros (_ & (_ & Hk) & _) Ew.
  destruct feed_ok as [Ha|Hnd]; [by left|right].
  split; [by apply (Hnd rq)|exact Hk].
Qed.

Lemma alone_import_posts_keeps (posts : list Post) (i : VKIntegration) (d : Database) :
  system_ok d ->
  In (vi_id i) (map vi_id (vk_integrations d)) ->
  batch_ok autoflush posts d ->
  exists n d',
    alone (import_posts autoflush posts i 0) d = (Return n, d')
    /\ system_ok d'
    /\ vk_integrations d' = vk_integrations d.
Proof.
  intros Hok Hi Hb.
  destruct (import_posts_keeps posts i 0 d Hok Hi) as (n & d' & E & Hok' & Hi').
  exists n, d'. split; [|done]. rewrite alone_import_posts; [exact E|].
  destruct Hb as [Hb|[Hnd Hk]]; [by left|right]. split; [done|]. split; [done|].
  by exists n, d'.
Qed.

Lemma vk_fetch_integration_keeps (now : datetime) (i : VKIntegration)
    (st : SessionStatus) (w : World) :
  system_ok (db w) ->
  In (vi_id i) (map vi_id (vk_integrations (db w))) ->
  system_ok
    (db (snd (vk_fetch_integration wall_get autoflush expire_on_commit now i st w)))
  /\ map vi_id
       (vk_integrations
          (db (snd (vk_fetch_integration wall_get autoflush expire_on_commit now i
                      st w))))
     = map vi_id (vk_integrations (db w)).
Proof.
  intros Hok Hi.
  destruct st; try (by rewrite vk_fetch_integration_expired).
  all: match goal with
       | |- context [vk_fetch_integration _ _ _ _ _ ?st _] =>
           destruct (vk_fetch_integration_outcome wall_get autoflush expire_on_commit
                       now i st w) as (st' & w' & E & Hout); [done|]
       end.
  all: rewrite E; cbn [snd].
  all: destruct Hout as [(_ & -> & _)|(_ & _ & Hdb)]; [done|].
  all: destruct (wall_get (request_of i)) as [[msg|posts]|] eqn:Ew;
         try (destruct Hdb as [-> _]; done).
  all: destruct (alone_import_posts_keeps posts i (db w) Hok Hi
                   (feed_batch_ok _ _ _ Hok Ew)) as (n0 & d0 & E0 & Hok0 & Hi0).
  all: rewrite E0 in Hdb; destruct Hdb as [-> _].
  all: split; [by apply checkpointed_ok|].
  all: unfold checkpointed; simpl.
  all: rewrite (replace_row_ids (vi_id i) (with_last_checked_at (Some now))) by done.
  all: by rewrite Hi0.
Qed.

Lemma fetch_integrations_keeps (clock : VKIntegration -> datetime)
    (l : list VKIntegration) :
  forall (st : SessionStatus) (w : World),
  system_ok (db w) ->
  Forall (fun i => In (vi_id i) (map vi_id (vk_integrations (db w)))) l ->
  system_ok
    (db (snd (fetch_integrations wall_get autoflush expire_on_commit clock l st w))).
Proof.
  induction l as [|i l IH]; intros st w Hok Hl; [exact Hok|].
  apply Forall_cons in Hl as [Hi Hl].
  destruct (vk_fetch_integration_keeps (clock i) i st w Hok Hi) as [Hok1 Hids1].
  cbn [fetch_integrations]. unfold bind.
  destruct (vk_fetch_integration wall_get autoflush expire_on_commit (clock i) i st w)
    as [[st'|e] w1]; cbn [snd] in *; [|exact Hok1].
  apply IH; [exact Hok1|].
  eapply Forall_impl; [exact Hl|]. intros x Hx. simpl in Hx. by rewrite Hids1.
Qed.

Lemma vk_fetch_tick_keeps (clock : VKIntegration -> datetime) (w : World) :
  system_ok (db w) ->
  system_ok (db (snd (vk_fetch_tick wall_get autoflush expire_on_commit clock w))).
Proof.
  intros Hok.
  pose proof (fetch_integrations_keeps clock
                (List.filter (fun i => str_eqb (mode i) MODE_AUTO)
                   (vk_integrations (db w))) InTransaction w Hok) as Hk.
  unfold vk_fetch_tick, except_log. unfold bind at 1. unfold get. cbv beta iota.
  destruct (fetch_integrations _ _ _ _ _ _ w) as [[[]|e] w'];
    cbn [snd] in *; apply Hk.
  all: apply Forall_forall; intros i Hin; apply list_elem_of_In in Hin.
  all: apply filter_In in Hin as [Hin _]; by apply in_map.
Qed.

Lemma fetch_now_keeps (now : datetime) (w : World) :
  system_ok (db w) ->
  system_ok (db (snd (fetch_now wall_get autoflush now w))).
Proof.
  intros Hok. destruct w as [d calls]. simpl in Hok.
  unfold fetch_now, first_integration. run.
  destruct (vk_integrations d) as [|i rest] eqn:Ei; simpl; [done|].
  destruct (str_eqb (mode i) MODE_OFF); [done|].
  unfold except_http, fetch_vk_posts. run. fold (request_of i).
  destruct (wall_get (request_of i)) as [[msg|posts]|] eqn:Ew; simpl; try done.
  rewrite on_session_import_batch. cbn [db vk_calls].
  destruct (alone_import_posts_keeps posts i d Hok) as (n & d' & E & Hok' & Hi').
  { rewrite Ei. by left. }
  { by apply (feed_batch_ok (request_of i)). }
  rewrite E. simpl. by apply (checkpointed_ok (vi_id i) now d').
Qed.

End KeptByFetch.

(** The first configuration and its ledger rows leave. *)
Lemma delete_integration_keeps (old : VKIntegration) (rest : list VKIntegration)
    (d : Database) :
  vk_integrations d = old :: rest ->
  system_ok d ->
  system_ok (snd (delete_integration old d))
  /\ vk_integrations (snd (delete_integration old d)) = [].
Proof.
  intros Ei (Hok & Hids & Hfk & Hnfk & Hlen).
  assert (Hrest : rest = []).
  { rewrite Ei in Hlen. simpl in Hlen. destruct rest; [done|simpl in Hlen; lia]. }
  subst rest.
  assert (Hrows : vk_integrations (snd (delete_integration old d)) = []).
  { unfold delete_integration, modify. simpl. rewrite Ei. simpl.
    by rewrite Z.eqb_refl. }
  split; [|exact Hrows].
  destruct (ledger_filtered_ok
              (fun r => negb (vk_integration_id r =? vi_id old))
              (List.filter (fun i => negb (vi_id i =? vi_id old)) (vk_integrations d))
              (vk_integrations_seq d) d Hok Hids Hnfk) as (H1 & H2 & H3).
  split; [exact H1|]. split; [exact H2|]. split; [|split; [exact H3|]].
  - unfold ledger_fk_ok. rewrite Hrows.
    unfold delete_integration, modify. simpl.
    apply Forall_forall. intros r Hr. apply list_elem_of_In in Hr.
    apply filter_In in Hr as [Hr Hne].
    unfold ledger_fk_ok in Hfk. rewrite Forall_forall in Hfk.
    apply list_elem_of_In, Hfk in Hr. rewrite Ei in Hr. simpl in Hr.
    destruct Hr as [Hr|[]]. apply negb_true_iff, Z.eqb_neq in Hne. congruence.
  - rewrite Hrows. simpl. lia.
Qed.

Lemma create_vk_integration_keeps {H : Host} (data : VKIntegrationCreate)
    (d : Database) :
  system_ok d -> system_ok (snd (create_vk_integration data d)).
Proof.
  intros Hok. rewrite create_vk_integration_run.
  destruct (insert_refused d _); [exact Hok|]. cbn [snd].
  set (i' := row_of data (vk_integrations_seq d)).
  assert (Hadd : forall d0,
            system_ok d0 -> vk_integrations d0 = [] ->
            system_ok {| vk_integrations := vk_integrations d0 ++ [i'];
                         vk_imported_posts := vk_imported_posts d0;
                         news := news d0;
                         news_categories := news_categories d0;
                         vk_integrations_seq := vk_integrations_seq d + 1;
                         vk_imported_posts_seq := vk_imported_posts_seq d0;
                         news_seq := news_seq d0 |}).
  { intros d0 (H1 & H2 & H3 & H4 & _) E0.
    split; [exact H1|]. split; [exact H2|]. split; [|split; [exact H4|]].
    - unfold ledger_fk_ok in *. simpl. eapply Forall_impl; [exact H3|].
      intros r Hr. simpl in Hr. rewrite map_app. apply in_app_iff. by left.
    - simpl. rewrite E0. simpl. lia. }
  destruct (vk_integrations d) as [|old rest] eqn:Ei.
  - specialize (Hadd d Hok Ei). by rewrite Ei in Hadd.
  - destruct (delete_integration_keeps old rest d Ei Hok) as [Hok1 Hrows].
    specialize (Hadd _ Hok1 Hrows).
    unfold delete_integration, modify in Hadd. simpl in Hadd.
    by rewrite Ei in Hadd.
Qed.

Lemma delete_vk_integration_keeps (d : Database) :
  system_ok d -> system_ok (snd (delete_vk_integration d)).
Proof.
  intros Hok. unfold delete_vk_integration, first_integration.
  unfold bind at 1 2. unfold get. cbv beta iota.
  destruct (vk_integrations d) as [|old rest] eqn:Ei; simpl; [done|].
  by destruct (delete_integration_keeps old rest d Ei Hok).
Qed.

Lemma update_vk_integration_keeps {H : Host} (data : VKIntegrationUpdate)
    (d : Database) :
  system_ok d -> system_ok (snd (update_vk_integration data d)).
Proof.
  intros Hok.
  destruct (vk_integrations d) as [|i rest] eqn:Ei.
  - unfold update_vk_integration, first_integration. run. by rewrite Ei.
  - rewrite (update_vk_integration_run data d i rest Ei).
    destruct (update_refused d data i); [exact Hok|]. cbn [snd].
    apply set_vk_integrations_ok; [|exact Hok].
    rewrite Ei. simpl. f_equal.
    rewrite map_map. apply map_ext_in. intros x _.
    destruct (vi_id x =? vi_id i) eqn:Ex; [|done].
    apply Z.eqb_eq in Ex. by rewrite Ex.
Qed.

Lemma set_vk_mode_keeps (new_mode : str) (d : Database) :
  system_ok d -> system_ok (snd (set_vk_mode new_mode d)).
Proof.
  intros Hok. unfold set_vk_mode.
  destruct (negb (is_mode new_mode)); [done|].
  unfold first_integration. run.
  destruct (vk_integrations d) as [|i rest] eqn:Ei; simpl; [done|].
  apply set_vk_integrations_ok; [|exact Hok].
  rewrite map_map. apply map_ext_in. intros x _.
  destruct (vi_id x =? vi_id i) eqn:Ex; [|done].
  apply Z.eqb_eq in Ex. by rewrite Ex.
Qed.

Lemma delete_all_imported_keeps (autoflush : bool) (d : Database) :
  system_ok d ->
  system_ok (s_db (snd (delete_all_imported autoflush (session_of d)))).
Proof.
  intros ((Hs & Hl & Hk1 & Hk2) & (Hi1 & Hi2) & Hfk & Hnfk & Hlen).
  destruct (delete_imported_rows_effect autoflush (vk_imported_posts d) 0
              (session_of d))
    as (n & s' & E & I1 & I2 & I3 & I4 & I5 & I6 & I7 & _).
  rewrite flushed_session_of in *.
  assert (Hledger : vk_imported_posts (flushed s') = []).
  { apply (map_eq_nil ip_id). rewrite I2. apply filter_none.
    apply Forall_forall. intros x Hx. apply list_elem_of_In, in_map_iff in Hx.
    destruct Hx as (r & <- & Hr).
    apply negb_false_iff, existsb_exists. exists r.
    split; [done|apply Z.eqb_refl]. }
  assert (Ed : s_db (snd (delete_all_imported autoflush (session_of d)))
               = flushed s').
  { unfold delete_all_imported. unfold bind at 1. unfold get. cbv beta iota.
    change (vk_imported_posts (s_db (session_of d))) with (vk_imported_posts d).
    unfold bind at 1. rewrite E. by unfold bind, flush, modify, ret. }
  rewrite Ed. split; [split; [|split; [|split]]|split; [split|split; [|split]]].
  - unfold slugs_unique. rewrite I3. by apply NoDup_map_filter.
  - unfold ledger_unique. rewrite Hledger. constructor.
  - by rewrite I7.
  - rewrite I7, I3. by apply Forall_list_filter.
  - rewrite Hledger. constructor.
  - rewrite Hledger. constructor.
  - unfold ledger_fk_ok. rewrite Hledger. constructor.
  - unfold ledger_news_fk_ok. rewrite Hledger. constructor.
  - by rewrite I1.
Qed.

Lemma scheduled_news_publisher_tick_keeps (now : datetime) (d : Database) :
  system_ok d -> system_ok (snd (scheduled_news_publisher_tick now d)).
Proof.
  intros ((Hs & Hl & Hk1 & Hk2) & Hids & Hfk & Hnfk & Hlen).
  rewrite publisher_tick_rows. simpl.
  assert (Hslug : map slug (map (fun a => if due now a then publish now a else a)
                              (news d)) = map slug (news d)).
  { rewrite map_map. apply map_ext. intros a. by destruct (due now a). }
  assert (Hkey : map n_id (map (fun a => if due now a then publish now a else a)
                             (news d)) = map n_id (news d)).
  { rewrite map_map. apply map_ext. intros a. by destruct (due now a). }
  split; [split; [|split; [|split]]|split; [|split; [|split]]]; try done.
  - unfold slugs_unique. simpl. by rewrite Hslug.
  - simpl. apply Forall_map. eapply Forall_impl; [exact Hk2|].
    intros a Ha. simpl in *. by destruct (due now a).
  - unfold ledger_news_fk_ok. simpl. by rewrite Hkey.
Qed.

Lemma news_deleted_keeps (id : Z) (d : Database) :
  system_ok d -> system_ok (news_deleted id d).
Proof.
  intros ((Hs & Hl & Hk1 & Hk2) & (Hi1 & Hi2) & Hfk & Hnfk & Hlen).
  set (g := fun r => match news_id r with
                     | Some n => if n =? id then with_news_id None r else r
                     | None => r
                     end).
  assert (Hg : forall r, ledger_key (g r) = ledger_key r
                         /\ ip_id (g r) = ip_id r
                         /\ vk_integration_id (g r) = vk_integration_id r).
  { intros r. unfold g. destruct (news_id r) as [n|]; [|done].
    by destruct (n =? id). }
  split; [split; [|split; [|split]]|split; [split|split; [|split]]].
  - unfold slugs_unique. simpl. by apply NoDup_map_filter.
  - unfold ledger_unique. simpl. fold g. rewrite map_map.
    rewrite (map_ext _ ledger_key); [exact Hl|]. intros r. apply Hg.
  - done.
  - simpl. by apply Forall_list_filter.
  - simpl. fold g. rewrite map_map.
    rewrite (map_ext _ ip_id); [exact Hi1|]. intros r. apply Hg.
  - simpl. fold g. apply Forall_map. eapply Forall_impl; [exact Hi2|].
    intros r Hr. simpl in *. by rewrite (proj1 (proj2 (Hg r))).
  - unfold ledger_fk_ok in *. simpl. fold g. apply Forall_map.
    eapply Forall_impl; [exact Hfk|]. intros r Hr. simpl in *.
    by rewrite (proj2 (proj2 (Hg r))).
  - unfold ledger_news_fk_ok in *. simpl. fold g. apply Forall_map.
    eapply Forall_impl; [exact Hnfk|]. intros r Hr. simpl in *.
    unfold g. destruct (news_id r) as [n|] eqn:En; [|by rewrite En].
    destruct (n =? id) eqn:Eid; [done|]. rewrite En.
    apply in_map_iff in Hr as (a & Ha & Hin). apply in_map_iff.
    exists a. split; [done|]. apply filter_In. split; [done|].
    rewrite Ha. by rewrite Eid.
  - done.
Qed.


Lemma sample_operations_ok : Forall operation_ok sample_operations.
Proof.
  unfold sample_operations.
  repeat (apply Forall_cons; split;
          [first [exact I
                 |by left
                 |right; intros rq posts [= <-];
                  apply (bool_decide_unpack _); vm_compute; exact I]|]).
  constructor.
Qed.


(** Without the condition on the fetches it fails: in a session that does
    not autoflush, a batch with a post twice leaves two ledger rows for
    the post. *)
Example repeated_post_breaks_ledger :
  system_ok sample_db
  /\ apply_operations (H:=ascii_host)
       [OpFetchNow false (feed_of [post11; ad_post; post11]) 1700020000000000]
       sample_db
     = repeated_db
  /\ map vk_post_id (vk_imported_posts repeated_db) = [11; 11]
  /\ ~ system_ok repeated_db.
Proof.
  split; [apply (bool_decide_unpack _); vm_compute; exact I|].
  split; [by vm_compute|]. split; [by vm_compute|].
  intros ((_ & Hl & _) & _). revert Hl. apply (bool_decide_unpack _).
  vm_compute. exact I.
Qed.

(** The sample day, step by step: the number of configurations, ledger
    rows and articles after each operation. *)
Example sample_operations_trace :
  map (fun n =>
         let d := apply_operations (H:=ascii_host) (firstn n sample_operations)
                    empty_db in
         (length (vk_integrations d), length (vk_imported_posts d),
          length (news d)))
    (seq 1 11)
  = [(1, 0, 0); (1, 1, 1); (1, 2, 2); (1, 2, 2); (1, 2, 1); (1, 2, 2);
     (1, 2, 2); (1, 0, 2); (1, 1, 3); (1, 0, 2); (0, 0, 2)]%nat.
Proof. by vm_compute. Qed.

(** ** Initial data *)

Lemma count_key_app {A} (key : A -> str) (k : str) (l : list A) (x : A) :
  count_key key k (l ++ [x])
  = (count_key key k l + if str_eqb (key x) k then 1 else 0)%nat.
Proof.
  unfold count_key. rewrite List.filter_app, length_app. simpl.
  by destruct (str_eqb (key x) k).
Qed.

Lemma count_key_cases {A} (key : A -> str) (k : str) (l : list A) :
  match List.filter (fun y => str_eqb (key y) k) l with
  | [] => count_key key k l = 0%nat
  | [_] => count_key key k l = 1%nat
  | _ => (2 <= count_key key k l)%nat
  end.
Proof.
  unfold count_key. destruct (List.filter _ l) as [|a [|b r]]; simpl; lia.
Qed.

Lemma str_eqb_refl (a : str) : str_eqb a a = true.
Proof. by apply str_eqb_eq. Qed.

Lemma str_eqb_same (a b k : str) :
  str_eqb a b = true -> str_eqb a k = str_eqb b k.
Proof. intros E. apply str_eqb_eq in E. by subst. Qed.

Section AddIfAbsent.
Context {S A : Type}.
Variable rows : S -> list A.
Variable put : list A -> S -> S.
Variable key : A -> str.
Hypothesis rows_put : forall l s, rows (put l s) = l.
Hypothesis put_put : forall l l' s, put l (put l' s) = put l s.

Lemma add_if_absent_cases (x : A) (s : S) :
  (count_key key (key x) (rows s) = 0%nat
   /\ add_if_absent rows put key x s = (Return tt, put (rows s ++ [x]) s))
  \/ (count_key key (key x) (rows s) = 1%nat
      /\ add_if_absent rows put key x s = (Return tt, s))
  \/ ((2 <= count_key key (key x) (rows s))%nat
      /\ add_if_absent rows put key x s = (Raise MultipleResultsFound, s)).
Proof.
  pose proof (count_key_cases key (key x) (rows s)) as Hc.
  unfold add_if_absent, bind, get, modify, ret, scalar_one_or_none, raise.
  destruct (List.filter _ (rows s)) as [|a [|b r]]; auto.
Qed.

(** One step of a loop: the keys held once stay held once, and no count
    goes down. *)
Lemma add_if_absent_step (x : A) (s s1 : S) :
  add_if_absent rows put key x s = (Return tt, s1) ->
  (s1 = s \/ s1 = put (rows s ++ [x]) s)
  /\ (exists added, rows s1 = rows s ++ added)
  /\ count_key key (key x) (rows s1) = 1%nat
  /\ (forall k, (count_key key k (rows s) <= count_key key k (rows s1))%nat)
  /\ (forall k, count_key key k (rows s) = 1%nat ->
                count_key key k (rows s1) = 1%nat)
  /\ (forall k, (count_key key k (rows s) <= 1)%nat ->
                (count_key key k (rows s1) <= 1)%nat).
Proof.
  intros E.
  destruct (add_if_absent_cases x s) as [[Hc E1]|[[Hc E1]|[Hc E1]]];
    rewrite E1 in E; [| |done].
  - injection E as <-. rewrite rows_put.
    split; [by right|]. split; [by exists [x]|].
    split; [rewrite count_key_app, Hc, str_eqb_refl; lia|].
    assert (Hk : forall k, str_eqb (key x) k = true ->
                           count_key key k (rows s) = 0%nat).
    { intros k Ek. apply str_eqb_eq in Ek. by subst. }
    split; [|split]; intros k; rewrite count_key_app;
      destruct (str_eqb (key x) k) eqn:Ek; try lia;
      rewrite (Hk k Ek); lia.
  - injection E as <-. split; [by left|]. split; [exists []; by rewrite app_nil_r|].
    split; [done|]. split; [|split]; intros k; lia.
Qed.

Lemma for_each_add_returns (xs : list A) :
  forall s,
  Forall (fun x => (count_key key (key x) (rows s) <= 1)%nat) xs ->
  exists s',
    for_each xs (add_if_absent rows put key) s = (Return tt, s')
    /\ (s' = s \/ exists l, s' = put l s)
    /\ (exists added, rows s' = rows s ++ added)
    /\ Forall (fun x => count_key key (key x) (rows s') = 1%nat) xs
    /\ (forall k, count_key key k (rows s) = 1%nat ->
                  count_key key k (rows s') = 1%nat).
Proof.
  induction xs as [|x xs IH]; intros s Hall.
  - exists s. split; [done|]. split; [by left|].
    split; [exists []; by rewrite app_nil_r|]. split; [constructor|done].
  - apply Forall_cons in Hall as [Hx Hall].
    destruct (add_if_absent_cases x s) as [[Hc E1]|[[Hc E1]|[Hc E1]]]; [| |lia].
    all: destruct (add_if_absent_step x s _ E1)
           as (Hs1 & [a1 Ha1] & H1 & Hle & Hone & Hmost).
    all: match type of E1 with _ = (_, ?s1) =>
           destruct (IH s1) as (s' & E' & Hs' & [a2 Ha2] & Hall' & Hone')
         end.
    1,3: eapply Forall_impl; [exact Hall|]; intros y Hy; simpl in *;
         by apply Hmost.
    all: exists s'; split; [cbn [for_each]; unfold bind; by rewrite E1|].
    all: split; [|split; [|split; [|intros k Hk; by apply Hone', Hone]]].
    + right. destruct Hs' as [->|[l ->]]; [by eexists|].
      exists l. by rewrite put_put.
    + exists (a1 ++ a2). by rewrite Ha2, Ha1, <- app_assoc.
    + apply Forall_cons. split; [by apply Hone'|exact Hall'].
    + exact Hs'.
    + by exists a2.
    + apply Forall_cons. split; [by apply Hone'|exact Hall'].
Qed.

Lemma for_each_add_raises (xs : list A) :
  forall s,
  Exists (fun x => (2 <= count_key key (key x) (rows s))%nat) xs ->
  exists s',
    for_each xs (add_if_absent rows put key) s = (Raise MultipleResultsFound, s').
Proof.
  induction xs as [|x xs IH]; intros s Hex; [by apply Exists_nil in Hex|].
  destruct (add_if_absent_cases x s) as [[Hc E1]|[[Hc E1]|[Hc E1]]].
  3:{ exists s. cbn [for_each]. unfold bind. by rewrite E1. }
  all: apply Exists_cons in Hex as [Hx|Hex]; [lia|].
  all: destruct (add_if_absent_step x s _ E1) as (_ & _ & _ & Hle & _).
  all: match type of E1 with _ = (_, ?s1) => destruct (IH s1) as [s' E'] end.
  1,3: eapply Exists_impl; [exact Hex|]; intros y Hy; simpl in *;
       specialize (Hle (key y)); lia.
  all: exists s'; cbn [for_each]; unfold bind; by rewrite E1.
Qed.

Lemma for_each_add_fixed (xs : list A) (s : S) :
  Forall (fun x => count_key key (key x) (rows s) = 1%nat) xs ->
  for_each xs (add_if_absent rows put key) s = (Return tt, s).
Proof.
  induction xs as [|x xs IH]; intros Hall; [done|].
  apply Forall_cons in Hall as [Hx Hall].
  destruct (add_if_absent_cases x s) as [[Hc E1]|[[Hc E1]|[Hc E1]]]; [lia| |lia].
  cbn [for_each]. unfold bind. rewrite E1. by apply IH.
Qed.

End AddIfAbsent.

Section InitialDataProperties.
Variable ADMIN_EMAIL : str.

Lemma seed_admin_cases (hashed : str) (t : Tables) :
  ((2 <= count_key email ADMIN_EMAIL (users t))%nat
   /\ seed_admin ADMIN_EMAIL hashed t = (Raise MultipleResultsFound, t))
  \/ ((count_key email ADMIN_EMAIL (users t) <= 1)%nat
      /\ exists t1,
           seed_admin ADMIN_EMAIL hashed t = (Return tt, t1)
           /\ users t1
              = users t ++ match count_key email ADMIN_EMAIL (users t) with
                           | O => [admin_row ADMIN_EMAIL hashed (users_seq t)]
                           | _ => []
                           end
           /\ count_key email ADMIN_EMAIL (users t1) = 1%nat
           /\ (count_key email ADMIN_EMAIL (users t) = 1%nat -> t1 = t)
           /\ seasons t1 = seasons t /\ seasons_seq t1 = seasons_seq t
           /\ categories t1 = categories t
           /\ site_settings t1 = site_settings t).
Proof.
  pose proof (count_key_cases email ADMIN_EMAIL (users t)) as Hc.
  unfold seed_admin, bind, get, modify, ret, scalar_one_or_none, raise.
  destruct (List.filter _ (users t)) as [|a [|b r]] eqn:Ef.
  - right. split; [lia|]. eexists. split; [reflexivity|]. rewrite Hc.
    split; [done|]. split.
    { simpl. fold (admin_row ADMIN_EMAIL hashed (users_seq t)).
      rewrite count_key_app, Hc. simpl. by rewrite str_eqb_refl. }
    split; [lia|done].
  - right. split; [lia|]. exists t. split; [done|]. rewrite Hc.
    by rewrite app_nil_r.
  - left. by split.
Qed.

Lemma mark_others (e : Season) (l : list Season) :
  season_id e ∉ map season_id l ->
  map (fun s => if season_id s =? season_id e then with_is_current true s else s) l
  = l.
Proof.
  induction l as [|x l IH]; simpl; [done|]. intros Hn.
  apply not_elem_of_cons in Hn as [Hx Hn].
  destruct (season_id x =? season_id e) eqn:Ex;
    [apply Z.eqb_eq in Ex; congruence|].
  by rewrite IH.
Qed.

(** With unique keys, marking a season of the table leaves one current
    season when there was none. *)
Lemma mark_one_current (e : Season) (l : list Season) :
  NoDup (map season_id l) -> In e l ->
  List.filter is_current l = [] ->
  length (List.filter is_current
            (map (fun s => if season_id s =? season_id e
                           then with_is_current true s else s) l)) = 1%nat.
Proof.
  induction l as [|x l IH]; simpl; [done|].
  intros Hnd Hin Hcur. apply NoDup_cons in Hnd as [Hx Hnd].
  destruct (is_current x) eqn:Ec; [done|].
  destruct Hin as [->|Hin].
  - rewrite Z.eqb_refl. simpl. by rewrite (mark_others e l Hx), Hcur.
  - destruct (season_id x =? season_id e) eqn:Ex.
    + apply Z.eqb_eq in Ex. exfalso. apply Hx. rewrite Ex.
      apply list_elem_of_In. by apply in_map.
    + rewrite Ec. by apply IH.
Qed.

Lemma mark_same_rows (e : Season) (l : list Season) :
  map (with_is_current true)
    (map (fun s => if season_id s =? season_id e
                   then with_is_current true s else s) l)
  = map (with_is_current true) l.
Proof.
  rewrite map_map. apply map_ext. intros s.
  by destruct (season_id s =? season_id e).
Qed.

Lemma seed_season_cases (current_year : Z) (now_start now_end : datetime)
    (t : Tables) :
  let current := length (List.filter is_current (seasons t)) in
  let of_year :=
    length (List.filter (fun s => season_year s =? current_year) (seasons t)) in
  (((2 <= current)%nat \/ (current = 0%nat /\ (2 <= of_year)%nat))
   /\ seed_season current_year now_start now_end t
      = (Raise MultipleResultsFound, t))
  \/ ((current <= 1)%nat /\ (current = 0%nat -> (of_year <= 1)%nat)
      /\ exists t2,
           seed_season current_year now_start now_end t = (Return tt, t2)
           /\ (exists added,
                 map (with_is_current true) (seasons t2)
                 = map (with_is_current true) (seasons t) ++ added)
           /\ (NoDup (map season_id (seasons t)) ->
               length (List.filter is_current (seasons t2)) = 1%nat)
           /\ (current = 1%nat -> t2 = t)
           /\ users t2 = users t /\ users_seq t2 = users_seq t
           /\ categories t2 = categories t
           /\ site_settings t2 = site_settings t).
Proof.
  cbv zeta.
  assert (Hrun : seed_season current_year now_start now_end t
                 = match List.filter is_current (seasons t) with
                   | [] =>
                       match List.filter (fun s => season_year s =? current_year)
                               (seasons t) with
                       | [] => seed_season current_year now_start now_end t
                       | [e] =>
                           (Return tt,
                            set_seasons
                              (map (fun s => if season_id s =? season_id e
                                             then with_is_current true s else s)
                                 (seasons t))
                              (seasons_seq t) t)
                       | _ => (Raise MultipleResultsFound, t)
                       end
                   | [_] => (Return tt, t)
                   | _ => (Raise MultipleResultsFound, t)
                   end).
  { unfold seed_season, bind, get, modify, ret, scalar_one_or_none, raise.
    destruct (List.filter is_current (seasons t)) as [|a [|b r]]; [|done|done].
    by destruct (List.filter (fun s => season_year s =? current_year) (seasons t))
      as [|e [|e' r']]. }
  destruct (List.filter is_current (seasons t)) as [|a [|b r]] eqn:Ec.
  - destruct (List.filter (fun s => season_year s =? current_year) (seasons t))
      as [|e [|e' r']] eqn:Ey.
    + clear Hrun. right. simpl. split; [lia|]. split; [lia|].
      eexists. split.
      { unfold seed_season, bind, get, modify, ret, scalar_one_or_none, raise.
        rewrite Ec, Ey. reflexivity. }
      simpl.
      split; [eexists; by rewrite map_app|].
      split; [|done].
      intros _. by rewrite List.filter_app, Ec.
    + right. simpl. split; [lia|]. split; [lia|].
      eexists. split; [exact Hrun|]. simpl.
      split; [exists []; by rewrite app_nil_r, mark_same_rows|].
      split; [|done].
      intros Hnd. apply mark_one_current; [done| |done].
      assert (Hin : In e (List.filter (fun s => season_year s =? current_year)
                            (seasons t))) by (rewrite Ey; by left).
      by apply filter_In in Hin as [Hin _].
    + left. simpl. split; [right; split; [done|lia]|done].
  - right. simpl. split; [lia|]. split; [lia|].
    exists t. split; [done|]. split; [exists []; by rewrite app_nil_r|].
    split; [intros _; by rewrite Ec|done].
  - left. simpl. split; [left; lia|done].
Qed.

End InitialDataProperties.

Section InitialDataRuns.
Variable ADMIN_EMAIL : str.
Variables (hashed : str) (current_year : Z) (now_start now_end : datetime).

Local Ltac stage E := unfold bind at 1; rewrite E; cbv beta iota.

(** What a run of [create_initial_data] comes to. *)
Lemma create_initial_data_cases (t : Tables) :
  (~ lookups_ok ADMIN_EMAIL current_year t
   /\ create_initial_data ADMIN_EMAIL hashed current_year now_start now_end t
      = (Raise MultipleResultsFound, t))
  \/ (lookups_ok ADMIN_EMAIL current_year t
      /\ exists t',
           create_initial_data ADMIN_EMAIL hashed current_year now_start now_end t
           = (Return tt, t')
           /\ users t'
              = users t ++ match count_key email ADMIN_EMAIL (users t) with
                           | O => [admin_row ADMIN_EMAIL hashed (users_seq t)]
                           | _ => []
                           end
           /\ (exists added,
                 map (with_is_current true) (seasons t')
                 = map (with_is_current true) (seasons t) ++ added)
           /\ (exists added, categories t' = categories t ++ added)
           /\ (exists added, site_settings t' = site_settings t ++ added)
           /\ (NoDup (map season_id (seasons t)) -> seeded ADMIN_EMAIL t')).
Proof.
  unfold create_initial_data, in_session.
  destruct (seed_admin_cases ADMIN_EMAIL hashed t)
    as [[Hc E1]|(Hc & t1 & E1 & Hu1 & Hc1 & _ & Hs1 & Hq1 & Hcat1 & Hset1)].
  { left. split; [intros (H & _); lia|]. by stage E1. }
  destruct (seed_season_cases current_year now_start now_end t1)
    as [[Hbad E2]|(Hcur & Hyr & t2 & E2 & Hpre2 & Hone2 & _ & Hu2 & Hq2 & Hcat2 & Hset2)].
  { left. split.
    - intros (_ & H2 & H3 & _). rewrite Hs1 in Hbad.
      destruct Hbad as [Hbad|[Hb1 Hb2]]; [lia|]. specialize (H3 Hb1). lia.
    - stage E1. by stage E2. }
  rewrite Hs1 in Hcur, Hyr, Hpre2, Hone2.
  destruct (decide (Forall (fun c => (count_key cat_slug (cat_slug c) (categories t2)
                                      <= 1)%nat) default_categories))
    as [Hcats|Hcats].
  2:{ left. split.
      - intros (_ & _ & _ & H4 & _). apply Hcats. by rewrite Hcat2, Hcat1.
      - apply not_Forall_Exists in Hcats; [|intros c; apply _].
        destruct (for_each_add_raises categories set_categories cat_slug
                    (fun _ _ => eq_refl) default_categories t2) as [t3 E3].
        { eapply Exists_impl; [exact Hcats|]. intros c Hn. simpl in *. lia. }
        stage E1. stage E2. by stage E3. }
  destruct (for_each_add_returns categories set_categories cat_slug
              (fun _ _ => eq_refl) (fun _ _ _ => eq_refl)
              default_categories t2 Hcats)
    as (t3 & E3 & Hs3 & Hpre3 & Hall3 & _).
  assert (Hf3 : users t3 = users t2 /\ seasons t3 = seasons t2
                /\ site_settings t3 = site_settings t2).
  { by destruct Hs3 as [->|[l ->]]. }
  destruct Hf3 as (Hu3 & Hq3 & Hset3).
  destruct (decide (Forall (fun s => (count_key setting_key (setting_key s)
                                        (site_settings t3) <= 1)%nat)
                      default_settings))
    as [Hsets|Hsets].
  2:{ left. split.
      - intros (_ & _ & _ & _ & H5). apply Hsets.
        by rewrite Hset3, Hset2, Hset1.
      - apply not_Forall_Exists in Hsets; [|intros c; apply _].
        destruct (for_each_add_raises site_settings set_site_settings setting_key
                    (fun _ _ => eq_refl) default_settings t3) as [t4 E4].
        { eapply Exists_impl; [exact Hsets|]. intros c Hn. simpl in *. lia. }
        stage E1. stage E2. stage E3. by rewrite E4. }
  destruct (for_each_add_returns site_settings set_site_settings setting_key
              (fun _ _ => eq_refl) (fun _ _ _ => eq_refl)
              default_settings t3 Hsets)
    as (t4 & E4 & Hs4 & Hpre4 & Hall4 & _).
  assert (Hf4 : users t4 = users t3 /\ seasons t4 = seasons t3
                /\ categories t4 = categories t3).
  { by destruct Hs4 as [->|[l ->]]. }
  destruct Hf4 as (Hu4 & Hq4 & Hcat4).
  right. split.
  { split; [exact Hc|]. split; [exact Hcur|]. split; [exact Hyr|].
    split; [by rewrite <- Hcat1, <- Hcat2|by rewrite <- Hset1, <- Hset2, <- Hset3]. }
  exists t4. split; [stage E1; stage E2; stage E3; by rewrite E4|].
  split; [by rewrite Hu4, Hu3, Hu2|].
  split; [by rewrite Hq4, Hq3|].
  split; [by rewrite Hcat4, <- Hcat1, <- Hcat2|].
  split; [by rewrite <- Hset1, <- Hset2, <- Hset3|].
  intros Hnd. split; [by rewrite Hu4, Hu3, Hu2|].
  split; [rewrite Hq4, Hq3; by apply Hone2|].
  split; [by rewrite Hcat4|exact Hall4].
Qed.

(** Tables that hold every key once are left as they are. *)
Lemma create_initial_data_fixed (t : Tables) :
  seeded ADMIN_EMAIL t ->
  create_initial_data ADMIN_EMAIL hashed current_year now_start now_end t
  = (Return tt, t).
Proof.
  intros (H1 & H2 & H3 & H4).
  unfold create_initial_data, in_session.
  destruct (seed_admin_cases ADMIN_EMAIL hashed t)
    as [[Hc _]|(_ & t1 & E1 & _ & _ & Hsame & _)]; [lia|].
  rewrite (Hsame H1) in E1.
  destruct (seed_season_cases current_year now_start now_end t)
    as [[Hbad _]|(_ & _ & t2 & E2 & _ & _ & Hsame2 & _)].
  { destruct Hbad as [Hbad|[Hbad _]]; lia. }
  rewrite (Hsame2 H2) in E2.
  stage E1. stage E2.
  stage (for_each_add_fixed categories set_categories cat_slug
           default_categories t H3).
  by rewrite (for_each_add_fixed site_settings set_site_settings setting_key
                default_settings t H4).
Qed.

End InitialDataRuns.

(** X23. When the initial data fail.  [create_initial_data] returns
    exactly when none of the keys it looks up is held by two rows: the
    administrator's address, the current flag of the seasons, the year
    when no season is current, the slugs of the four default categories and
    the keys of the six default settings.  Otherwise it raises
    [MultipleResultsFound] and nothing is written. *)
Theorem create_initial_data_outcome (ADMIN_EMAIL hashed : str) (current_year : Z)
    (now_start now_end : datetime) (t : Tables) :
  if bool_decide (lookups_ok ADMIN_EMAIL current_year t)
  then exists t',
         create_initial_data ADMIN_EMAIL hashed current_year now_start now_end t
         = (Return tt, t')
  else create_initial_data ADMIN_EMAIL hashed current_year now_start now_end t
       = (Raise MultipleResultsFound, t).
Proof.
  destruct (create_initial_data_cases ADMIN_EMAIL hashed current_year
              now_start now_end t) as [[Hn E]|(Hok & t' & E & _)].
  - by rewrite bool_decide_eq_false_2.
  - rewrite bool_decide_eq_true_2 by done. by exists t'.
Qed.

(** Two seasons marked current: the initial data are not written. *)
Example create_initial_data_two_current :
  create_initial_data sample_admin_email (lit "h") 2025 0 0 two_current_tables
  = (Raise MultipleResultsFound, two_current_tables).
Proof. by vm_compute. Qed.

(** X24. What the initial data leave.  After a run that returns, on
    seasons with unique keys, every key the function looks up is held by
    exactly one row: there is one user with the administrator's address,
    one current season, one category for each default slug and one setting
    for each default key.  Rows are only added at the end of their tables;
    of the rows that were there, nothing changes but the current flag of a
    season. *)
Theorem create_initial_data_effect (ADMIN_EMAIL hashed : str) (current_year : Z)
    (now_start now_end : datetime) (t t' : Tables) :
  NoDup (map season_id (seasons t)) ->
  create_initial_data ADMIN_EMAIL hashed current_year now_start now_end t
  = (Return tt, t') ->
  seeded ADMIN_EMAIL t'
  /\ (exists added, users t' = users t ++ added)
  /\ (exists added,
        map (with_is_current true) (seasons t')
        = map (with_is_current true) (seasons t) ++ added)
  /\ (exists added, categories t' = categories t ++ added)
  /\ (exists added, site_settings t' = site_settings t ++ added).
Proof.
  intros Hnd E.
  destruct (create_initial_data_cases ADMIN_EMAIL hashed current_year
              now_start now_end t)
    as [[_ E0]|(_ & t0 & E0 & Hu & Hs & Hc & Hk & Hseeded)];
    rewrite E0 in E; [done|]. injection E as <-.
  split; [by apply Hseeded|]. split; [by eexists|]. by repeat split.
Qed.

Lemma create_initial_data_effect_witness :
  seeded sample_admin_email sample_seeded
  /\ (exists added, users sample_seeded = users sample_tables ++ added)
  /\ (exists added,
        map (with_is_current true) (seasons sample_seeded)
        = map (with_is_current true) (seasons sample_tables) ++ added)
  /\ (exists added, categories sample_seeded = categories sample_tables ++ added)
  /\ (exists added,
        site_settings sample_seeded = site_settings sample_tables ++ added).
Proof.
  apply (create_initial_data_effect sample_admin_email (lit "h") 2025 10 20
           sample_tables sample_seeded).
  - apply (bool_decide_unpack _). vm_compute. exact I.
  - vm_compute. reflexivity.
Defined.

(** X25. The initial data are written once.  After a run that returns, on
    seasons with unique keys, another run, at any later time and with any
    other hash of the password, returns and changes nothing. *)
Theorem create_initial_data_idempotent (ADMIN_EMAIL hashed : str) (current_year : Z)
    (now_start now_end : datetime) (t t' : Tables) :
  NoDup (map season_id (seasons t)) ->
  create_initial_data ADMIN_EMAIL hashed current_year now_start now_end t
  = (Return tt, t') ->
  forall (hashed' : str) (current_year' : Z) (now_start' now_end' : datetime),
    create_initial_data ADMIN_EMAIL hashed' current_year' now_start' now_end' t'
    = (Return tt, t').
Proof.
  intros Hnd E hashed' current_year' now_start' now_end'.
  apply create_initial_data_fixed.
  destruct (create_initial_data_cases ADMIN_EMAIL hashed current_year
              now_start now_end t)
    as [[_ E0]|(_ & t0 & E0 & _ & _ & _ & _ & Hseeded)];
    rewrite E0 in E; [done|]. injection E as <-. by apply Hseeded.
Qed.

Lemma create_initial_data_idempotent_witness :
  create_initial_data sample_admin_email (lit "g") 2026 30 40 sample_seeded
  = (Return tt, sample_seeded).
Proof.
  apply (create_initial_data_idempotent sample_admin_email (lit "h") 2025 10 20
           sample_tables sample_seeded).
  - apply (bool_decide_unpack _). vm_compute. exact I.
  - vm_compute. reflexivity.
Defined.

(** The sample tables after the initial data: the administrator is the
    fourth user, the season of 2025 is marked current and none is added,
    three categories and the six settings are added. *)
Example create_initial_data_sample :
  users sample_seeded = sample_users ++ [admin_row sample_admin_email (lit "h") 4]
  /\ seasons sample_seeded
     = [sample_season 1 2024 false; sample_season 2 2025 true]
  /\ map cat_slug (categories sample_seeded)
     = [lit "results"; lit "announcements"; lit "instructions"; lit "events"]
  /\ site_settings sample_seeded = default_settings.
Proof. by vm_compute. Qed.

(** X26. The administrator of the initial data passes the gates.  When no
    user has the administrator's address and no user has the next key of
    the table, the user that [create_initial_data] adds is granted by
    [get_current_super_admin], and so by [get_current_admin], on a token
    that verifies to that key. *)
Theorem seeded_admin_passes_gates
    (verify_token : str -> str -> option str) (int_of_str : str -> option Z)
    (ADMIN_EMAIL hashed : str) (current_year : Z) (now_start now_end : datetime)
    (t t' : Tables) (token text : str) :
  count_key email ADMIN_EMAIL (users t) = 0%nat ->
  Forall (fun u => user_id u <> users_seq t) (users t) ->
  create_initial_data ADMIN_EMAIL hashed current_year now_start now_end t
  = (Return tt, t') ->
  verify_token token (lit "access") = Some text ->
  truthy_str text = true ->
  int_of_str text = Some (users_seq t) ->
  get_current_super_admin verify_token int_of_str (Some token) (users t')
  = Granted (admin_row ADMIN_EMAIL hashed (users_seq t))
  /\ get_current_admin verify_token int_of_str (Some token) (users t')
     = Granted (admin_row ADMIN_EMAIL hashed (users_seq t)).
Proof.
  intros Hnone Hfresh E Hv Ht Hi.
  destruct (create_initial_data_cases ADMIN_EMAIL hashed current_year
              now_start now_end t)
    as [[_ E0]|(_ & t0 & E0 & Hu & _)];
    rewrite E0 in E; [done|]. injection E as <-.
  rewrite Hnone in Hu.
  assert (Hf : List.filter (fun u => user_id u =? users_seq t) (users t0)
               = [admin_row ADMIN_EMAIL hashed (users_seq t)]).
  { rewrite Hu, List.filter_app. simpl. rewrite Z.eqb_refl.
    rewrite filter_none; [done|].
    eapply Forall_impl; [exact Hfresh|]. intros u Hne. simpl in *.
    by apply Z.eqb_neq. }
  unfold get_current_super_admin, get_current_admin, get_current_user_required,
    get_current_user.
  by rewrite Hv, Ht, Hi, Hf.
Qed.

Lemma seeded_admin_passes_gates_witness :
  get_current_super_admin sample_verify_token sample_int_of_str (Some (lit "4"))
    (users sample_seeded)
  = Granted (admin_row sample_admin_email (lit "h") (users_seq sample_tables))
  /\ get_current_admin sample_verify_token sample_int_of_str (Some (lit "4"))
       (users sample_seeded)
     = Granted (admin_row sample_admin_email (lit "h") (users_seq sample_tables)).
Proof.
  apply (seeded_admin_passes_gates sample_verify_token sample_int_of_str
           sample_admin_email (lit "h") 2025 10 20 sample_tables sample_seeded
           (lit "4") (lit "4")).
  - vm_compute. reflexivity.
  - apply (bool_decide_unpack _). vm_compute. exact I.
  - vm_compute. reflexivity.
  - vm_compute. reflexivity.
  - vm_compute. reflexivity.
  - vm_compute. reflexivity.
Defined.
